(** * Form builder: validation, multi-step partition, ingestion, analytics

  A shallow embedding of the form-definition / validation /
  submission-ingestion pipeline of the form-builder application:

  - [frontend/src/pages/PublicForm.tsx] and
    [frontend/src/components/FormPreview.tsx]: [getFieldsForStep],
    [validateField], [validateStep];
  - [frontend/src/pages/PublicForm.tsx] as a page: its state and the
    handlers behind its inputs and buttons;
  - [frontend/src/pages/FormBuilder.tsx]: the field-list handlers,
    loading and saving;
  - [frontend/src/components/FieldConfigPanel.tsx]: the options block;
  - [backend/src/routes/submissions.ts]: [validateSubmission] and the
    POST and DELETE handlers;
  - [backend/src/routes/forms.ts]: reading, updating, deleting,
    publishing and unpublishing a form;
  - [backend/src/routes/analytics.ts]: the per-field statistics and
    the daily series of GET /form/:formId, the lines of the CSV export;
  - [frontend/src/lib/api.ts]: [resolveBaseUrl].

  Conventions.  A JavaScript string is a [string] (code units below
  256), a JavaScript number that the pipeline handles is an integer
  [Z] (counters, lengths, indices, timestamps in milliseconds) and
  prints in decimal, an optional property is an [option].  The
  document store is explicit state: the Form collection is a [gmap]
  from ObjectId to [Form.t], the Submission collection a list in
  insertion order. *)

From Stdlib Require Import ZArith QArith Ascii String List Bool Lia Sorted Permutation.
From stdpp Require Import base tactics option list gmap strings pretty.

Set Warnings "-register-all".

Local Open Scope Z_scope.
Local Open Scope string_scope.
Local Open Scope list_scope.

(** ** JavaScript values *)

Module Js.

(** The values a form input or a JSON body can carry.  [VObj hollow] is
    an object, opaque but for one bit: it is hollow when it has no
    property of its own to store ([{}], a [File], whose JSON text is
    [{}], or an object that holds nothing but hollow objects). *)
Inductive value : Type :=
| VUndefined
| VNull
| VBool (b : bool)
| VNum (n : Z)
| VStr (s : string)
| VArr (l : list value)
| VObj (hollow : bool).

(** ToBoolean. *)
Definition truthy (v : value) : bool :=
  match v with
  | VUndefined | VNull => false
  | VBool b => b
  | VNum n => negb (n =? 0)%Z
  | VStr s => negb (String.eqb s "")
  | VArr _ | VObj _ => true
  end.

(** [v === ''] *)
Definition is_empty_string (v : value) : bool :=
  match v with
  | VStr s => String.eqb s ""
  | _ => false
  end.

(** [Array.isArray(v)] *)
Definition isArray (v : value) : bool :=
  match v with VArr _ => true | _ => false end.

(** ToString; an array is its elements joined by a comma, where
    [undefined] and [null] elements print as the empty string. *)
Fixpoint toString (v : value) : string :=
  match v with
  | VUndefined => "undefined"
  | VNull => "null"
  | VBool true => "true"
  | VBool false => "false"
  | VNum n => pretty n
  | VStr s => s
  | VArr l =>
      String.concat ","
        (map (fun x => match x with
                       | VUndefined | VNull => ""
                       | _ => toString x
                       end) l)
  | VObj _ => "[object Object]"
  end.

(** [arr.join(sep)] *)
Definition join (sep : string) (l : list value) : string :=
  String.concat sep
    (map (fun x => match x with
                   | VUndefined | VNull => ""
                   | _ => toString x
                   end) l).

(** [v.length]: defined on strings and arrays, [undefined] elsewhere. *)
Definition length (v : value) : option Z :=
  match v with
  | VStr s => Some (Z.of_nat (String.length s))
  | VArr l => Some (Z.of_nat (List.length l))
  | _ => None
  end.

(** [a < b] where [a] may be [undefined] (then the comparison is false). *)
Definition lt (a : option Z) (b : Z) : bool :=
  match a with Some x => (x <? b)%Z | None => false end.

Definition gt (a : option Z) (b : Z) : bool :=
  match a with Some x => (b <? x)%Z | None => false end.

(** [options.includes(v)] for an array of strings: SameValueZero finds
    [v] only when [v] is a string equal to one of the options. *)
Definition includes (opts : list string) (v : value) : bool :=
  match v with
  | VStr s => existsb (String.eqb s) opts
  | _ => false
  end.

(** SameValueZero on values used as [Map] keys.  Objects and arrays are
    compared by reference; every stored document is deserialised into
    fresh objects, so two of them are never the same key. *)
Definition sameValueZero (a b : value) : bool :=
  match a, b with
  | VUndefined, VUndefined => true
  | VNull, VNull => true
  | VBool x, VBool y => Bool.eqb x y
  | VNum x, VNum y => (x =? y)%Z
  | VStr x, VStr y => String.eqb x y
  | _, _ => false
  end.

End Js.

(** ** Regular expressions (the fragment used by [emailRegex]) *)

Module Regex.

Inductive t : Type :=
| Void
| Eps
| Class (p : ascii -> bool)
| Cat (r1 r2 : t)
| Alt (r1 r2 : t)
| Star (r : t).

Definition Plus (r : t) : t := Cat r (Star r).

Fixpoint nullable (r : t) : bool :=
  match r with
  | Void => false
  | Eps => true
  | Class _ => false
  | Cat r1 r2 => nullable r1 && nullable r2
  | Alt r1 r2 => nullable r1 || nullable r2
  | Star _ => true
  end.

(** Brzozowski derivative. *)
Fixpoint deriv (c : ascii) (r : t) : t :=
  match r with
  | Void => Void
  | Eps => Void
  | Class p => if p c then Eps else Void
  | Cat r1 r2 =>
      if nullable r1
      then Alt (Cat (deriv c r1) r2) (deriv c r2)
      else Cat (deriv c r1) r2
  | Alt r1 r2 => Alt (deriv c r1) (deriv c r2)
  | Star r1 => Cat (deriv c r1) (Star r1)
  end.

(** [matches r s]: the whole of [s] is in the language of [r]
    (a pattern anchored by [^] and [$]). *)
Fixpoint matches (r : t) (s : string) : bool :=
  match s with
  | EmptyString => nullable r
  | String c s' => matches (deriv c r) s'
  end.

(** [\s] on code units below 256: tab, line feed, vertical tab, form
    feed, carriage return, space, no-break space. *)
Definition is_space (c : ascii) : bool :=
  let n := nat_of_ascii c in
  (Nat.leb 9 n && Nat.leb n 13) || Nat.eqb n 32 || Nat.eqb n 160.

Definition is_char (a c : ascii) : bool := Ascii.eqb a c.

(** [[^\s@]] *)
Definition not_space_at (c : ascii) : bool :=
  negb (is_space c) && negb (is_char "@" c).

End Regex.

(** ** Data model ([lib/api.ts], [models/Form.ts], [models/Submission.ts]) *)

Inductive FieldType : Type :=
| text | email | select | checkbox | radio | textarea | file.

(** The string a [FieldType] is in the source. *)
Definition typeName (ty : FieldType) : string :=
  match ty with
  | text => "text" | email => "email" | select => "select"
  | checkbox => "checkbox" | radio => "radio" | textarea => "textarea"
  | file => "file"
  end.

Inductive FormStatus : Type := draft | published.

Inductive SubmissionStatus : Type := pending | processed | failed.

(** An ObjectId is its 96-bit number. *)
Abbreviation ObjectId := N (only parsing).

Module Validation.
Record t : Type := mk {
  minLength : option Z;
  maxLength : option Z;
  pattern : option string;
  min : option Z;
  max : option Z
}.
End Validation.

Module FormField.
Record t : Type := mk {
  id : string;
  type : FieldType;
  label : string;
  placeholder : option string;
  required : bool;
  validation : option Validation.t;
  options : option (list string);
  fileTypes : option (list string);
  maxFileSize : option Z;
  order : Z
}.
End FormField.

Module FormSettings.
Record t : Type := mk {
  thankYouMessage : option string;
  submissionLimit : option Z;
  allowMultipleSubmissions : bool;
  redirectUrl : option string;
  isMultiStep : bool;
  steps : option (list string)
}.
End FormSettings.

Module Form.
Record t : Type := mk {
  title : string;
  description : option string;
  fields : list FormField.t;
  settings : FormSettings.t;
  status : FormStatus;
  submissions : Z
}.
End Form.

(** One entry of a submission.  [fieldId] and [fieldType] are strings
    when present ([None] is a missing key); [value] is any value
    ([Js.VUndefined] is a missing key). *)
Module SubmissionField.
Record t : Type := mk {
  fieldId : option string;
  value : Js.value;
  fieldType : option string
}.
End SubmissionField.

Module Metadata.
Record t : Type := mk {
  ipAddress : option string;
  userAgent : option string;
  referrer : option string;
  submittedAt : Z
}.
End Metadata.

Module Submission.
Record t : Type := mk {
  _id : ObjectId;
  formId : ObjectId;
  fields : list SubmissionField.t;
  metadata : Metadata.t;
  status : SubmissionStatus
}.
End Submission.

(** ** The public renderer ([pages/PublicForm.tsx]) *)

(** [Math.ceil(n / k)] on non-negative integers, [k > 0]. *)
Definition ceil_div (n k : nat) : nat := (n + (k - 1)) / k.

(** [arr.slice(startIndex, endIndex)] for [0 <= startIndex <= endIndex];
    both ends are clipped to the length of the array. *)
Definition slice {A : Type} (startIndex endIndex : nat) (l : list A) : list A :=
  take (endIndex - startIndex) (drop startIndex l).

Module PublicForm.

(** [const steps = form?.settings?.isMultiStep ? form.settings.steps || [] : []] *)
Definition steps (form : Form.t) : list string :=
  if FormSettings.isMultiStep (Form.settings form)
  then default [] (FormSettings.steps (Form.settings form))
  else [].

(** [const isMultiStep = form?.settings?.isMultiStep && steps.length > 0] *)
Definition isMultiStep (form : Form.t) : bool :=
  FormSettings.isMultiStep (Form.settings form)
  && Nat.ltb 0 (List.length (steps form)).

Definition getFieldsForStep (form : Form.t) (stepIndex : nat) : list FormField.t :=
  if negb (isMultiStep form) then Form.fields form
  else
    let fieldsPerStep := ceil_div (List.length (Form.fields form)) (List.length (steps form)) in
    let startIndex := (stepIndex * fieldsPerStep)%nat in
    let endIndex := (startIndex + fieldsPerStep)%nat in
    slice startIndex endIndex (Form.fields form).

(** [/^[^\s@]+@[^\s@]+\.[^\s@]+$/] *)
Definition emailRegex : Regex.t :=
  Regex.Cat (Regex.Plus (Regex.Class Regex.not_space_at))
    (Regex.Cat (Regex.Class (Regex.is_char "@"))
       (Regex.Cat (Regex.Plus (Regex.Class Regex.not_space_at))
          (Regex.Cat (Regex.Class (Regex.is_char "."))
             (Regex.Plus (Regex.Class Regex.not_space_at))))).

(** [field.validation?.minLength] as a condition: set and non-zero. *)
Definition bound (sel : Validation.t -> option Z) (field : FormField.t) : option Z :=
  match FormField.validation field with
  | Some v => match sel v with
              | Some n => if (n =? 0)%Z then None else Some n
              | None => None
              end
  | None => None
  end.

(** The [switch (field.type)] of [validateField]; [Some msg] is a
    [return msg] inside the switch, [None] is leaving it by [break].
    [tooShort] is [minLength && value.length < minLength], [tooLong] is
    [maxLength && value.length > maxLength]. *)
Definition typeRule (field : FormField.t) (value : Js.value) : option string :=
  match FormField.type field with
  | email =>
      if negb (Regex.matches emailRegex (Js.toString value))
      then Some (FormField.label field +:+ " must be a valid email")
      else None
  | text | textarea =>
      let tooShort :=
        match bound Validation.minLength field with
        | Some n => Js.lt (Js.length value) n
        | None => false
        end in
      let tooLong :=
        match bound Validation.maxLength field with
        | Some m => Js.gt (Js.length value) m
        | None => false
        end in
      if tooShort
      then Some (FormField.label field +:+ " must be at least "
                 +:+ pretty (default 0 (bound Validation.minLength field)) +:+ " characters")
      else if tooLong
      then Some (FormField.label field +:+ " must be less than "
                 +:+ pretty (default 0 (bound Validation.maxLength field)) +:+ " characters")
      else None
  | select | radio =>
      match FormField.options field with
      | Some opts =>
          if negb (Js.includes opts value)
          then Some (FormField.label field +:+ " has an invalid option selected")
          else None
      | None => None
      end
  | checkbox =>
      match value with
      | Js.VArr vals =>
          match FormField.options field with
          | Some opts =>
              if forallb (Js.includes opts) vals then None
              else Some (FormField.label field +:+ " has an invalid option selected")
          | None => None
          end
      | _ => None
      end
  | file => None
  end.

(** [validateField]: the empty string is "no error". *)
Definition validateField (field : FormField.t) (value : Js.value) : string :=
  if FormField.required field && (negb (Js.truthy value) || Js.is_empty_string value)
  then FormField.label field +:+ " is required"
  else if Js.truthy value && negb (Js.is_empty_string value)
  then default "" (typeRule field value)
  else "".

(** [validateStep]: the errors object holds one message per field of the
    current step whose check returned a non-empty message; the step is
    valid when the object has no key.  [formData[field.id]] is
    [undefined] for a field the user has not touched. *)
Definition stepErrors (form : Form.t) (currentStep : nat)
    (formData : gmap string Js.value) : gmap string string :=
  foldl (fun newErrors field =>
           let error := validateField field
                          (default Js.VUndefined (formData !! FormField.id field)) in
           if negb (String.eqb error "")
           then <[FormField.id field := error]> newErrors
           else newErrors)
        ∅ (getFieldsForStep form currentStep).

Definition validateStep (form : Form.t) (currentStep : nat)
    (formData : gmap string Js.value) : bool :=
  bool_decide (stepErrors form currentStep formData = ∅).


End PublicForm.

(** ** The preview component ([components/FormPreview.tsx])

    The component carries its own copies of [getFieldsForStep] and
    [validateField]; they are transcribed here from that file. *)

Module FormPreview.


(** [const steps = form.settings?.isMultiStep ? form.settings.steps || [] : []] *)
Definition steps (form : Form.t) : list string :=
  if FormSettings.isMultiStep (Form.settings form)
  then default [] (FormSettings.steps (Form.settings form))
  else [].

(** [const isMultiStep = form.settings?.isMultiStep && steps.length > 0] *)
Definition isMultiStep (form : Form.t) : bool :=
  FormSettings.isMultiStep (Form.settings form)
  && Nat.ltb 0 (List.length (steps form)).

Definition getFieldsForStep (form : Form.t) (stepIndex : nat) : list FormField.t :=
  if negb (isMultiStep form) then Form.fields form
  else
    let fieldsPerStep := ceil_div (List.length (Form.fields form)) (List.length (steps form)) in
    let startIndex := (stepIndex * fieldsPerStep)%nat in
    let endIndex := (startIndex + fieldsPerStep)%nat in
    slice startIndex endIndex (Form.fields form).

(** [/^[^\s@]+@[^\s@]+\.[^\s@]+$/] *)
Definition emailRegex : Regex.t :=
  Regex.Cat (Regex.Plus (Regex.Class Regex.not_space_at))
    (Regex.Cat (Regex.Class (Regex.is_char "@"))
       (Regex.Cat (Regex.Plus (Regex.Class Regex.not_space_at))
          (Regex.Cat (Regex.Class (Regex.is_char "."))
             (Regex.Plus (Regex.Class Regex.not_space_at))))).

(** [field.validation?.minLength] as a condition: set and non-zero. *)
Definition bound (sel : Validation.t -> option Z) (field : FormField.t) : option Z :=
  match FormField.validation field with
  | Some v => match sel v with
              | Some n => if (n =? 0)%Z then None else Some n
              | None => None
              end
  | None => None
  end.

(** The [switch (field.type)] of [validateField]; [Some msg] is a
    [return msg] inside the switch, [None] is leaving it by [break].
    [tooShort] is [minLength && value.length < minLength], [tooLong] is
    [maxLength && value.length > maxLength]. *)
Definition typeRule (field : FormField.t) (value : Js.value) : option string :=
  match FormField.type field with
  | email =>
      if negb (Regex.matches emailRegex (Js.toString value))
      then Some (FormField.label field +:+ " must be a valid email")
      else None
  | text | textarea =>
      let tooShort :=
        match bound Validation.minLength field with
        | Some n => Js.lt (Js.length value) n
        | None => false
        end in
      let tooLong :=
        match bound Validation.maxLength field with
        | Some m => Js.gt (Js.length value) m
        | None => false
        end in
      if tooShort
      then Some (FormField.label field +:+ " must be at least "
                 +:+ pretty (default 0 (bound Validation.minLength field)) +:+ " characters")
      else if tooLong
      then Some (FormField.label field +:+ " must be less than "
                 +:+ pretty (default 0 (bound Validation.maxLength field)) +:+ " characters")
      else None
  | select | radio =>
      match FormField.options field with
      | Some opts =>
          if negb (Js.includes opts value)
          then Some (FormField.label field +:+ " has an invalid option selected")
          else None
      | None => None
      end
  | checkbox =>
      match value with
      | Js.VArr vals =>
          match FormField.options field with
          | Some opts =>
              if forallb (Js.includes opts) vals then None
              else Some (FormField.label field +:+ " has an invalid option selected")
          | None => None
          end
      | _ => None
      end
  | file => None
  end.

(** [validateField]: the empty string is "no error". *)
Definition validateField (field : FormField.t) (value : Js.value) : string :=
  if FormField.required field && (negb (Js.truthy value) || Js.is_empty_string value)
  then FormField.label field +:+ " is required"
  else if Js.truthy value && negb (Js.is_empty_string value)
  then default "" (typeRule field value)
  else "".

(** [validateStep]: the errors object holds one message per field of the
    current step whose check returned a non-empty message; the step is
    valid when the object has no key.  [formData[field.id]] is
    [undefined] for a field the user has not touched. *)
Definition stepErrors (form : Form.t) (currentStep : nat)
    (formData : gmap string Js.value) : gmap string string :=
  foldl (fun newErrors field =>
           let error := validateField field
                          (default Js.VUndefined (formData !! FormField.id field)) in
           if negb (String.eqb error "")
           then <[FormField.id field := error]> newErrors
           else newErrors)
        ∅ (getFieldsForStep form currentStep).

Definition validateStep (form : Form.t) (currentStep : nat)
    (formData : gmap string Js.value) : bool :=
  bool_decide (stepErrors form currentStep formData = ∅).


End FormPreview.

(** ** The builder ([pages/FormBuilder.tsx])

    The handlers act on [form.fields]; [generateId()] is the [newId]
    argument.  The [selectedField] state is not part of the model. *)

Module FormBuilder.

(** [s.charAt(0).toUpperCase() + s.slice(1)] on lower-case ASCII letters. *)
Definition capitalize (s : string) : string :=
  match s with
  | EmptyString => EmptyString
  | String c r =>
      let n := nat_of_ascii c in
      String (if Nat.leb 97 n && Nat.leb n 122 then ascii_of_nat (n - 32) else c) r
  end.

Definition hasOptions (ty : FieldType) : bool :=
  match ty with select | radio | checkbox => true | _ => false end.

Definition isFile (ty : FieldType) : bool :=
  match ty with file => true | _ => false end.

Definition handleAddField (newId : string) (fieldType : FieldType)
    (fields : list FormField.t) : list FormField.t :=
  let newField :=
    {| FormField.id := newId;
       FormField.type := fieldType;
       FormField.label := "New " +:+ capitalize (typeName fieldType) +:+ " Field";
       FormField.placeholder := Some "";
       FormField.required := false;
       FormField.validation := None;
       FormField.options := if hasOptions fieldType then Some ["Option 1"] else None;
       FormField.fileTypes := if isFile fieldType then Some ["image/jpeg"; "image/png"] else None;
       FormField.maxFileSize := if isFile fieldType then Some 5242880 else None;
       FormField.order := Z.of_nat (List.length fields) |} in
  fields ++ [newField].

Definition handleDeleteField (fieldId : string)
    (fields : list FormField.t) : list FormField.t :=
  List.filter (fun field => negb (String.eqb (FormField.id field) fieldId)) fields.

Definition handleDuplicateField (newId : string) (field : FormField.t)
    (fields : list FormField.t) : list FormField.t :=
  let duplicatedField :=
    {| FormField.id := newId;
       FormField.type := FormField.type field;
       FormField.label := FormField.label field +:+ " (Copy)";
       FormField.placeholder := FormField.placeholder field;
       FormField.required := FormField.required field;
       FormField.validation := FormField.validation field;
       FormField.options := FormField.options field;
       FormField.fileTypes := FormField.fileTypes field;
       FormField.maxFileSize := FormField.maxFileSize field;
       FormField.order := Z.of_nat (List.length fields) |} in
  fields ++ [duplicatedField].

(** [{ ...field, order: index }] *)
Definition withOrder (field : FormField.t) (index : nat) : FormField.t :=
  {| FormField.id := FormField.id field;
     FormField.type := FormField.type field;
     FormField.label := FormField.label field;
     FormField.placeholder := FormField.placeholder field;
     FormField.required := FormField.required field;
     FormField.validation := FormField.validation field;
     FormField.options := FormField.options field;
     FormField.fileTypes := FormField.fileTypes field;
     FormField.maxFileSize := FormField.maxFileSize field;
     FormField.order := Z.of_nat index |}.

(** [fields.map((field, index) => ({ ...field, order: index }))] *)
Definition reindex (fields : list FormField.t) : list FormField.t :=
  imap (fun index field => withOrder field index) fields.

(** [handleDragEnd]: [destination = None] is a drop outside the list
    (the handler returns at once).  The drag-and-drop library reports
    the index of an existing draggable as [source]; for an index out of
    range the source would splice an [undefined] element in, which is
    not a [FormField.t], and the model returns [None]. *)
Definition handleDragEnd (source : nat) (destination : option nat)
    (fields : list FormField.t) : option (list FormField.t) :=
  match destination with
  | None => Some fields
  | Some dest =>
      match fields !! source with
      | None => None
      | Some reorderedField =>
          let removed := take source fields ++ drop (S source) fields in
          let inserted := take dest removed ++ reorderedField :: drop dest removed in
          Some (reindex inserted)
      end
  end.

End FormBuilder.

(** ** express-validator and validator.js, as used by [validateSubmission]

    The library functions the route calls, written out: [toString] of
    express-validator's utilities, [isEmpty], [isHexadecimal] and
    [isMongoId] of validator.js, and the run of a standard validator,
    which checks an array value item by item. *)

Module ExpressValidator.

Module ValidationError.
Record t : Type := mk {
  path : string;
  msg : string;
  value : Js.value
}.
End ValidationError.

(** [null] and [undefined] print as the empty string, an object by its
    own [toString()], everything else by [String(value)]. *)
Definition toString (v : Js.value) : string :=
  match v with
  | Js.VUndefined | Js.VNull => ""
  | _ => Js.toString v
  end.

(** [isEmpty(str)]: [str.length === 0] *)
Definition isEmpty (str : string) : bool := Nat.eqb (String.length str) 0.

Definition is_hex_digit (c : ascii) : bool :=
  let n := nat_of_ascii c in
  (Nat.leb 48 n && Nat.leb n 57) || (Nat.leb 65 n && Nat.leb n 70)
  || (Nat.leb 97 n && Nat.leb n 102).

Definition is_one_of (a b : ascii) (c : ascii) : bool :=
  Ascii.eqb a c || Ascii.eqb b c.

(** [/^(0x|0h)?[0-9A-F]+$/i] *)
Definition hexadecimal : Regex.t :=
  Regex.Cat
    (Regex.Alt Regex.Eps
       (Regex.Alt
          (Regex.Cat (Regex.Class (Regex.is_char "0")) (Regex.Class (is_one_of "x" "X")))
          (Regex.Cat (Regex.Class (Regex.is_char "0")) (Regex.Class (is_one_of "h" "H")))))
    (Regex.Plus (Regex.Class is_hex_digit)).

Definition isHexadecimal (str : string) : bool := Regex.matches hexadecimal str.

(** [isMongoId(str)]: [isHexadecimal(str) && str.length === 24] *)
Definition isMongoId (str : string) : bool :=
  isHexadecimal str && Nat.eqb (String.length str) 24.

(** The run of a standard validator on one selected field: the values
    to check are the items of an array value, or the value itself; each
    one that fails adds an error carrying that item. *)
Definition run (validator : string -> bool) (negated : bool)
    (path message : string) (value : Js.value) : list ValidationError.t :=
  let values := match value with Js.VArr l => l | _ => [value] end in
  map (fun v => ValidationError.mk path message v)
      (List.filter (fun v =>
                      let result := validator (toString v) in
                      if negated then result else negb result)
                   values).

(** [.notEmpty()] is [.not().isEmpty()]. *)
Definition notEmpty : string -> string -> Js.value -> list ValidationError.t :=
  run isEmpty true.

End ExpressValidator.

(** ** The document store *)

Module Store.
Record t : Type := mk {
  forms : gmap N Form.t;
  submissions : list Submission.t;
  (** the next [_id] the driver hands out *)
  next_id : N
}.
End Store.

(** Casting a string to an ObjectId: 24 hexadecimal digits; anything
    else is a [CastError] ([None]).  (The legacy 12-byte string form is
    not modelled.) *)
Definition hex_value (c : ascii) : option N :=
  let n := N_of_ascii c in
  if ((48 <=? n) && (n <=? 57))%N then Some (n - 48)%N
  else if ((65 <=? n) && (n <=? 70))%N then Some (n - 55)%N
  else if ((97 <=? n) && (n <=? 102))%N then Some (n - 87)%N
  else None.

Fixpoint parse_hex (acc : N) (s : string) : option N :=
  match s with
  | EmptyString => Some acc
  | String c r =>
      match hex_value c with
      | Some d => parse_hex (16 * acc + d)%N r
      | None => None
      end
  end.

Definition castObjectId (s : string) : option N :=
  if Nat.eqb (String.length s) 24 then parse_hex 0%N s else None.

(** [{ $inc: { submissions: delta } }] *)
Definition inc_submissions (delta : Z) (form : Form.t) : Form.t :=
  {| Form.title := Form.title form;
     Form.description := Form.description form;
     Form.fields := Form.fields form;
     Form.settings := Form.settings form;
     Form.status := Form.status form;
     Form.submissions := Form.submissions form + delta |}.

(** ** The submission routes ([routes/submissions.ts])

    A request here is one that the rate limiter has let through; its
    body has a string [formId] and an array of objects as [fields]
    (so the [isArray] check of the chain passes). *)

Module Submissions.

Module Request.
Record t : Type := mk {
  formId : string;
  fields : list SubmissionField.t;
  ip : option string;
  userAgent : option string
}.
End Request.

Inductive response : Type :=
| Created (data : Submission.t)
| Success (message : string)
| Failure (status : Z) (error : string)
    (details : option (list ExpressValidator.ValidationError.t)).

Definition opt_value (o : option string) : Js.value :=
  match o with Some s => Js.VStr s | None => Js.VUndefined end.

(** The four chains of [validateSubmission], in order; a wildcard chain
    visits the entries by index. *)
Definition validateSubmission (body : Request.t)
    : list ExpressValidator.ValidationError.t :=
  (if ExpressValidator.isMongoId (Request.formId body) then []
   else [ExpressValidator.ValidationError.mk "formId" "Valid form ID is required"
           (Js.VStr (Request.formId body))])
  ++ concat (imap (fun i entry =>
                     ExpressValidator.notEmpty
                       ("fields[" +:+ pretty i +:+ "].fieldId") "Field ID is required"
                       (opt_value (SubmissionField.fieldId entry)))
               (Request.fields body))
  ++ concat (imap (fun i entry =>
                     ExpressValidator.notEmpty
                       ("fields[" +:+ pretty i +:+ "].value") "Field value is required"
                       (SubmissionField.value entry))
               (Request.fields body)).

(** The validators that [save()] runs from [SubmissionFieldSchema]:
    a required String is a non-empty string, a required Mixed is
    neither [null] nor [undefined]. *)
Definition requiredString (o : option string) : bool :=
  match o with
  | Some s => negb (Nat.eqb (String.length s) 0)
  | None => false
  end.

Definition requiredMixed (v : Js.value) : bool :=
  match v with
  | Js.VUndefined | Js.VNull => false
  | _ => true
  end.

Definition schemaValid (fields : list SubmissionField.t) : bool :=
  forallb (fun entry =>
             requiredString (SubmissionField.fieldId entry)
             && requiredMixed (SubmissionField.value entry)
             && requiredString (SubmissionField.fieldType entry))
          fields.

(** What a document keeps of a Mixed value: Mongoose minimizes a
    document when it is saved and when it is sent as JSON, so a value
    that is a hollow object is left out; every other value, an array
    with its items included, is kept as it is. *)
Definition minimize (v : Js.value) : Js.value :=
  match v with
  | Js.VObj true => Js.VUndefined
  | _ => v
  end.

(** The entries of a submission document made from the entries sent. *)
Definition stored (fields : list SubmissionField.t) : list SubmissionField.t :=
  map (fun entry =>
         {| SubmissionField.fieldId := SubmissionField.fieldId entry;
            SubmissionField.value := minimize (SubmissionField.value entry);
            SubmissionField.fieldType := SubmissionField.fieldType entry |})
      fields.

Definition serverError (error : string) : response := Failure 500 error None.

(** [router.post('/')].  A thrown error (a [CastError] of [findById], a
    schema error of [save()]) is the [catch] branch.  The validators of
    [save()] see the values as sent; the document stored, which is also
    the [data] of the answer, is the minimized one. *)
Definition post (now : Z) (req : Request.t) (db : Store.t) : response * Store.t :=
  let errors := validateSubmission req in
  if negb (Nat.eqb (List.length errors) 0)
  then (Failure 400 "Validation failed" (Some errors), db)
  else
    match castObjectId (Request.formId req) with
    | None => (serverError "Failed to create submission", db)
    | Some formId =>
        match Store.forms db !! formId with
        | None => (Failure 404 "Form not found" None, db)
        | Some form =>
            match Form.status form with
            | draft => (Failure 400 "Form is not published" None, db)
            | published =>
                let submission :=
                  {| Submission._id := Store.next_id db;
                     Submission.formId := formId;
                     Submission.fields := stored (Request.fields req);
                     Submission.metadata :=
                       {| Metadata.ipAddress := Request.ip req;
                          Metadata.userAgent := Request.userAgent req;
                          Metadata.referrer := None;
                          Metadata.submittedAt := now |};
                     Submission.status := pending |} in
                if negb (schemaValid (Request.fields req))
                then (serverError "Failed to create submission", db)
                else
                  (* await submission.save() *)
                  let db1 :=
                    {| Store.forms := Store.forms db;
                       Store.submissions := Store.submissions db ++ [submission];
                       Store.next_id := (Store.next_id db + 1)%N |} in
                  (* await Form.findByIdAndUpdate(formId, { $inc: { submissions: 1 } }) *)
                  let db2 :=
                    {| Store.forms := alter (inc_submissions 1) formId (Store.forms db1);
                       Store.submissions := Store.submissions db1;
                       Store.next_id := Store.next_id db1 |} in
                  (Created submission, db2)
            end
        end
    end.

(** [Submission.findByIdAndDelete(id)]: the first document with that
    [_id], and the collection without it. *)
Fixpoint findByIdAndDelete (id : N) (coll : list Submission.t)
    : option (Submission.t * list Submission.t) :=
  match coll with
  | [] => None
  | s :: rest =>
      if (Submission._id s =? id)%N then Some (s, rest)
      else
        match findByIdAndDelete id rest with
        | Some (found, rest') => Some (found, s :: rest')
        | None => None
        end
  end.

(** [router.delete('/:id')] *)
Definition delete (id : string) (db : Store.t) : response * Store.t :=
  match castObjectId id with
  | None => (serverError "Failed to delete submission", db)
  | Some oid =>
      match findByIdAndDelete oid (Store.submissions db) with
      | None => (Failure 404 "Submission not found" None, db)
      | Some (submission, rest) =>
          let db1 :=
            {| Store.forms := Store.forms db;
               Store.submissions := rest;
               Store.next_id := Store.next_id db |} in
          (* await Form.findByIdAndUpdate(submission.formId, { $inc: { submissions: -1 } }) *)
          let db2 :=
            {| Store.forms :=
                 alter (inc_submissions (-1)) (Submission.formId submission) (Store.forms db1);
               Store.submissions := Store.submissions db1;
               Store.next_id := Store.next_id db1 |} in
          (Success "Submission deleted successfully", db2)
      end
  end.

End Submissions.

(** ** JavaScript [Map], in insertion order *)

Module JsMap.
Section Ops.
Context {K V : Type} (eqb : K -> K -> bool).

Fixpoint get (m : list (K * V)) (k : K) : option V :=
  match m with
  | [] => None
  | (k', v) :: rest => if eqb k' k then Some v else get rest k
  end.

(** [m.set(k, v)]: an existing key keeps its position, a new key goes
    to the end. *)
Fixpoint set (m : list (K * V)) (k : K) (v : V) : list (K * V) :=
  match m with
  | [] => [(k, v)]
  | (k', v') :: rest =>
      if eqb k' k then (k', v) :: rest else (k', v') :: set rest k v
  end.

(** No two keys of the map are equal. *)
Inductive distinctKeys : list (K * V) -> Prop :=
| distinct_nil : distinctKeys []
| distinct_cons (k : K) (v : V) (m : list (K * V)) :
    (forall k' v', (k', v') ∈ m -> eqb k k' = false) ->
    distinctKeys m -> distinctKeys ((k, v) :: m).

End Ops.
End JsMap.

(** ** The form analytics route ([routes/analytics.ts], GET /form/:formId)

    The per-field statistics and the two totals.  The daily series and
    the average per day (calendar arithmetic on [Date]) are left out.
    [responseRate] is the exact quotient; the source prints it with
    [toFixed(2)]. *)

Module Analytics.

Module Stats.
Record t : Type := mk {
  count : Z;
  values : list (Js.value * Z)
}.
End Stats.

Module FieldStat.
Record t : Type := mk {
  fieldId : string;
  label : string;
  type : string;
  responseCount : Z;
  responseRate : Q;
  topValues : list (Js.value * Z)
}.
End FieldStat.

Module Report.
Record t : Type := mk {
  totalSubmissions : Z;
  periodSubmissions : Z;
  fieldStats : list FieldStat.t
}.
End Report.

Definition day : Z := 24 * 60 * 60 * 1000.

(** The [switch (period)]: the start of the range. *)
Definition startDate (now : Z) (period : string) : Z :=
  if String.eqb period "7d" then now - 7 * day
  else if String.eqb period "30d" then now - 30 * day
  else if String.eqb period "90d" then now - 90 * day
  else if String.eqb period "1y" then now - 365 * day
  else now - 30 * day.

(** [Submission.find({ formId, 'metadata.submittedAt': { $gte: startDate } })] *)
Definition find (formId : N) (start : Z) (coll : list Submission.t) : list Submission.t :=
  List.filter (fun s => (Submission.formId s =? formId)%N
                        && (start <=? Metadata.submittedAt (Submission.metadata s))%Z)
              coll.

(** [form.fields.forEach(field => fieldStats.set(field.id, { count: 0, values: new Map() }))] *)
Definition initStats (fields : list FormField.t) : list (string * Stats.t) :=
  foldl (fun fieldStats field =>
           JsMap.set String.eqb fieldStats (FormField.id field) (Stats.mk 0 []))
        [] fields.

(** The key under which a truthy value is counted: an array is joined
    to one string, any other value is its own key. *)
Definition valueKey (v : Js.value) : Js.value :=
  match v with
  | Js.VArr l => Js.VStr (Js.join ", " l)
  | _ => v
  end.

(** The body of the inner [forEach]: one entry of one submission.  The
    [stats] object is updated in place, so the entry of [fieldStats]
    keeps its position. *)
Definition recordField (fieldStats : list (string * Stats.t))
    (field : SubmissionField.t) : list (string * Stats.t) :=
  match SubmissionField.fieldId field with
  | None => fieldStats
  | Some fieldId =>
      match JsMap.get String.eqb fieldStats fieldId with
      | None => fieldStats
      | Some stats =>
          let count' := Stats.count stats + 1 in
          let values' :=
            if Js.truthy (SubmissionField.value field)
            then
              let value := valueKey (SubmissionField.value field) in
              JsMap.set Js.sameValueZero (Stats.values stats) value
                (default 0 (JsMap.get Js.sameValueZero (Stats.values stats) value) + 1)
            else Stats.values stats in
          JsMap.set String.eqb fieldStats fieldId (Stats.mk count' values')
      end
  end.

Definition recordSubmission (fieldStats : list (string * Stats.t))
    (submission : Submission.t) : list (string * Stats.t) :=
  foldl recordField fieldStats (Submission.fields submission).

Definition collect (form : Form.t) (submissions : list Submission.t)
    : list (string * Stats.t) :=
  foldl recordSubmission (initStats (Form.fields form)) submissions.

(** [.sort((a, b) => b[1] - a[1])]: a stable sort, larger counts first. *)
Fixpoint insertDesc (x : Js.value * Z) (l : list (Js.value * Z)) : list (Js.value * Z) :=
  match l with
  | [] => [x]
  | y :: rest => if (snd x <? snd y)%Z then y :: insertDesc x rest else x :: y :: rest
  end.

Definition sortDesc (l : list (Js.value * Z)) : list (Js.value * Z) :=
  foldr insertDesc [] l.

(** [form.submissions > 0 ? stats.count / form.submissions * 100 : 0] *)
Definition rate (count submissions : Z) : Q :=
  if (0 <? submissions)%Z then (inject_Z count / inject_Z submissions * inject_Z 100)%Q
  else 0%Q.

Definition fieldStat (form : Form.t) (entry : string * Stats.t) : FieldStat.t :=
  let '(fieldId, stats) := entry in
  let formField := List.find (fun f => String.eqb (FormField.id f) fieldId) (Form.fields form) in
  {| FieldStat.fieldId := fieldId;
     FieldStat.label :=
       match formField with
       | Some f => if String.eqb (FormField.label f) "" then fieldId else FormField.label f
       | None => fieldId
       end;
     FieldStat.type :=
       match formField with
       | Some f => typeName (FormField.type f)
       | None => "unknown"
       end;
     FieldStat.responseCount := Stats.count stats;
     FieldStat.responseRate := rate (Stats.count stats) (Form.submissions form);
     FieldStat.topValues := take 5 (sortDesc (Stats.values stats)) |}.

(** [router.get('/form/:formId')], [formId] being the ObjectId of the
    route parameter: [None] is the 404 "Form not found". *)
Definition formAnalytics (now : Z) (formId : N) (period : string) (db : Store.t)
    : option Report.t :=
  match Store.forms db !! formId with
  | None => None
  | Some form =>
      let submissions := find formId (startDate now period) (Store.submissions db) in
      Some {| Report.totalSubmissions := Form.submissions form;
              Report.periodSubmissions := Z.of_nat (List.length submissions);
              Report.fieldStats := map (fieldStat form) (collect form submissions) |}
  end.

End Analytics.

(** ** Predicates used in the statements *)

(** The [order] of every field is its position in the list. *)
Definition orderDense (fields : list FormField.t) : Prop :=
  forall (i : nat) (field : FormField.t),
    fields !! i = Some field -> FormField.order field = Z.of_nat i.

(** The values the presence test of [validateField] takes as absent:
    the falsy ones. *)
Definition falsy (value : Js.value) : Prop :=
  value = Js.VUndefined \/ value = Js.VNull \/ value = Js.VStr ""
  \/ value = Js.VNum 0 \/ value = Js.VBool false.

(** The values that the request gate refuses when they stand alone: a
    missing key, [null], the empty string. *)
Definition blankValue (value : Js.value) : Prop :=
  value = Js.VUndefined \/ value = Js.VNull \/ value = Js.VStr "".

(** What [notEmpty] refuses: a value whose text is empty, or, for an
    array, an array with such an item; the items are checked one by
    one, so the empty array has none to refuse. *)
Definition blankItem (value : Js.value) : bool :=
  ExpressValidator.isEmpty (ExpressValidator.toString value).

Definition refusedValue (value : Js.value) : bool :=
  match value with
  | Js.VArr items => existsb blankItem items
  | _ => blankItem value
  end.

Definition missingFieldId (fieldId : option string) : Prop :=
  fieldId = None \/ fieldId = Some "".

(** The submission that [post] builds for a request. *)
Definition newSubmission (now : Z) (req : Submissions.Request.t)
    (formId : N) (db : Store.t) : Submission.t :=
  {| Submission._id := Store.next_id db;
     Submission.formId := formId;
     Submission.fields := Submissions.stored (Submissions.Request.fields req);
     Submission.metadata :=
       {| Metadata.ipAddress := Submissions.Request.ip req;
          Metadata.userAgent := Submissions.Request.userAgent req;
          Metadata.referrer := None;
          Metadata.submittedAt := now |};
     Submission.status := pending |}.

(** The number of stored submissions that reference a form. *)
Definition submissionCount (formId : N) (coll : list Submission.t) : Z :=
  Z.of_nat (List.length
              (List.filter (fun s => (Submission.formId s =? formId)%N) coll)).

(** The counter of every form is the number of its submissions. *)
Definition countersConsistent (db : Store.t) : Prop :=
  map_Forall (fun formId form =>
                Form.submissions form = submissionCount formId (Store.submissions db))
             (Store.forms db).

(** [{ ...form, fields }]: the same form with other field definitions. *)
Definition withFields (fields : list FormField.t) (form : Form.t) : Form.t :=
  {| Form.title := Form.title form;
     Form.description := Form.description form;
     Form.fields := fields;
     Form.settings := Form.settings form;
     Form.status := Form.status form;
     Form.submissions := Form.submissions form |}.

(** The store in which the form [formId] has the field definitions
    [fields] instead of its own. *)
Definition redefineFields (formId : N) (fields : list FormField.t) (db : Store.t)
    : Store.t :=
  {| Store.forms := alter (withFields fields) formId (Store.forms db);
     Store.submissions := Store.submissions db;
     Store.next_id := Store.next_id db |}.

(** [{ ...form, settings }] and the store in which the form [formId]
    has these settings instead of its own. *)
Definition withSettings (settings : FormSettings.t) (form : Form.t) : Form.t :=
  {| Form.title := Form.title form;
     Form.description := Form.description form;
     Form.fields := Form.fields form;
     Form.settings := settings;
     Form.status := Form.status form;
     Form.submissions := Form.submissions form |}.

Definition resetSettings (formId : N) (settings : FormSettings.t) (db : Store.t)
    : Store.t :=
  {| Store.forms := alter (withSettings settings) formId (Store.forms db);
     Store.submissions := Store.submissions db;
     Store.next_id := Store.next_id db |}.

(** The requests of the submission routes that change the store, and a
    run of them one after the other. *)
Inductive submissionRequest : Type :=
| PostSubmission (now : Z) (req : Submissions.Request.t)
| DeleteSubmission (id : string).

Definition handle (r : submissionRequest) (db : Store.t) : Submissions.response * Store.t :=
  match r with
  | PostSubmission now req => Submissions.post now req db
  | DeleteSubmission id => Submissions.delete id db
  end.

Definition run (rs : list submissionRequest) (db : Store.t) : Store.t :=
  foldl (fun db r => snd (handle r db)) db rs.

(** ** The handlers, one store operation at a time

    Each [await] of a handler is one operation on the store; between two
    of them other requests may run.  A [task] is a handler at one of its
    awaits, [advance] runs it up to the next one. *)

Inductive task : Type :=
| PostFind (now : Z) (req : Submissions.Request.t)
    (* before [Form.findById] *)
| PostSave (now : Z) (req : Submissions.Request.t) (formId : N)
    (* the form was found and is published; before [submission.save()] *)
| PostInc (formId : N) (data : Submission.t)
    (* saved; before [$inc: { submissions: 1 }] *)
| DeleteFind (id : string)
    (* before [Submission.findByIdAndDelete] *)
| DeleteInc (formId : N)
    (* deleted; before [$inc: { submissions: -1 }] *)
| Responded (r : Submissions.response).

Definition advance (t : task) (db : Store.t) : task * Store.t :=
  match t with
  | PostFind now req =>
      let errors := Submissions.validateSubmission req in
      if negb (Nat.eqb (List.length errors) 0)
      then (Responded (Submissions.Failure 400 "Validation failed" (Some errors)), db)
      else
        match castObjectId (Submissions.Request.formId req) with
        | None => (Responded (Submissions.serverError "Failed to create submission"), db)
        | Some formId =>
            match Store.forms db !! formId with
            | None => (Responded (Submissions.Failure 404 "Form not found" None), db)
            | Some form =>
                match Form.status form with
                | draft =>
                    (Responded (Submissions.Failure 400 "Form is not published" None), db)
                | published => (PostSave now req formId, db)
                end
            end
        end
  | PostSave now req formId =>
      if negb (Submissions.schemaValid (Submissions.Request.fields req))
      then (Responded (Submissions.serverError "Failed to create submission"), db)
      else
        (PostInc formId (newSubmission now req formId db),
         {| Store.forms := Store.forms db;
            Store.submissions := Store.submissions db ++ [newSubmission now req formId db];
            Store.next_id := (Store.next_id db + 1)%N |})
  | PostInc formId data =>
      (Responded (Submissions.Created data),
       {| Store.forms := alter (inc_submissions 1) formId (Store.forms db);
          Store.submissions := Store.submissions db;
          Store.next_id := Store.next_id db |})
  | DeleteFind id =>
      match castObjectId id with
      | None => (Responded (Submissions.serverError "Failed to delete submission"), db)
      | Some oid =>
          match Submissions.findByIdAndDelete oid (Store.submissions db) with
          | None => (Responded (Submissions.Failure 404 "Submission not found" None), db)
          | Some (submission, rest) =>
              (DeleteInc (Submission.formId submission),
               {| Store.forms := Store.forms db;
                  Store.submissions := rest;
                  Store.next_id := Store.next_id db |})
          end
      end
  | DeleteInc formId =>
      (Responded (Submissions.Success "Submission deleted successfully"),
       {| Store.forms := alter (inc_submissions (-1)) formId (Store.forms db);
          Store.submissions := Store.submissions db;
          Store.next_id := Store.next_id db |})
  | Responded r => (Responded r, db)
  end.







(** ** Quantities of the analytics statements *)

(** The entries of a list of submissions, in order. *)
Definition entries (subs : list Submission.t) : list SubmissionField.t :=
  concat (map Submission.fields subs).

(** The entry names the field [fieldId]. *)
Definition forField (fieldId : string) (entry : SubmissionField.t) : bool :=
  match SubmissionField.fieldId entry with
  | Some id => String.eqb id fieldId
  | None => false
  end.

(** The number of entries that name the field. *)
Definition entryCount (fieldId : string) (subs : list Submission.t) : Z :=
  Z.of_nat (List.length (List.filter (forField fieldId) (entries subs))).

(** A value that counts as absent: [undefined], [null], the empty
    string, the empty array. *)
Definition isAbsent (value : Js.value) : bool :=
  match value with
  | Js.VUndefined | Js.VNull => true
  | Js.VStr s => String.eqb s ""
  | Js.VArr l => Nat.eqb (List.length l) 0
  | _ => false
  end.

(** The submission has an entry for the field with a value that is not
    absent. *)
Definition answered (fieldId : string) (s : Submission.t) : bool :=
  existsb (fun entry => forField fieldId entry
                        && negb (isAbsent (SubmissionField.value entry)))
          (Submission.fields s).

(** The number of submissions that included a non-empty value for the
    field. *)
Definition respondents (fieldId : string) (subs : list Submission.t) : Z :=
  Z.of_nat (List.length (List.filter (answered fieldId) subs)).

(** The keys under which the truthy values given for the field are
    counted, in order of arrival. *)
Definition countedKeys (fieldId : string) (subs : list Submission.t) : list Js.value :=
  map (fun entry => Analytics.valueKey (SubmissionField.value entry))
      (List.filter (fun entry => forField fieldId entry
                                 && Js.truthy (SubmissionField.value entry))
                   (entries subs)).

(** How often a key occurs among keys, by the equality of [Map]. *)
Definition occurrences (key : Js.value) (keys : list Js.value) : Z :=
  Z.of_nat (List.length (List.filter (Js.sameValueZero key) keys)).

(** Larger counts first. *)
Definition descending (l : list (Js.value * Z)) : Prop :=
  StronglySorted (fun a b => snd b <= snd a) l.

(** [values.set(key, (values.get(key) || 0) + 1)] *)
Definition addKey (values : list (Js.value * Z)) (key : Js.value)
    : list (Js.value * Z) :=
  JsMap.set Js.sameValueZero values key
    (default 0 (JsMap.get Js.sameValueZero values key) + 1).

(** The update of one [stats] object by one entry that names its field. *)
Definition bump (stats : Analytics.Stats.t) (entry : SubmissionField.t)
    : Analytics.Stats.t :=
  {| Analytics.Stats.count := Analytics.Stats.count stats + 1;
     Analytics.Stats.values :=
       if Js.truthy (SubmissionField.value entry)
       then addKey (Analytics.Stats.values stats)
              (Analytics.valueKey (SubmissionField.value entry))
       else Analytics.Stats.values stats |}.

(** ** Forms, stores and requests used as examples *)

Definition nameField : FormField.t :=
  {| FormField.id := "f1"; FormField.type := text; FormField.label := "Name";
     FormField.placeholder := None; FormField.required := true;
     FormField.validation := None; FormField.options := None;
     FormField.fileTypes := None; FormField.maxFileSize := None;
     FormField.order := 0 |}.

Definition colorsField : FormField.t :=
  {| FormField.id := "f2"; FormField.type := checkbox; FormField.label := "Colors";
     FormField.placeholder := None; FormField.required := true;
     FormField.validation := None; FormField.options := Some ["Red"; "Blue"];
     FormField.fileTypes := None; FormField.maxFileSize := None;
     FormField.order := 1 |}.

Definition sevenFieldForm : Form.t :=
  {| Form.title := "Survey"; Form.description := None;
     Form.fields :=
       foldl (fun fields newId => FormBuilder.handleAddField newId text fields) []
         ["a"; "b"; "c"; "d"; "e"; "f"; "g"];
     Form.settings :=
       {| FormSettings.thankYouMessage := None; FormSettings.submissionLimit := None;
          FormSettings.allowMultipleSubmissions := true; FormSettings.redirectUrl := None;
          FormSettings.isMultiStep := true; FormSettings.steps := Some ["A"; "B"; "C"] |};
     Form.status := draft; Form.submissions := 0 |}.

Definition formIdString : string := "507f1f77bcf86cd799439011".

Definition formOid : N := Eval vm_compute in default 0%N (castObjectId formIdString).

(** Every character is a hexadecimal digit. *)
Fixpoint all_hex (s : string) : bool :=
  match s with
  | EmptyString => true
  | String c r => ExpressValidator.is_hex_digit c && all_hex r
  end.

Definition emailField : FormField.t :=
  {| FormField.id := "f2"; FormField.type := email; FormField.label := "Email";
     FormField.placeholder := None; FormField.required := false;
     FormField.validation := None; FormField.options := None;
     FormField.fileTypes := None; FormField.maxFileSize := None;
     FormField.order := 1 |}.

(** A published form with a required text field "Name", an optional
    email field, and a submission limit of 1. *)
Definition contactForm : Form.t :=
  {| Form.title := "Contact"; Form.description := None;
     Form.fields := [nameField; emailField];
     Form.settings :=
       {| FormSettings.thankYouMessage := None; FormSettings.submissionLimit := Some 1;
          FormSettings.allowMultipleSubmissions := true; FormSettings.redirectUrl := None;
          FormSettings.isMultiStep := false; FormSettings.steps := None |};
     Form.status := published; Form.submissions := 0 |}.

Definition contactStore : Store.t :=
  {| Store.forms := {[ formOid := contactForm ]};
     Store.submissions := [];
     Store.next_id := 1%N |}.

(** A submission that leaves "Name" out and sends a malformed email. *)
Definition badEmailRequest : Submissions.Request.t :=
  {| Submissions.Request.formId := formIdString;
     Submissions.Request.fields :=
       [{| SubmissionField.fieldId := Some "f2";
           SubmissionField.value := Js.VStr "not-an-email";
           SubmissionField.fieldType := Some "email" |}];
     Submissions.Request.ip := Some "203.0.113.7";
     Submissions.Request.userAgent := None |}.

(** A submission that passes every field rule of [contactForm]. *)
Definition validRequest : Submissions.Request.t :=
  {| Submissions.Request.formId := formIdString;
     Submissions.Request.fields :=
       [{| SubmissionField.fieldId := Some "f1";
           SubmissionField.value := Js.VStr "Ada";
           SubmissionField.fieldType := Some "text" |};
        {| SubmissionField.fieldId := Some "f2";
           SubmissionField.value := Js.VStr "ada@example.org";
           SubmissionField.fieldType := Some "email" |}];
     Submissions.Request.ip := Some "203.0.113.7";
     Submissions.Request.userAgent := Some "Mozilla/5.0" |}.

Definition emptyEmailRequest : Submissions.Request.t :=
  {| Submissions.Request.formId := formIdString;
     Submissions.Request.fields :=
       [{| SubmissionField.fieldId := Some "f2";
           SubmissionField.value := Js.VStr "";
           SubmissionField.fieldType := Some "email" |}];
     Submissions.Request.ip := None;
     Submissions.Request.userAgent := None |}.

(** One submission that names the email field twice. *)
Definition doubleEntryRequest : Submissions.Request.t :=
  {| Submissions.Request.formId := formIdString;
     Submissions.Request.fields :=
       [{| SubmissionField.fieldId := Some "f2";
           SubmissionField.value := Js.VStr "ada@example.org";
           SubmissionField.fieldType := Some "email" |};
        {| SubmissionField.fieldId := Some "f2";
           SubmissionField.value := Js.VStr "ada@example.com";
           SubmissionField.fieldType := Some "email" |}];
     Submissions.Request.ip := None;
     Submissions.Request.userAgent := None |}.

Definition doubleEntryStore : Store.t :=
  snd (Submissions.post 1000 doubleEntryRequest contactStore).

Definition fileField : FormField.t :=
  {| FormField.id := "f5"; FormField.type := file; FormField.label := "Photo";
     FormField.placeholder := None; FormField.required := false;
     FormField.validation := None; FormField.options := None;
     FormField.fileTypes := Some ["image/jpeg"; "image/png"];
     FormField.maxFileSize := Some 5242880;
     FormField.order := 1 |}.

(** A published form with a required checkbox group and a file field. *)
Definition pollForm : Form.t :=
  {| Form.title := "Poll"; Form.description := None;
     Form.fields := [colorsField; fileField];
     Form.settings :=
       {| FormSettings.thankYouMessage := None; FormSettings.submissionLimit := None;
          FormSettings.allowMultipleSubmissions := true; FormSettings.redirectUrl := None;
          FormSettings.isMultiStep := false; FormSettings.steps := None |};
     Form.status := published; Form.submissions := 0 |}.

Definition pollStore : Store.t :=
  {| Store.forms := {[ formOid := pollForm ]};
     Store.submissions := [];
     Store.next_id := 1%N |}.

(** The answer of a visitor who checked a colour and unchecked it. *)
Definition emptyArrayRequest : Submissions.Request.t :=
  {| Submissions.Request.formId := formIdString;
     Submissions.Request.fields :=
       [{| SubmissionField.fieldId := Some "f2";
           SubmissionField.value := Js.VArr [];
           SubmissionField.fieldType := Some "checkbox" |}];
     Submissions.Request.ip := Some "203.0.113.7";
     Submissions.Request.userAgent := None |}.

(** The answer of a visitor who chose a file: a [File] travels as [{}]. *)
Definition fileRequest : Submissions.Request.t :=
  {| Submissions.Request.formId := formIdString;
     Submissions.Request.fields :=
       [{| SubmissionField.fieldId := Some "f5";
           SubmissionField.value := Js.VObj true;
           SubmissionField.fieldType := Some "file" |}];
     Submissions.Request.ip := Some "203.0.113.7";
     Submissions.Request.userAgent := None |}.

(** ** The language of a regular expression *)

Inductive matchesLang : Regex.t -> string -> Prop :=
| lang_eps : matchesLang Regex.Eps ""
| lang_class (p : ascii -> bool) (c : ascii) :
    p c = true -> matchesLang (Regex.Class p) (String c "")
| lang_cat (r1 r2 : Regex.t) (s1 s2 : string) :
    matchesLang r1 s1 -> matchesLang r2 s2 ->
    matchesLang (Regex.Cat r1 r2) (s1 +:+ s2)
| lang_alt_l (r1 r2 : Regex.t) (s : string) :
    matchesLang r1 s -> matchesLang (Regex.Alt r1 r2) s
| lang_alt_r (r1 r2 : Regex.t) (s : string) :
    matchesLang r2 s -> matchesLang (Regex.Alt r1 r2) s
| lang_star_nil (r : Regex.t) : matchesLang (Regex.Star r) ""
| lang_star_cons (r : Regex.t) (s1 s2 : string) :
    matchesLang r s1 -> matchesLang (Regex.Star r) s2 ->
    matchesLang (Regex.Star r) (s1 +:+ s2).

(** Every character of the string satisfies [p]. *)
Fixpoint allChars (p : ascii -> bool) (s : string) : bool :=
  match s with
  | EmptyString => true
  | String c r => p c && allChars p r
  end.

(** A non-empty run of characters other than white space and [@]. *)
Definition emailPart (s : string) : Prop :=
  s <> "" /\ allChars Regex.not_space_at s = true.

(** ** More example fields *)

(** A textarea with lengths between 3 and 5. *)
Definition bioField : FormField.t :=
  {| FormField.id := "f3"; FormField.type := textarea; FormField.label := "Bio";
     FormField.placeholder := None; FormField.required := false;
     FormField.validation :=
       Some {| Validation.minLength := Some 3; Validation.maxLength := Some 5;
               Validation.pattern := None; Validation.min := None;
               Validation.max := None |};
     FormField.options := None;
     FormField.fileTypes := None; FormField.maxFileSize := None;
     FormField.order := 2 |}.

(** ** JavaScript objects with string keys

    An object is the list of its properties in creation order;
    [Object.keys] and [Object.entries] list the keys that are array
    indices first, in ascending order, and then the other keys in
    creation order. *)

Module JsObject.

Definition is_digit (c : ascii) : bool :=
  let n := nat_of_ascii c in Nat.leb 48 n && Nat.leb n 57.

Fixpoint parse_digits (acc : N) (s : string) : option N :=
  match s with
  | EmptyString => Some acc
  | String c r =>
      if is_digit c
      then parse_digits (10 * acc + (N_of_ascii c - 48))%N r
      else None
  end.

(** A canonical numeric string below [2^32 - 1]: ["0"], or digits that
    do not start with [0]. *)
Definition arrayIndex (key : string) : option N :=
  match key with
  | EmptyString => None
  | String c r =>
      if Ascii.eqb c "0" && negb (Nat.eqb (String.length r) 0) then None
      else
        match parse_digits 0%N key with
        | Some n => if (n <? 4294967295)%N then Some n else None
        | None => None
        end
  end.

Section Ops.
Context {V : Type}.

Definition isIndexEntry (entry : string * V) : bool :=
  match arrayIndex (fst entry) with Some _ => true | None => false end.

Definition indexOf (entry : string * V) : N :=
  default 0%N (arrayIndex (fst entry)).

Fixpoint insertIndex (x : string * V) (l : list (string * V)) : list (string * V) :=
  match l with
  | [] => [x]
  | y :: rest =>
      if (indexOf x <? indexOf y)%N then x :: y :: rest
      else y :: insertIndex x rest
  end.

(** [Object.entries(o)] *)
Definition entries (o : list (string * V)) : list (string * V) :=
  foldr insertIndex [] (List.filter isIndexEntry o)
  ++ List.filter (fun entry => negb (isIndexEntry entry)) o.

(** [Object.keys(o)] *)
Definition keys (o : list (string * V)) : list string := map fst (entries o).

(** [o[key]] *)
Definition get (o : list (string * V)) (key : string) : option V :=
  JsMap.get String.eqb o key.

(** [{ ...o, [key]: value }] and [o[key] = value] *)
Definition set (o : list (string * V)) (key : string) (value : V) : list (string * V) :=
  JsMap.set String.eqb o key value.

End Ops.
End JsObject.

(** ** The public form page: state and handlers ([pages/PublicForm.tsx])

    [formId] is the route parameter; the form is the one fetched for it.
    A handler is reachable only through the element that calls it, so
    each action has the condition under which that element is rendered.
    The submit event of the [<form>] is taken as possible whenever the
    form is rendered: the submit button is there on the last step only,
    but the Enter key in an input can submit a form without one. *)

Module PublicFormPage.

Record state : Type := mk {
  currentStep : nat;
  formData : list (string * Js.value);
  errors : gmap string string;
  isSubmitted : bool
}.

(** [useState] initial values. *)
Definition initial : state :=
  {| currentStep := 0; formData := []; errors := ∅; isSubmitted := false |}.

(** [formData] as the record that [validateStep] reads. *)
Definition dataOf (st : state) : gmap string Js.value := list_to_map (formData st).

Definition currentFields (form : Form.t) (st : state) : list FormField.t :=
  PublicForm.getFieldsForStep form (currentStep st).

Definition handleInputChange (fieldId : string) (value : Js.value) (st : state) : state :=
  {| currentStep := currentStep st;
     formData := JsObject.set (formData st) fieldId value;
     errors :=
       match errors st !! fieldId with
       | Some message =>
           if negb (String.eqb message "")
           then <[fieldId := ""]> (errors st)
           else errors st
       | None => errors st
       end;
     isSubmitted := isSubmitted st |}.

(** [validateStep] stores the new errors and tells whether there are none. *)
Definition validateStep (form : Form.t) (st : state) : bool * state :=
  (PublicForm.validateStep form (currentStep st) (dataOf st),
   {| currentStep := currentStep st;
      formData := formData st;
      errors := PublicForm.stepErrors form (currentStep st) (dataOf st);
      isSubmitted := isSubmitted st |}).

Definition handleNext (form : Form.t) (st : state) : state :=
  let '(ok, st1) := validateStep form st in
  if ok
  then {| currentStep := currentStep st1 + 1;
          formData := formData st1;
          errors := errors st1;
          isSubmitted := isSubmitted st1 |}
  else st1.

Definition handlePrevious (st : state) : state :=
  {| currentStep := currentStep st - 1;
     formData := formData st;
     errors := errors st;
     isSubmitted := isSubmitted st |}.

(** [form?.fields?.find(f => f.id === fieldId)?.type || 'text'] *)
Definition fieldTypeOf (form : Form.t) (fieldId : string) : string :=
  match List.find (fun f => String.eqb (FormField.id f) fieldId) (Form.fields form) with
  | Some f => typeName (FormField.type f)
  | None => "text"
  end.

(** [Object.entries(formData).map(...)] *)
Definition submissionFields (form : Form.t) (st : state) : list SubmissionField.t :=
  map (fun '(fieldId, value) =>
         {| SubmissionField.fieldId := Some fieldId;
            SubmissionField.value := value;
            SubmissionField.fieldType := Some (fieldTypeOf form fieldId) |})
      (JsObject.entries (formData st)).

(** [handleSubmit]: the body handed to [submitFormMutation], if the
    current step validates. *)
Definition handleSubmit (formId : string) (form : Form.t) (st : state)
    : option (string * list SubmissionField.t) * state :=
  let '(ok, st1) := validateStep form st in
  if ok then (Some (formId, submissionFields form st1), st1) else (None, st1).

(** [onSuccess] of the mutation. *)
Definition onSuccess (st : state) : state :=
  {| currentStep := currentStep st;
     formData := formData st;
     errors := errors st;
     isSubmitted := true |}.

Inductive action : Type :=
| Input (fieldId : string) (value : Js.value)
| Next
| Previous
| Submit
| Succeeded.

(** The "Next" button is rendered for
    [isMultiStep && currentStep < steps.length - 1]. *)
Definition showsNext (form : Form.t) (st : state) : bool :=
  PublicForm.isMultiStep form
  && Nat.ltb (S (currentStep st)) (List.length (PublicForm.steps form)).

Definition rendersForm (form : Form.t) (st : state) : bool :=
  match Form.status form with
  | published => negb (isSubmitted st)
  | draft => false
  end.

Definition enabled (form : Form.t) (st : state) (a : action) : bool :=
  match a with
  | Input fieldId _ =>
      rendersForm form st
      && existsb (fun f => String.eqb (FormField.id f) fieldId) (currentFields form st)
  | Next => rendersForm form st && showsNext form st
  | Previous =>
      rendersForm form st && PublicForm.isMultiStep form && Nat.ltb 0 (currentStep st)
  | Submit => rendersForm form st
  | Succeeded => true
  end.

Definition perform (formId : string) (form : Form.t) (a : action) (st : state) : state :=
  match a with
  | Input fieldId value => handleInputChange fieldId value st
  | Next => handleNext form st
  | Previous => handlePrevious st
  | Submit => snd (handleSubmit formId form st)
  | Succeeded => onSuccess st
  end.

(** The states the page can be in. *)
Inductive reachable (formId : string) (form : Form.t) : state -> Prop :=
| reachable_initial : reachable formId form initial
| reachable_step (st : state) (a : action) :
    reachable formId form st -> enabled form st a = true ->
    reachable formId form (perform formId form a st).

End PublicFormPage.

(** The value the page holds for a field: [formData[field.id]]. *)
Definition answerOf (data : list (string * Js.value)) (field : FormField.t) : Js.value :=
  default Js.VUndefined (JsObject.get data (FormField.id field)).

(** [JSON.parse(JSON.stringify(v))] for an array element: [undefined]
    becomes [null]. *)
Fixpoint jsonElement (v : Js.value) : Js.value :=
  match v with
  | Js.VUndefined => Js.VNull
  | Js.VArr l => Js.VArr (map jsonElement l)
  | _ => v
  end.

(** The same for the value of a property: an [undefined] property is
    left out of the text, and reads as [undefined] after parsing. *)
Definition jsonProperty (v : Js.value) : Js.value :=
  match v with
  | Js.VArr l => Js.VArr (map jsonElement l)
  | _ => v
  end.

(** The request that the server receives for a body sent by the page:
    the body travels as JSON. *)
Definition asRequest (ip userAgent : option string)
    (body : string * list SubmissionField.t) : Submissions.Request.t :=
  {| Submissions.Request.formId := fst body;
     Submissions.Request.fields :=
       map (fun entry =>
              {| SubmissionField.fieldId := SubmissionField.fieldId entry;
                 SubmissionField.value := jsonProperty (SubmissionField.value entry);
                 SubmissionField.fieldType := SubmissionField.fieldType entry |})
           (snd body);
     Submissions.Request.ip := ip;
     Submissions.Request.userAgent := userAgent |}.



(** The properties of [formData] are distinct, and each one is keyed by
    the id of a field of the form. *)
Definition formDataKeyed (form : Form.t) (data : list (string * Js.value)) : Prop :=
  JsMap.distinctKeys String.eqb data
  /\ forall k v, (k, v) ∈ data -> exists f, f ∈ Form.fields form /\ FormField.id f = k.

(** The values that the inputs of the page store for an answer that is
    not blank: a non-empty string (text, email, textarea, select,
    radio), an array of non-empty strings (checkbox), a [File]. *)
Definition filledAnswer (v : Js.value) : bool :=
  match v with
  | Js.VStr s => negb (String.eqb s "")
  | Js.VArr l =>
      forallb (fun x => match x with
                        | Js.VStr s => negb (String.eqb s "")
                        | _ => false
                        end) l
  | Js.VObj _ => true
  | _ => false
  end.

(** The page after a run of actions, and whether each action of the run
    was offered by the page when it was taken. *)
Definition runPage (formId : string) (form : Form.t)
    (actions : list PublicFormPage.action) : PublicFormPage.state :=
  foldl (fun st a => PublicFormPage.perform formId form a st) PublicFormPage.initial actions.

Fixpoint offered (formId : string) (form : Form.t) (st : PublicFormPage.state)
    (actions : list PublicFormPage.action) : bool :=
  match actions with
  | [] => true
  | a :: rest =>
      PublicFormPage.enabled form st a
      && offered formId form (PublicFormPage.perform formId form a st) rest
  end.

(** A published form in two steps: "Name" and "Email", then "Bio". *)
Definition tourForm : Form.t :=
  {| Form.title := "Tour"; Form.description := None;
     Form.fields := [nameField; emailField; bioField];
     Form.settings :=
       {| FormSettings.thankYouMessage := None; FormSettings.submissionLimit := None;
          FormSettings.allowMultipleSubmissions := true; FormSettings.redirectUrl := None;
          FormSettings.isMultiStep := true; FormSettings.steps := Some ["One"; "Two"] |};
     Form.status := published; Form.submissions := 0 |}.

Definition tourStore : Store.t :=
  {| Store.forms := {[ formOid := tourForm ]};
     Store.submissions := [];
     Store.next_id := 1%N |}.

(** A visitor fills in the first step and moves on. *)
Definition tourToSecondStep : list PublicFormPage.action :=
  [PublicFormPage.Input "f1" (Js.VStr "Ada");
   PublicFormPage.Input "f2" (Js.VStr "ada@example.org");
   PublicFormPage.Next].

(** A visitor types into "Email", clears it, and moves on. *)
Definition tourClearedEmail : list PublicFormPage.action :=
  [PublicFormPage.Input "f1" (Js.VStr "Ada");
   PublicFormPage.Input "f2" (Js.VStr "a");
   PublicFormPage.Input "f2" (Js.VStr "");
   PublicFormPage.Next].

(** ** The form builder: more of [pages/FormBuilder.tsx] *)

(** A field with its [order] left out of the comparison. *)
Definition unordered (field : FormField.t) : FormField.t := FormBuilder.withOrder field 0.

(** [field.validation?.minLength] and the like. *)
Definition rule (sel : Validation.t -> option Z) (field : FormField.t) : option Z :=
  match FormField.validation field with
  | Some v => sel v
  | None => None
  end.

Definition isTextual (ty : FieldType) : bool :=
  match ty with text | textarea => true | _ => false end.

(** [bioField] with a digits-only pattern and a range, as the builder
    stores them. *)
Definition digitsField : FormField.t :=
  {| FormField.id := "f3"; FormField.type := textarea; FormField.label := "Bio";
     FormField.placeholder := None; FormField.required := false;
     FormField.validation :=
       Some {| Validation.minLength := Some 3; Validation.maxLength := Some 5;
               Validation.pattern := Some "^\d+$"; Validation.min := Some 10;
               Validation.max := Some 20 |};
     FormField.options := None;
     FormField.fileTypes := None; FormField.maxFileSize := None;
     FormField.order := 2 |}.

(** [Partial<FormField>]: the properties that an update carries.  An
    optional property can be carried with the value [undefined]. *)
Module FieldUpdates.
Record t : Type := mk {
  id : option string;
  type : option FieldType;
  label : option string;
  placeholder : option (option string);
  required : option bool;
  validation : option (option Validation.t);
  options : option (option (list string));
  fileTypes : option (option (list string));
  maxFileSize : option (option Z);
  order : option Z
}.

(** [{}] *)
Definition empty : t :=
  {| id := None; type := None; label := None; placeholder := None; required := None;
     validation := None; options := None; fileTypes := None; maxFileSize := None;
     order := None |}.

(** [{ options: newOptions }] *)
Definition ofOptions (newOptions : list string) : t :=
  {| id := None; type := None; label := None; placeholder := None; required := None;
     validation := None; options := Some (Some newOptions); fileTypes := None;
     maxFileSize := None; order := None |}.

End FieldUpdates.

(** [{ ...field, ...updates }] *)
Definition spread (field : FormField.t) (updates : FieldUpdates.t) : FormField.t :=
  {| FormField.id := default (FormField.id field) (FieldUpdates.id updates);
     FormField.type := default (FormField.type field) (FieldUpdates.type updates);
     FormField.label := default (FormField.label field) (FieldUpdates.label updates);
     FormField.placeholder :=
       default (FormField.placeholder field) (FieldUpdates.placeholder updates);
     FormField.required := default (FormField.required field) (FieldUpdates.required updates);
     FormField.validation :=
       default (FormField.validation field) (FieldUpdates.validation updates);
     FormField.options := default (FormField.options field) (FieldUpdates.options updates);
     FormField.fileTypes :=
       default (FormField.fileTypes field) (FieldUpdates.fileTypes updates);
     FormField.maxFileSize :=
       default (FormField.maxFileSize field) (FieldUpdates.maxFileSize updates);
     FormField.order := default (FormField.order field) (FieldUpdates.order updates) |}.


(** [arr.filter((_, i) => i !== index)] *)
Definition filterIndex {A : Type} (index : nat) (l : list A) : list A :=
  map snd (List.filter (fun entry => negb (Nat.eqb (fst entry) index)) (imap pair l)).

(** ** The field configuration panel ([components/FieldConfigPanel.tsx])

    The state of the panel is [localField]; a handler gives the new
    [localField] and the updates it hands to [onUpdate]. *)

Module FieldConfigPanel.

Definition handleUpdate (localField : FormField.t) (updates : FieldUpdates.t)
    : FormField.t * FieldUpdates.t :=
  (spread localField updates, updates).

(** [localField.options || []] *)
Definition optionsOf (localField : FormField.t) : list string :=
  default [] (FormField.options localField).

Definition addOption (localField : FormField.t) : FormField.t * FieldUpdates.t :=
  let newOptions :=
    optionsOf localField
    ++ ["Option " +:+ pretty (Z.of_nat (List.length (optionsOf localField)) + 1)] in
  handleUpdate localField (FieldUpdates.ofOptions newOptions).

(** [newOptions[index] = value]: for an index beyond the array the
    source leaves holes, which are not strings ([None]). *)
Definition updateOption (index : nat) (value : string) (localField : FormField.t)
    : option (FormField.t * FieldUpdates.t) :=
  if Nat.ltb index (List.length (optionsOf localField))
  then Some (handleUpdate localField
               (FieldUpdates.ofOptions (<[index := value]> (optionsOf localField))))
  else None.

Definition removeOption (index : nat) (localField : FormField.t)
    : FormField.t * FieldUpdates.t :=
  handleUpdate localField (FieldUpdates.ofOptions (filterIndex index (optionsOf localField))).

(** What the options block of the panel offers: it is rendered for the
    three choice types, with one text input and one remove button per
    option, the remove button disabled when one option is left. *)
Inductive action : Type :=
| AddOption
| UpdateOption (index : nat) (value : string)
| RemoveOption (index : nat).

Definition enabled (localField : FormField.t) (a : action) : bool :=
  FormBuilder.hasOptions (FormField.type localField)
  && match a with
     | AddOption => true
     | UpdateOption index _ => Nat.ltb index (List.length (optionsOf localField))
     | RemoveOption index =>
         Nat.ltb index (List.length (optionsOf localField))
         && negb (Nat.eqb (List.length (optionsOf localField)) 1)
     end.

Definition perform (a : action) (localField : FormField.t)
    : option (FormField.t * FieldUpdates.t) :=
  match a with
  | AddOption => Some (addOption localField)
  | UpdateOption index value => updateOption index value localField
  | RemoveOption index => Some (removeOption index localField)
  end.

End FieldConfigPanel.

(** Four text fields over three steps. *)
Definition fourFieldForm : Form.t :=
  {| Form.title := "Survey"; Form.description := None;
     Form.fields :=
       foldl (fun fields newId => FormBuilder.handleAddField newId text fields) []
         ["a"; "b"; "c"; "d"];
     Form.settings :=
       {| FormSettings.thankYouMessage := None; FormSettings.submissionLimit := None;
          FormSettings.allowMultipleSubmissions := true; FormSettings.redirectUrl := None;
          FormSettings.isMultiStep := true; FormSettings.steps := Some ["A"; "B"; "C"] |};
     Form.status := published; Form.submissions := 0 |}.

(** ** The form routes ([routes/forms.ts]): read, update, delete,
    publish, unpublish

    [Form.findById], [findByIdAndUpdate] and [findByIdAndDelete] cast
    the route parameter to an ObjectId first; a [CastError] is the
    [catch] branch of the handler. *)

(** [str.trim()], and [trim] of validator.js: the white space at both
    ends is removed. *)
Fixpoint ltrim (s : string) : string :=
  match s with
  | EmptyString => EmptyString
  | String c r => if Regex.is_space c then ltrim r else s
  end.

Fixpoint rtrim (s : string) : string :=
  match s with
  | EmptyString => EmptyString
  | String c r =>
      let r' := rtrim r in
      if Regex.is_space c && String.eqb r' "" then EmptyString else String c r'
  end.

Definition trim (s : string) : string := rtrim (ltrim s).

(** The body of PUT /forms/:id: a JSON object whose [fields] is an
    array of field objects with a [type] among the seven and a boolean
    [required] (so these checks of [validateForm] pass), and whose
    other properties, when present, have the types of the schema.  An
    [_id] sent along is the one of the route, which the update leaves
    as it is; the timestamps and the version key are not part of the
    model. *)
Module FormBody.
Record t : Type := mk {
  title : option string;
  description : option string;
  fields : list FormField.t;
  settings : option FormSettings.t;
  status : option FormStatus;
  submissions : option Z
}.
End FormBody.

Module Forms.

Inductive response : Type :=
| Data (form : Form.t)
| Success (message : string)
| Invalid (details : list ExpressValidator.ValidationError.t)
    (* 400 "Validation failed" *)
| Failure (status : Z) (error : string).

(** [{ ...field, label }] *)
Definition withLabel (label : string) (field : FormField.t) : FormField.t :=
  {| FormField.id := FormField.id field;
     FormField.type := FormField.type field;
     FormField.label := label;
     FormField.placeholder := FormField.placeholder field;
     FormField.required := FormField.required field;
     FormField.validation := FormField.validation field;
     FormField.options := FormField.options field;
     FormField.fileTypes := FormField.fileTypes field;
     FormField.maxFileSize := FormField.maxFileSize field;
     FormField.order := FormField.order field |}.

(** The sanitizers of [validateForm]: [title], [description] and every
    [fields.*.label] are trimmed in the body; a missing title becomes
    the empty string. *)
Definition sanitize (body : FormBody.t) : FormBody.t :=
  {| FormBody.title := Some (trim (default "" (FormBody.title body)));
     FormBody.description := trim <$> FormBody.description body;
     FormBody.fields :=
       map (fun field => withLabel (trim (FormField.label field)) field)
           (FormBody.fields body);
     FormBody.settings := FormBody.settings body;
     FormBody.status := FormBody.status body;
     FormBody.submissions := FormBody.submissions body |}.

(** The errors of [validateForm] on such a body: [isLength({ min: 1 })]
    on the trimmed title and on each trimmed label. *)
Definition validateForm (body : FormBody.t) : list ExpressValidator.ValidationError.t :=
  (if String.eqb (trim (default "" (FormBody.title body))) ""
   then [ExpressValidator.ValidationError.mk "title" "Title is required" (Js.VStr "")]
   else [])
  ++ concat (imap (fun i field =>
                     if String.eqb (trim (FormField.label field)) ""
                     then [ExpressValidator.ValidationError.mk
                             ("fields[" +:+ pretty i +:+ "].label")
                             "Field label is required" (Js.VStr "")]
                     else [])
               (FormBody.fields body)).

(** A field as a subdocument of [FormFieldSchema]: an array path that
    is not given is the empty array, and an empty [validation] object is
    left out. *)
Definition castField (field : FormField.t) : FormField.t :=
  {| FormField.id := FormField.id field;
     FormField.type := FormField.type field;
     FormField.label := FormField.label field;
     FormField.placeholder := FormField.placeholder field;
     FormField.required := FormField.required field;
     FormField.validation :=
       match FormField.validation field with
       | Some {| Validation.minLength := None; Validation.maxLength := None;
                 Validation.pattern := None; Validation.min := None;
                 Validation.max := None |} => None
       | other => other
       end;
     FormField.options := Some (default [] (FormField.options field));
     FormField.fileTypes := Some (default [] (FormField.fileTypes field));
     FormField.maxFileSize := FormField.maxFileSize field;
     FormField.order := FormField.order field |}.

(** The validators that [runValidators: true] runs on the fields of
    the update: [id] and [label] are required strings. *)
Definition fieldsValid (fields : list FormField.t) : bool :=
  forallb (fun field =>
             negb (String.eqb (FormField.id field) "")
             && negb (String.eqb (FormField.label field) ""))
          fields.

(** [{ ...req.body, updatedAt }] as an update of a stored form: every
    property of the body replaces the stored one, the counter
    [submissions] included. *)
Definition update (body : FormBody.t) (form : Form.t) : Form.t :=
  {| Form.title := default (Form.title form) (FormBody.title body);
     Form.description :=
       match FormBody.description body with
       | Some description => Some description
       | None => Form.description form
       end;
     Form.fields := map castField (FormBody.fields body);
     Form.settings := default (Form.settings form) (FormBody.settings body);
     Form.status := default (Form.status form) (FormBody.status body);
     Form.submissions := default (Form.submissions form) (FormBody.submissions body) |}.

(** [{ status }] as an update of a stored form. *)
Definition setStatus (status : FormStatus) (form : Form.t) : Form.t :=
  {| Form.title := Form.title form;
     Form.description := Form.description form;
     Form.fields := Form.fields form;
     Form.settings := Form.settings form;
     Form.status := status;
     Form.submissions := Form.submissions form |}.

(** [router.get('/:id')] *)
Definition get (id : string) (db : Store.t) : response :=
  match castObjectId id with
  | None => Failure 500 "Failed to fetch form"
  | Some oid =>
      match Store.forms db !! oid with
      | None => Failure 404 "Form not found"
      | Some form => Data form
      end
  end.

(** [router.put('/:id')] *)
Definition put (id : string) (body : FormBody.t) (db : Store.t) : response * Store.t :=
  let errors := validateForm body in
  if negb (Nat.eqb (List.length errors) 0) then (Invalid errors, db)
  else
    let body := sanitize body in
    match castObjectId id with
    | None => (Failure 500 "Failed to update form", db)
    | Some oid =>
        if negb (fieldsValid (FormBody.fields body))
        then (Failure 500 "Failed to update form", db)
        else
          match Store.forms db !! oid with
          | None => (Failure 404 "Form not found", db)
          | Some form =>
              (Data (update body form),
               {| Store.forms := <[oid := update body form]> (Store.forms db);
                  Store.submissions := Store.submissions db;
                  Store.next_id := Store.next_id db |})
          end
    end.

(** [router.delete('/:id')] *)
Definition delete (id : string) (db : Store.t) : response * Store.t :=
  match castObjectId id with
  | None => (Failure 500 "Failed to delete form", db)
  | Some oid =>
      match Store.forms db !! oid with
      | None => (Failure 404 "Form not found", db)
      | Some _ =>
          (Success "Form deleted successfully",
           {| Store.forms := base.delete oid (Store.forms db);
              Store.submissions := Store.submissions db;
              Store.next_id := Store.next_id db |})
      end
  end.

(** [findByIdAndUpdate(id, { status, ... }, { new: true })] and the
    answer of the two routes that use it. *)
Definition updateStatus (failed : string) (status : FormStatus) (id : string)
    (db : Store.t) : response * Store.t :=
  match castObjectId id with
  | None => (Failure 500 failed, db)
  | Some oid =>
      match Store.forms db !! oid with
      | None => (Failure 404 "Form not found", db)
      | Some form =>
          (Data (setStatus status form),
           {| Store.forms := <[oid := setStatus status form]> (Store.forms db);
              Store.submissions := Store.submissions db;
              Store.next_id := Store.next_id db |})
      end
  end.

(** [router.patch('/:id/publish')] *)
Definition publish : string -> Store.t -> response * Store.t :=
  updateStatus "Failed to publish form" published.

(** [router.patch('/:id/unpublish')] *)
Definition unpublish : string -> Store.t -> response * Store.t :=
  updateStatus "Failed to unpublish form" draft.

End Forms.

(** ** Loading and saving in the builder ([pages/FormBuilder.tsx]) *)

(** The form that the builder holds after loading: [setForm(existingForm)],
    the [data] of GET /forms/:id with every property of the document,
    the counter [submissions] among them. *)
Definition loadedForm (form : Form.t) : FormBody.t :=
  {| FormBody.title := Some (Form.title form);
     FormBody.description := Form.description form;
     FormBody.fields := Form.fields form;
     FormBody.settings := Some (Form.settings form);
     FormBody.status := Some (Form.status form);
     FormBody.submissions := Some (Form.submissions form) |}.

(** [handleSave]: the body of the PUT request, the whole form held;
    [None] when one of the two alerts is shown instead. *)
Definition handleSave (form : FormBody.t) : option FormBody.t :=
  if String.eqb (trim (default "" (FormBody.title form))) "" then None
  else if Nat.eqb (List.length (FormBody.fields form)) 0 then None
  else Some form.

(** No stored submission has the id that the next one will get. *)
Definition nextIdUnused (db : Store.t) : Prop :=
  Forall (fun s => Submission._id s <> Store.next_id db) (Store.submissions db).

(** The id, as a string, of the first submission stored in
    [contactStore]. *)
Definition firstSubmissionId : string := "000000000000000000000001".

(** [contactStore] after one valid submission. *)
Definition oneSubmissionStore : Store.t :=
  snd (Submissions.post 1000 validRequest contactStore).

(** ** The daily series of the form report ([routes/analytics.ts])

    [dateKey d] stands for [d.toISOString().split('T')[0]], the UTC
    calendar day of a time in milliseconds; the statements hold for
    every such function.  [setDate(getDate() + 1)] moves the time by
    one day of 24 hours (a server clock without daylight saving). *)

Section DailySeries.
Variable dateKey : Z -> string.

(** The [while (currentDate <= now)] loop; each turn moves
    [currentDate] forward, so [fuel] turns are enough when [fuel]
    exceeds [now - currentDate]. *)
Fixpoint initDays (fuel : nat) (currentDate now : Z) (dailyStats : list (string * Z))
    : list (string * Z) :=
  match fuel with
  | O => dailyStats
  | S fuel' =>
      if (currentDate <=? now)%Z
      then initDays fuel' (currentDate + Analytics.day) now
             (JsMap.set String.eqb dailyStats (dateKey currentDate) 0)
      else dailyStats
  end.

(** [dailyStats.set(dateKey, (dailyStats.get(dateKey) || 0) + 1)] *)
Definition countDay (dailyStats : list (string * Z)) (submission : Submission.t)
    : list (string * Z) :=
  let key := dateKey (Metadata.submittedAt (Submission.metadata submission)) in
  JsMap.set String.eqb dailyStats key
    (default 0 (JsMap.get String.eqb dailyStats key) + 1).

Definition dailyStats (now start : Z) (submissions : list Submission.t)
    : list (string * Z) :=
  foldl countDay (initDays (S (Z.to_nat (now - start))) start now []) submissions.



End DailySeries.



(** ** The lines of the CSV export ([routes/analytics.ts])

    [row] is the property lookup of a row object, [row header] being
    [row[header]]. *)

Module Csv.

(** The double quote character. *)
Definition quote : ascii := Eval cbv in ascii_of_nat 34.

(** The [replace] of the cell: every double quote is doubled. *)
Fixpoint doubleQuotes (s : string) : string :=
  match s with
  | EmptyString => EmptyString
  | String c r =>
      if Ascii.eqb c quote then String quote (String quote (doubleQuotes r))
      else String c (doubleQuotes r)
  end.

(** [String(value)] for [value = row[header] || '']. *)
Definition text (value : Js.value) : string :=
  Js.toString (if Js.truthy value then value else Js.VStr "").

(** The cell: the text with its quotes doubled, between two quotes. *)
Definition cell (value : Js.value) : string :=
  String quote (doubleQuotes (text value) +:+ String quote "").

(** [headers.map(header => ...).join(',')] *)
Definition line (row : string -> Js.value) (headers : list string) : string :=
  String.concat "," (map (fun header => cell (row header)) headers).

(** Reading a line back, as a CSV reader does: a cell starts after a
    quote, a doubled quote inside it stands for one quote, and a single
    quote ends it, at the end of the line or before a comma and the
    quote of the next cell.  [None] for a line of another shape. *)
Fixpoint readCells (s : string) (acc : string) : option (list string) :=
  match s with
  | EmptyString => None
  | String c r =>
      if Ascii.eqb c quote
      then
        match r with
        | EmptyString => Some [acc]
        | String c2 r2 =>
            if Ascii.eqb c2 quote then readCells r2 (acc +:+ String quote "")
            else if Ascii.eqb c2 ","
            then
              match r2 with
              | EmptyString => None
              | String c3 r3 =>
                  if Ascii.eqb c3 quote
                  then option_map (cons acc) (readCells r3 "")
                  else None
              end
            else None
        end
      else readCells r (acc +:+ String c "")
  end.

Definition readLine (s : string) : option (list string) :=
  match s with
  | EmptyString => Some []
  | String c r => if Ascii.eqb c quote then readCells r "" else None
  end.

End Csv.

(** ** The base URL of the API client ([lib/api.ts]) *)

Module Api.

(** [s.replace(/\/+$/, '')]: the slashes at the end are removed. *)
Fixpoint stripSlashes (s : string) : string :=
  match s with
  | EmptyString => EmptyString
  | String c r =>
      let r' := stripSlashes r in
      if Ascii.eqb c "/" && String.eqb r' "" then EmptyString else String c r'
  end.

(** [s.endsWith(suffix)] *)
Definition endsWith (s suffix : string) : bool :=
  Nat.leb (String.length suffix) (String.length s)
  && String.eqb
       (String.substring (String.length s - String.length suffix) (String.length suffix) s)
       suffix.

(** [resolveBaseUrl]; [None] is [undefined]. *)
Definition resolveBaseUrl (envUrl : option string) : string :=
  match envUrl with
  | None => "/api"
  | Some url =>
      if String.eqb url "" then "/api"
      else
        let withoutTrailingSlash := stripSlashes url in
        if endsWith withoutTrailingSlash "/api"
        then withoutTrailingSlash
        else withoutTrailingSlash +:+ "/api"
  end.

End Api.
(** * Properties *)

(** ** Multi-step partition *)

Lemma ceil_div_upper (n k : nat) : (0 < k)%nat -> (n <= ceil_div n k * k)%nat.
Proof.
  intros Hk. unfold ceil_div.
  pose proof (Nat.div_mod_eq (n + (k - 1)) k) as E.
  pose proof (Nat.mod_upper_bound (n + (k - 1)) k ltac:(lia)) as B.
  nia.
Qed.

Lemma ceil_div_lower (n k : nat) :
  (0 < k)%nat -> (0 < n)%nat -> ((ceil_div n k - 1) * k < n)%nat.
Proof.
  intros Hk Hn. unfold ceil_div.
  pose proof (Nat.div_mod_eq (n + (k - 1)) k) as E.
  pose proof (Nat.mod_upper_bound (n + (k - 1)) k ltac:(lia)) as B.
  nia.
Qed.

Lemma slice_lookup {A : Type} (l : list A) (startIndex len j : nat) :
  slice startIndex (startIndex + len) l !! j
  = if Nat.ltb j len then l !! (startIndex + j)%nat else None.
Proof.
  unfold slice. replace (startIndex + len - startIndex)%nat with len by lia.
  destruct (Nat.ltb_spec j len) as [Hlt | Hge].
  - rewrite lookup_take_lt by done. by rewrite lookup_drop.
  - by rewrite lookup_take_ge.
Qed.

Lemma slices_concat {A : Type} (l : list A) (size : nat) (count first : nat) :
  concat (map (fun i => slice (i * size) (i * size + size) l) (seq first count))
  = take (count * size) (drop (first * size) l).
Proof.
  revert first. induction count as [| count IH]; intros first; simpl.
  - done.
  - rewrite IH. unfold slice.
    replace (first * size + size - first * size)%nat with size by lia.
    replace (S first * size)%nat with (first * size + size)%nat by lia.
    rewrite <- drop_drop. by rewrite take_take_drop.
Qed.

Lemma slices_cover {A : Type} (l : list A) (size count : nat) :
  (List.length l <= count * size)%nat ->
  concat (map (fun i => slice (i * size) (i * size + size) l) (seq 0 count)) = l.
Proof.
  intros Hlen. rewrite slices_concat. simpl. rewrite drop_0. by apply take_ge.
Qed.

(** ** Field validation *)

Lemma falsy_not_truthy (value : Js.value) : falsy value -> Js.truthy value = false.
Proof. intros [-> | [-> | [-> | [-> | ->]]]]; reflexivity. Qed.

Lemma validateField_copies (field : FormField.t) (value : Js.value) :
  FormPreview.validateField field value = PublicForm.validateField field value.
Proof. reflexivity. Qed.

Lemma getFieldsForStep_copies (form : Form.t) (stepIndex : nat) :
  FormPreview.getFieldsForStep form stepIndex = PublicForm.getFieldsForStep form stepIndex.
Proof. reflexivity. Qed.

(** C4 (as amended).  For a required field, validating [undefined],
    [null] or the empty string returns "{label} is required"; the
    presence test is truthiness, so [0] and [false] are absent too and
    return the same message.  Both copies of [validateField]. *)
Theorem presence_rule_is_truthiness (field : FormField.t) (value : Js.value) :
  FormField.required field = true ->
  falsy value ->
  PublicForm.validateField field value = FormField.label field +:+ " is required"
  /\ FormPreview.validateField field value = FormField.label field +:+ " is required".
Proof.
  intros Hreq Hfalsy.
  assert (PublicForm.validateField field value = FormField.label field +:+ " is required") as E.
  { unfold PublicForm.validateField.
    rewrite Hreq, (falsy_not_truthy _ Hfalsy). reflexivity. }
  split; [exact E | rewrite validateField_copies; exact E].
Qed.

Lemma presence_rule_is_truthiness_witness :
  FormField.required nameField = true
  /\ falsy (Js.VBool false)
  /\ PublicForm.validateField nameField (Js.VBool false) = "Name is required".
Proof.
  split; [reflexivity |].
  split; [unfold falsy; auto |].
  apply (presence_rule_is_truthiness nameField (Js.VBool false)).
  - reflexivity.
  - unfold falsy; auto.
Defined.

(** C4, the claim as stated, fails: on a required field [false] and [0]
    are reported as missing, and an empty array is not. *)
Lemma presence_rule_counterexample :
  FormField.required nameField = true
  /\ PublicForm.validateField nameField (Js.VBool false) = "Name is required"
  /\ PublicForm.validateField nameField (Js.VNum 0) = "Name is required"
  /\ PublicForm.validateField nameField (Js.VArr []) = ""
  /\ FormPreview.validateField nameField (Js.VBool false) = "Name is required"
  /\ FormPreview.validateField nameField (Js.VNum 0) = "Name is required"
  /\ FormPreview.validateField nameField (Js.VArr []) = "".
Proof. repeat split; reflexivity. Qed.

Lemma forallb_false_elem {A : Type} (p : A -> bool) (l : list A) (x : A) :
  x ∈ l -> p x = false -> forallb p l = false.
Proof.
  intros Hin Hp. induction l as [| y l IH]; simpl.
  - by apply elem_of_nil in Hin.
  - apply elem_of_cons in Hin as [-> | Hin].
    + by rewrite Hp.
    + by rewrite (IH Hin), andb_false_r.
Qed.

(** C5 (as amended).  For a checkbox field whose options are defined, an
    array with any element outside the options is rejected with
    "{label} has an invalid option selected", however many other
    elements are valid; a truthy value that is not an array is not
    checked against the options and passes. *)
Theorem checkbox_rule_checks_arrays_only
    (field : FormField.t) (opts : list string) :
  FormField.type field = checkbox ->
  FormField.options field = Some opts ->
  (forall (vals : list Js.value) (bad : Js.value),
      bad ∈ vals -> Js.includes opts bad = false ->
      PublicForm.validateField field (Js.VArr vals)
      = FormField.label field +:+ " has an invalid option selected")
  /\ (forall value : Js.value,
         Js.isArray value = false -> Js.truthy value = true ->
         PublicForm.validateField field value = "").
Proof.
  intros Hty Hopts. split.
  - intros vals bad Hin Hbad. unfold PublicForm.validateField, PublicForm.typeRule.
    rewrite Hty, Hopts. simpl. rewrite (forallb_false_elem _ _ _ Hin Hbad).
    by rewrite andb_false_r.
  - intros value Harr Htruthy. unfold PublicForm.validateField, PublicForm.typeRule.
    rewrite Hty, Htruthy. simpl.
    assert (Js.is_empty_string value = false) as ->.
    { destruct value; try reflexivity. simpl in *.
      by destruct (String.eqb s ""). }
    rewrite andb_false_r. simpl.
    by destruct value.
Qed.

Lemma checkbox_rule_checks_arrays_only_witness :
  FormField.type colorsField = checkbox
  /\ FormField.options colorsField = Some ["Red"; "Blue"]
  /\ PublicForm.validateField colorsField
       (Js.VArr [Js.VStr "Red"; Js.VStr "Green"; Js.VStr "Blue"])
     = "Colors has an invalid option selected".
Proof.
  split; [reflexivity |]. split; [reflexivity |].
  apply (proj1 (checkbox_rule_checks_arrays_only colorsField ["Red"; "Blue"]
                  eq_refl eq_refl)
           [Js.VStr "Red"; Js.VStr "Green"; Js.VStr "Blue"] (Js.VStr "Green")).
  - apply list_elem_of_further, list_elem_of_here.
  - reflexivity.
Defined.

(** C5, the claim as stated, fails: a checkbox value that is not an
    array (here a string outside the options) is accepted. *)
Lemma checkbox_rule_counterexample :
  FormField.type colorsField = checkbox
  /\ Js.isArray (Js.VStr "Green") = false
  /\ Js.includes ["Red"; "Blue"] (Js.VStr "Green") = false
  /\ PublicForm.validateField colorsField (Js.VStr "Green") = ""
  /\ FormPreview.validateField colorsField (Js.VStr "Green") = "".
Proof. repeat split; reflexivity. Qed.

(** ** Multi-step partition: the statement *)

Lemma slice_length {A : Type} (l : list A) (startIndex len : nat) :
  List.length (slice startIndex (startIndex + len) l)
  = Nat.min len (List.length l - startIndex).
Proof.
  unfold slice. replace (startIndex + len - startIndex)%nat with len by lia.
  by rewrite length_take, length_drop.
Qed.

Lemma getFieldsForStep_slice (form : Form.t) (stepNames : list string) (stepIndex : nat) :
  FormSettings.isMultiStep (Form.settings form) = true ->
  FormSettings.steps (Form.settings form) = Some stepNames ->
  stepNames <> [] ->
  let fieldsPerStep := ceil_div (List.length (Form.fields form)) (List.length stepNames) in
  PublicForm.getFieldsForStep form stepIndex
  = slice (stepIndex * fieldsPerStep) (stepIndex * fieldsPerStep + fieldsPerStep)
      (Form.fields form).
Proof.
  intros Hmulti Hsteps Hne. unfold PublicForm.getFieldsForStep, PublicForm.isMultiStep.
  assert (PublicForm.steps form = stepNames) as ->.
  { unfold PublicForm.steps. by rewrite Hmulti, Hsteps. }
  rewrite Hmulti. destruct stepNames as [| name rest]; [done |]. reflexivity.
Qed.

(** C6.  With multi-step on and at least one step name, for a non-empty
    field list: [fieldsPerStep] is the ceiling of
    [len(fields) / len(stepNames)]; step [i] holds exactly the fields at
    positions [i*fieldsPerStep + j] for [j < fieldsPerStep] that exist
    (the half-open slice, clipped); the steps in order concatenate to
    the field list, so no field is lost or repeated and the sizes add up
    to [len(fields)]; 7 fields over 3 steps give sizes 3, 3, 1.  The
    result is a function of the form and the step index alone.  Both
    copies of [getFieldsForStep]. *)
Theorem getFieldsForStep_partition (form : Form.t) (stepNames : list string) :
  FormSettings.isMultiStep (Form.settings form) = true ->
  FormSettings.steps (Form.settings form) = Some stepNames ->
  stepNames <> [] ->
  Form.fields form <> [] ->
  let n := List.length (Form.fields form) in
  let k := List.length stepNames in
  let fieldsPerStep := ceil_div n k in
  ((fieldsPerStep - 1) * k < n <= fieldsPerStep * k)%nat
  /\ forall getFields : nat -> list FormField.t,
      getFields = PublicForm.getFieldsForStep form
      \/ getFields = FormPreview.getFieldsForStep form ->
      (forall i j : nat,
          getFields i !! j
          = if Nat.ltb j fieldsPerStep
            then Form.fields form !! (i * fieldsPerStep + j)%nat
            else None)
      /\ concat (map getFields (seq 0 k)) = Form.fields form
      /\ list_sum (map (fun i => List.length (getFields i)) (seq 0 k)) = n
      /\ (n = 7%nat -> k = 3%nat ->
          map (fun i => List.length (getFields i)) (seq 0 k) = [3; 3; 1]%nat).
Proof.
  intros Hmulti Hsteps Hne Hfields n k fieldsPerStep.
  assert (0 < k)%nat as Hk by (subst k; destruct stepNames; [done | simpl; lia]).
  assert (0 < n)%nat as Hn
      by (subst n; destruct (Form.fields form); [done | simpl; lia]).
  split.
  { split; [by apply ceil_div_lower | by apply ceil_div_upper]. }
  intros getFields HgetFields.
  assert (forall i, getFields i
                    = slice (i * fieldsPerStep) (i * fieldsPerStep + fieldsPerStep)
                        (Form.fields form)) as Hslice.
  { intros i. destruct HgetFields as [-> | ->];
      [| rewrite getFieldsForStep_copies]; by apply getFieldsForStep_slice. }
  assert (concat (map getFields (seq 0 k)) = Form.fields form) as Hconcat.
  { rewrite (map_ext _ _ Hslice). apply slices_cover.
    pose proof (ceil_div_upper n k Hk). subst n fieldsPerStep. lia. }
  split; [| split; [| split]].
  - intros i j. rewrite Hslice. apply slice_lookup.
  - exact Hconcat.
  - unfold n. rewrite <- Hconcat. rewrite length_concat. by rewrite map_map.
  - intros Hn7 Hk3. rewrite Hk3. simpl. rewrite !Hslice, !slice_length.
    subst fieldsPerStep. fold n. rewrite Hn7, Hk3. reflexivity.
Qed.

Lemma getFieldsForStep_partition_witness :
  FormSettings.isMultiStep (Form.settings sevenFieldForm) = true
  /\ FormSettings.steps (Form.settings sevenFieldForm) = Some ["A"; "B"; "C"]
  /\ ["A"; "B"; "C"] <> []
  /\ Form.fields sevenFieldForm <> []
  /\ concat (map (PublicForm.getFieldsForStep sevenFieldForm) (seq 0 3))
     = Form.fields sevenFieldForm
  /\ map (fun i => List.length (PublicForm.getFieldsForStep sevenFieldForm i)) (seq 0 3)
     = [3; 3; 1]%nat.
Proof.
  assert (["A"; "B"; "C"] <> @nil string) as Hsteps by discriminate.
  assert (Form.fields sevenFieldForm <> []) as Hfields by discriminate.
  destruct (getFieldsForStep_partition sevenFieldForm ["A"; "B"; "C"]
              eq_refl eq_refl Hsteps Hfields) as [_ Hall].
  destruct (Hall (PublicForm.getFieldsForStep sevenFieldForm) (or_introl eq_refl))
    as (_ & Hconcat & _ & Hsizes).
  split; [reflexivity |]. split; [reflexivity |].
  split; [exact Hsteps |]. split; [exact Hfields |].
  split; [exact Hconcat |].
  apply Hsizes; reflexivity.
Defined.

(** ** Field order in the builder *)

Lemma orderDense_snoc (fields : list FormField.t) (field : FormField.t) :
  orderDense fields ->
  FormField.order field = Z.of_nat (List.length fields) ->
  orderDense (fields ++ [field]).
Proof.
  intros Hdense Horder i f Hi.
  apply lookup_app_Some in Hi as [Hi | [Hge Hi]].
  - by apply Hdense.
  - destruct (i - List.length fields)%nat as [| m] eqn:E; simpl in Hi; [| done].
    injection Hi as <-. rewrite Horder. f_equal. lia.
Qed.

Lemma handleAddField_dense (newId : string) (fieldType : FieldType)
    (fields : list FormField.t) :
  orderDense fields -> orderDense (FormBuilder.handleAddField newId fieldType fields).
Proof. intros Hdense. by apply orderDense_snoc. Qed.

Lemma handleDuplicateField_dense (newId : string) (field : FormField.t)
    (fields : list FormField.t) :
  orderDense fields -> orderDense (FormBuilder.handleDuplicateField newId field fields).
Proof. intros Hdense. by apply orderDense_snoc. Qed.

Lemma reindex_dense (fields : list FormField.t) : orderDense (FormBuilder.reindex fields).
Proof.
  intros i f Hi. unfold FormBuilder.reindex in Hi.
  rewrite list_lookup_imap in Hi.
  destruct (fields !! i); simpl in Hi; [| done].
  by injection Hi as <-.
Qed.

Lemma handleDragEnd_dense (source : nat) (destination : option nat)
    (fields fields' : list FormField.t) :
  orderDense fields ->
  FormBuilder.handleDragEnd source destination fields = Some fields' ->
  orderDense fields'.
Proof.
  intros Hdense Hdrag. unfold FormBuilder.handleDragEnd in Hdrag.
  destruct destination as [dest |].
  - destruct (fields !! source); [| done].
    injection Hdrag as <-. apply reindex_dense.
  - by injection Hdrag as <-.
Qed.

(** A drop inside the list re-derives every [order], whatever the
    orders were before. *)
Lemma handleDragEnd_rederives (source dest : nat) (fields fields' : list FormField.t) :
  FormBuilder.handleDragEnd source (Some dest) fields = Some fields' ->
  orderDense fields'.
Proof.
  unfold FormBuilder.handleDragEnd. destruct (fields !! source); [| done].
  intros [= <-]. apply reindex_dense.
Qed.

(** C9.  Deletion does not re-derive the order: after two insertions
    the orders are 0, 1; deleting the first field leaves the second
    with order 1 at position 0. *)
Theorem handleDeleteField_keeps_stale_order :
  let fields :=
    FormBuilder.handleAddField "b" email (FormBuilder.handleAddField "a" text []) in
  orderDense fields
  /\ map FormField.order (FormBuilder.handleDeleteField "a" fields) = [1]
  /\ ~ orderDense (FormBuilder.handleDeleteField "a" fields).
Proof.
  simpl. split; [| split].
  - apply handleAddField_dense, handleAddField_dense. intros i f Hi. done.
  - reflexivity.
  - intros Hdense. specialize (Hdense 0%nat _ eq_refl). discriminate.
Qed.

(** ** The submission routes *)

Lemma post_rejected (now : Z) (req : Submissions.Request.t) (db : Store.t) :
  Submissions.validateSubmission req <> [] ->
  Submissions.post now req db
  = (Submissions.Failure 400 "Validation failed"
       (Some (Submissions.validateSubmission req)), db).
Proof.
  intros Herr. unfold Submissions.post.
  destruct (Submissions.validateSubmission req); [done | reflexivity].
Qed.

Lemma post_created (now : Z) (req : Submissions.Request.t) (db : Store.t)
    (formId : N) (form : Form.t) :
  Submissions.validateSubmission req = [] ->
  castObjectId (Submissions.Request.formId req) = Some formId ->
  Store.forms db !! formId = Some form ->
  Form.status form = published ->
  Submissions.schemaValid (Submissions.Request.fields req) = true ->
  Submissions.post now req db
  = (Submissions.Created (newSubmission now req formId db),
     {| Store.forms := alter (inc_submissions 1) formId (Store.forms db);
        Store.submissions := Store.submissions db ++ [newSubmission now req formId db];
        Store.next_id := (Store.next_id db + 1)%N |}).
Proof.
  intros Hgate Hcast Hform Hstatus Hschema. unfold Submissions.post.
  rewrite Hgate, Hcast, Hform, Hstatus, Hschema. reflexivity.
Qed.

(** Every run of [post] either creates a submission, with the store
    update of [post_created], or answers with a failure and leaves the
    store as it was. *)
Lemma post_cases (now : Z) (req : Submissions.Request.t) (db : Store.t) :
  (exists (formId : N) (form : Form.t),
      Submissions.validateSubmission req = []
      /\ castObjectId (Submissions.Request.formId req) = Some formId
      /\ Store.forms db !! formId = Some form
      /\ Form.status form = published
      /\ Submissions.schemaValid (Submissions.Request.fields req) = true
      /\ Submissions.post now req db
         = (Submissions.Created (newSubmission now req formId db),
            {| Store.forms := alter (inc_submissions 1) formId (Store.forms db);
               Store.submissions :=
                 Store.submissions db ++ [newSubmission now req formId db];
               Store.next_id := (Store.next_id db + 1)%N |}))
  \/ (exists status error details,
         Submissions.post now req db = (Submissions.Failure status error details, db)).
Proof.
  unfold Submissions.post.
  destruct (Submissions.validateSubmission req) as [| e errs] eqn:Hgate; simpl.
  2: { right. eauto. }
  destruct (castObjectId (Submissions.Request.formId req)) as [formId |] eqn:Hcast.
  2: { right. unfold Submissions.serverError. eauto. }
  destruct (Store.forms db !! formId) as [form |] eqn:Hform.
  2: { right. eauto. }
  destruct (Form.status form) eqn:Hstatus.
  { right. eauto. }
  destruct (Submissions.schemaValid (Submissions.Request.fields req)) eqn:Hschema; simpl.
  2: { right. unfold Submissions.serverError. eauto. }
  left. exists formId, form. repeat split; try done.
Qed.

Lemma notEmpty_blankValue (path message : string) (value : Js.value) :
  blankValue value ->
  ExpressValidator.notEmpty path message value
  = [ExpressValidator.ValidationError.mk path message value].
Proof. intros [-> | [-> | ->]]; reflexivity. Qed.

Lemma notEmpty_missingFieldId (path message : string) (fieldId : option string) :
  missingFieldId fieldId ->
  ExpressValidator.notEmpty path message (Submissions.opt_value fieldId)
  = [ExpressValidator.ValidationError.mk path message (Submissions.opt_value fieldId)].
Proof. intros [-> | ->]; reflexivity. Qed.

Lemma elem_of_concat_imap {A B : Type} (f : nat -> A -> list B) (l : list A)
    (i : nat) (x : A) (y : B) :
  l !! i = Some x -> y ∈ f i x -> y ∈ concat (imap f l).
Proof.
  intros Hi Hy. apply list_elem_of_In, in_concat. exists (f i x). split.
  - apply list_elem_of_In. by apply elem_of_lookup_imap_2.
  - by apply list_elem_of_In.
Qed.

Lemma gate_reports_blank_value (req : Submissions.Request.t) (i : nat)
    (entry : SubmissionField.t) :
  Submissions.Request.fields req !! i = Some entry ->
  blankValue (SubmissionField.value entry) ->
  ExpressValidator.ValidationError.mk ("fields[" +:+ pretty i +:+ "].value")
    "Field value is required" (SubmissionField.value entry)
  ∈ Submissions.validateSubmission req.
Proof.
  intros Hi Hempty. unfold Submissions.validateSubmission.
  apply elem_of_app. right. apply elem_of_app. right.
  eapply elem_of_concat_imap; [exact Hi |].
  rewrite notEmpty_blankValue by done. apply list_elem_of_here.
Qed.

Lemma gate_reports_missing_fieldId (req : Submissions.Request.t) (i : nat)
    (entry : SubmissionField.t) :
  Submissions.Request.fields req !! i = Some entry ->
  missingFieldId (SubmissionField.fieldId entry) ->
  ExpressValidator.ValidationError.mk ("fields[" +:+ pretty i +:+ "].fieldId")
    "Field ID is required" (Submissions.opt_value (SubmissionField.fieldId entry))
  ∈ Submissions.validateSubmission req.
Proof.
  intros Hi Hmissing. unfold Submissions.validateSubmission.
  apply elem_of_app. right. apply elem_of_app. left.
  eapply elem_of_concat_imap; [exact Hi |].
  rewrite notEmpty_missingFieldId by done. apply list_elem_of_here.
Qed.

Lemma gate_fails_on_blank (req : Submissions.Request.t) (entry : SubmissionField.t) :
  entry ∈ Submissions.Request.fields req ->
  blankValue (SubmissionField.value entry)
  \/ missingFieldId (SubmissionField.fieldId entry) ->
  Submissions.validateSubmission req <> [].
Proof.
  intros Hin Hbad Hnil. apply list_elem_of_lookup in Hin as [i Hi].
  destruct Hbad as [Hempty | Hmissing].
  - pose proof (gate_reports_blank_value req i entry Hi Hempty) as Herr.
    rewrite Hnil in Herr. by apply elem_of_nil in Herr.
  - pose proof (gate_reports_missing_fieldId req i entry Hi Hmissing) as Herr.
    rewrite Hnil in Herr. by apply elem_of_nil in Herr.
Qed.

Lemma run_notEmpty_nil (path message : string) (value : Js.value) :
  ExpressValidator.notEmpty path message value = [] <-> refusedValue value = false.
Proof.
  unfold ExpressValidator.notEmpty, ExpressValidator.run, refusedValue.
  assert (forall items : list Js.value,
            map (fun v => ExpressValidator.ValidationError.mk path message v)
              (List.filter (fun v => ExpressValidator.isEmpty (ExpressValidator.toString v))
                 items) = []
            <-> existsb blankItem items = false) as Hitems.
  { induction items as [| v items IH]; simpl; [done |].
    unfold blankItem at 1.
    destruct (ExpressValidator.isEmpty (ExpressValidator.toString v)); simpl; [done |].
    exact IH. }
  destruct value as [| | b | n | s | items | hollow]; try apply Hitems.
  all: rewrite Hitems; simpl; by rewrite orb_false_r.
Qed.

Lemma concat_imap_eq_nil {A B : Type} (f : nat -> A -> list B) (l : list A) :
  concat (imap f l) = [] <-> forall i x, l !! i = Some x -> f i x = [].
Proof.
  revert f. induction l as [| y l IH]; intros f; simpl.
  - split; [| done]. intros _ i x Hi. by rewrite lookup_nil in Hi.
  - split.
    + intros [Hy Hl]%app_eq_nil i x Hi. destruct i as [| i]; simpl in Hi.
      * by injection Hi as <-.
      * by apply (proj1 (IH (f ∘ S)) Hl i x).
    + intros H. rewrite (H 0%nat y eq_refl). simpl. apply IH.
      intros i x Hi. by apply (H (S i) x).
Qed.

(** Exactly what the request gate lets through. *)
Lemma gate_passes_iff (req : Submissions.Request.t) :
  Submissions.validateSubmission req = []
  <-> ExpressValidator.isMongoId (Submissions.Request.formId req) = true
      /\ forall entry, entry ∈ Submissions.Request.fields req ->
           refusedValue (SubmissionField.value entry) = false
           /\ ~ missingFieldId (SubmissionField.fieldId entry).
Proof.
  unfold Submissions.validateSubmission. split.
  - intros [Hid [Hids Hvalues]%app_eq_nil]%app_eq_nil.
    split; [by destruct (ExpressValidator.isMongoId _) |].
    intros entry [i Hi]%list_elem_of_lookup. split.
    + eapply run_notEmpty_nil. by apply (proj1 (concat_imap_eq_nil _ _) Hvalues i entry).
    + intros Hmissing.
      pose proof (proj1 (concat_imap_eq_nil _ _) Hids i entry Hi) as Hnil. simpl in Hnil.
      by rewrite notEmpty_missingFieldId in Hnil.
  - intros [-> Hentries]. simpl. apply app_nil. split.
    + apply concat_imap_eq_nil. intros i entry Hi.
      destruct (Hentries entry (list_elem_of_lookup_2 _ _ _ Hi)) as [_ Hid].
      destruct (SubmissionField.fieldId entry) as [[| c id] |] eqn:E;
        [exfalso; apply Hid; by right | reflexivity | exfalso; apply Hid; by left].
    + apply concat_imap_eq_nil. intros i entry Hi.
      destruct (Hentries entry (list_elem_of_lookup_2 _ _ _ Hi)) as [Hvalue _].
      by apply run_notEmpty_nil.
Qed.

Lemma blankValue_refused (value : Js.value) : blankValue value -> refusedValue value = true.
Proof. by intros [-> | [-> | ->]]. Qed.

(** C10.  The request gate misses the empty array.  A visitor who
    checks a box of a checkbox group and unchecks it again sends [[]]
    for the group; the spec counts the empty array as an absent value,
    and the gate refuses the other absent values (a missing key, [null],
    the empty string) with 400, yet this request passes the gate, is
    answered 201, and the submission with the empty value is stored and
    counted, here for a required field.  A chosen file, which travels
    as [{}], passes as well, and its entry is stored with no value. *)
Theorem post_accepts_empty_array :
  isAbsent (Js.VArr []) = true
  /\ FormField.required colorsField = true
  /\ Store.forms pollStore !! formOid = Some pollForm
  /\ Submissions.validateSubmission emptyArrayRequest = []
  /\ Submissions.post 1000 emptyArrayRequest pollStore
     = (Submissions.Created (newSubmission 1000 emptyArrayRequest formOid pollStore),
        {| Store.forms := {[ formOid := inc_submissions 1 pollForm ]};
           Store.submissions := [newSubmission 1000 emptyArrayRequest formOid pollStore];
           Store.next_id := 2%N |})
  /\ Submission.fields (newSubmission 1000 emptyArrayRequest formOid pollStore)
     = [{| SubmissionField.fieldId := Some "f2";
           SubmissionField.value := Js.VArr [];
           SubmissionField.fieldType := Some "checkbox" |}]
  /\ fst (Submissions.post 1000 fileRequest pollStore)
     = Submissions.Created (newSubmission 1000 fileRequest formOid pollStore)
  /\ Submission.fields (newSubmission 1000 fileRequest formOid pollStore)
     = [{| SubmissionField.fieldId := Some "f5";
           SubmissionField.value := Js.VUndefined;
           SubmissionField.fieldType := Some "file" |}]
  /\ fst (Submissions.post 1000 emptyEmailRequest pollStore)
     = Submissions.Failure 400 "Validation failed"
         (Some [ExpressValidator.ValidationError.mk "fields[0].value"
                  "Field value is required" (Js.VStr "")]).
Proof. repeat split; vm_compute; reflexivity. Qed.

(** X25.  The request gate of POST /submissions lets a request through
    exactly when its [formId] passes [isMongoId] and no entry has a
    refused value or a missing or empty [fieldId].  A value is refused
    when it is missing, [null] or the empty string, or an array with
    an item whose text is empty; the empty array, booleans and objects
    are not refused.  A request that the gate stops is answered 400
    "Validation failed" with the errors of the gate, and the store is
    untouched, whatever it holds. *)
Theorem gate_refuses_exactly (req : Submissions.Request.t) :
  (Submissions.validateSubmission req = []
   <-> ExpressValidator.isMongoId (Submissions.Request.formId req) = true
       /\ forall entry, entry ∈ Submissions.Request.fields req ->
            refusedValue (SubmissionField.value entry) = false
            /\ SubmissionField.fieldId entry <> None
            /\ SubmissionField.fieldId entry <> Some "")
  /\ (forall (now : Z) (db : Store.t),
        Submissions.validateSubmission req <> [] ->
        Submissions.post now req db
        = (Submissions.Failure 400 "Validation failed"
             (Some (Submissions.validateSubmission req)), db))
  /\ refusedValue Js.VUndefined = true
  /\ refusedValue Js.VNull = true
  /\ (forall s, refusedValue (Js.VStr s) = true <-> s = "")
  /\ (forall items,
        refusedValue (Js.VArr items) = true
        <-> exists item, item ∈ items /\ ExpressValidator.toString item = "")
  /\ refusedValue (Js.VArr []) = false
  /\ (forall b, refusedValue (Js.VBool b) = false)
  /\ (forall hollow, refusedValue (Js.VObj hollow) = false).
Proof.
  split; [| split; [| split; [| split; [| split; [| split; [| split; [| split]]]]]]].
  - rewrite gate_passes_iff. split; intros [Hid Hentries]; (split; [done |]).
    + intros entry Hentry. destruct (Hentries entry Hentry) as [Hvalue Hfield].
      split; [done |]. split; intros E; apply Hfield; [by left | by right].
    + intros entry Hentry. destruct (Hentries entry Hentry) as (Hvalue & Hnone & Hempty).
      split; [done |]. by intros [E | E].
  - intros now db. apply post_rejected.
  - reflexivity.
  - reflexivity.
  - intros s. by destruct s.
  - intros items. simpl. rewrite existsb_exists. split.
    + intros (item & Hin & Hblank). exists item. split; [by apply list_elem_of_In |].
      unfold blankItem, ExpressValidator.isEmpty in Hblank.
      by destruct (ExpressValidator.toString item).
    + intros (item & Hin & Hblank). exists item. split; [by apply list_elem_of_In |].
      unfold blankItem. by rewrite Hblank.
  - reflexivity.
  - by intros [].
  - by intros hollow.
Qed.

(** *** The gate and the cast agree on 24 hexadecimal digits *)

Lemma matches_Alt (r1 r2 : Regex.t) (s : string) :
  Regex.matches (Regex.Alt r1 r2) s = Regex.matches r1 s || Regex.matches r2 s.
Proof.
  revert r1 r2. induction s as [| c s IH]; intros r1 r2; simpl; [done | apply IH].
Qed.

Lemma matches_hex_tail (s : string) :
  all_hex s = true ->
  Regex.matches
    (Regex.Cat Regex.Eps (Regex.Star (Regex.Class ExpressValidator.is_hex_digit))) s
  = true.
Proof.
  induction s as [| c s IH]; simpl; [done |].
  intros [Hc Hs]%andb_true_iff. rewrite Hc, matches_Alt, (IH Hs).
  apply orb_true_r.
Qed.

Lemma isHexadecimal_all_hex (s : string) :
  s <> "" -> all_hex s = true -> ExpressValidator.isHexadecimal s = true.
Proof.
  destruct s as [| c s]; [done |]. intros _ [Hc Hs]%andb_true_iff.
  unfold ExpressValidator.isHexadecimal, ExpressValidator.hexadecimal. simpl.
  rewrite Hc, matches_Alt, (matches_hex_tail s Hs). apply orb_true_r.
Qed.

Lemma hex_value_is_hex_digit (c : ascii) (d : N) :
  hex_value c = Some d -> ExpressValidator.is_hex_digit c = true.
Proof.
  destruct c as [[] [] [] [] [] [] [] []]; vm_compute; congruence.
Qed.

Lemma parse_hex_all_hex (s : string) (acc oid : N) :
  parse_hex acc s = Some oid -> all_hex s = true.
Proof.
  revert acc. induction s as [| c s IH]; intros acc; simpl; [done |].
  destruct (hex_value c) as [d |] eqn:Hc; [| done].
  intros Hparse. rewrite (hex_value_is_hex_digit c d Hc). simpl. eauto.
Qed.

Lemma castObjectId_isMongoId (s : string) (oid : N) :
  castObjectId s = Some oid -> ExpressValidator.isMongoId s = true.
Proof.
  unfold castObjectId, ExpressValidator.isMongoId.
  destruct (Nat.eqb (String.length s) 24) eqn:Hlen; [| done].
  intros Hparse. rewrite andb_true_r. apply isHexadecimal_all_hex.
  - intros ->. discriminate.
  - by eapply parse_hex_all_hex.
Qed.

(** A string the gate lets through and the cast refuses: the pattern
    of [isHexadecimal] allows a [0x] prefix. *)
Lemma isMongoId_not_castable :
  ExpressValidator.isMongoId "0x7f1f77bcf86cd799439011" = true
  /\ castObjectId "0x7f1f77bcf86cd799439011" = None.
Proof. split; reflexivity. Qed.

(** ** What the ingestion route checks *)

(** C1 (as amended).  For a request whose form is found and published,
    [post] runs no field rule of the form: when the request gate and the
    Submission schema pass, the submission is created with one entry
    for each entry sent, in the order sent, with the same [fieldId] and
    [fieldType] and with the value as sent, except that a value that is
    a hollow object (the [{}] of a file answer) is left out of the
    stored entry; this is so whatever the field definitions of the form
    and whichever of its fields are absent from the submission.  When
    the gate fails, the answer is 400 "Validation failed" with all the
    gate errors as details, one for every entry whose value is missing,
    [null] or the empty string, not just the first.  In particular a
    single entry with a non-empty [fieldId] and the empty string as
    value gets exactly one detail, for [fields[0].value]. *)
Theorem post_checks_request_shape_only
    (now : Z) (req : Submissions.Request.t) (db : Store.t)
    (formId : N) (form : Form.t) :
  castObjectId (Submissions.Request.formId req) = Some formId ->
  Store.forms db !! formId = Some form ->
  Form.status form = published ->
  (Submissions.validateSubmission req = [] ->
   Submissions.schemaValid (Submissions.Request.fields req) = true ->
   fst (Submissions.post now req db)
   = Submissions.Created (newSubmission now req formId db)
   /\ Store.submissions (snd (Submissions.post now req db))
      = Store.submissions db ++ [newSubmission now req formId db]
   /\ List.length (Submission.fields (newSubmission now req formId db))
      = List.length (Submissions.Request.fields req)
   /\ forall (i : nat) (entry : SubmissionField.t),
        Submissions.Request.fields req !! i = Some entry ->
        Submission.fields (newSubmission now req formId db) !! i
        = Some {| SubmissionField.fieldId := SubmissionField.fieldId entry;
                  SubmissionField.value :=
                    match SubmissionField.value entry with
                    | Js.VObj true => Js.VUndefined
                    | value => value
                    end;
                  SubmissionField.fieldType := SubmissionField.fieldType entry |})
  /\ (Submissions.validateSubmission req <> [] ->
      Submissions.post now req db
      = (Submissions.Failure 400 "Validation failed"
           (Some (Submissions.validateSubmission req)), db))
  /\ (forall (i : nat) (entry : SubmissionField.t),
         Submissions.Request.fields req !! i = Some entry ->
         blankValue (SubmissionField.value entry) ->
         ExpressValidator.ValidationError.mk ("fields[" +:+ pretty i +:+ "].value")
           "Field value is required" (SubmissionField.value entry)
         ∈ Submissions.validateSubmission req)
  /\ (forall (fieldId : string) (fieldType : option string),
         fieldId <> "" ->
         Submissions.Request.fields req
         = [{| SubmissionField.fieldId := Some fieldId;
               SubmissionField.value := Js.VStr "";
               SubmissionField.fieldType := fieldType |}] ->
         Submissions.post now req db
         = (Submissions.Failure 400 "Validation failed"
              (Some [ExpressValidator.ValidationError.mk "fields[0].value"
                       "Field value is required" (Js.VStr "")]), db)).
Proof.
  intros Hcast Hform Hstatus. split; [| split; [| split]].
  - intros Hgate Hschema.
    rewrite (post_created now req db formId form) by done. simpl.
    split; [done |]. split; [done |]. unfold Submissions.stored.
    split; [by rewrite length_map |].
    intros i entry Hi. rewrite list_lookup_fmap, Hi. simpl. unfold Submissions.minimize.
    by destruct (SubmissionField.value entry) as [| | | | | | []].
  - apply post_rejected.
  - intros i entry. apply gate_reports_blank_value.
  - intros fieldId fieldType Hid Hfields.
    assert (Submissions.validateSubmission req
            = [ExpressValidator.ValidationError.mk "fields[0].value"
                 "Field value is required" (Js.VStr "")]) as Hgate.
    { unfold Submissions.validateSubmission.
      rewrite (castObjectId_isMongoId _ _ Hcast), Hfields. simpl.
      destruct fieldId as [| c rest]; [done | reflexivity]. }
    rewrite post_rejected by (rewrite Hgate; discriminate).
    by rewrite Hgate.
Qed.

Lemma contactStore_lookup : Store.forms contactStore !! formOid = Some contactForm.
Proof. vm_compute. reflexivity. Qed.

Lemma post_checks_request_shape_only_witness :
  castObjectId (Submissions.Request.formId badEmailRequest) = Some formOid
  /\ Store.forms contactStore !! formOid = Some contactForm
  /\ Form.status contactForm = published
  /\ Submissions.validateSubmission badEmailRequest = []
  /\ Submissions.schemaValid (Submissions.Request.fields badEmailRequest) = true
  /\ fst (Submissions.post 1000 badEmailRequest contactStore)
     = Submissions.Created (newSubmission 1000 badEmailRequest formOid contactStore).
Proof.
  assert (castObjectId (Submissions.Request.formId badEmailRequest) = Some formOid)
    as Hcast by (vm_compute; reflexivity).
  assert (Store.forms contactStore !! formOid = Some contactForm)
    as Hform by (vm_compute; reflexivity).
  assert (Submissions.validateSubmission badEmailRequest = [])
    as Hgate by (vm_compute; reflexivity).
  repeat (split; [first [exact Hcast | exact Hform | exact Hgate | reflexivity] |]).
  apply (proj1 (post_checks_request_shape_only 1000 badEmailRequest contactStore
                  formOid contactForm Hcast Hform eq_refl) Hgate eq_refl).
Defined.

(** C1, the claim as stated, fails: the form is found and published,
    its required field "Name" is absent from the submission and the
    email is malformed, so the field rules give two errors; [post]
    creates the submission. *)
Lemma post_validation_counterexample :
  Store.forms contactStore !! formOid = Some contactForm
  /\ Form.status contactForm = published
  /\ Form.fields contactForm = [nameField; emailField]
  /\ PublicForm.validateField nameField Js.VUndefined = "Name is required"
  /\ PublicForm.validateField emailField (Js.VStr "not-an-email")
     = "Email must be a valid email"
  /\ fst (Submissions.post 1000 badEmailRequest contactStore)
     = Submissions.Created (newSubmission 1000 badEmailRequest formOid contactStore)
  /\ Store.submissions (snd (Submissions.post 1000 badEmailRequest contactStore))
     = [newSubmission 1000 badEmailRequest formOid contactStore].
Proof. repeat split; vm_compute; reflexivity. Qed.

(** The answer of [post] does not depend on the settings of the form,
    [submissionLimit] among them. *)
Lemma post_resetSettings (now : Z) (req : Submissions.Request.t) (db : Store.t)
    (formId : N) (settings : FormSettings.t) :
  fst (Submissions.post now req (resetSettings formId settings db))
  = fst (Submissions.post now req db).
Proof.
  unfold Submissions.post.
  destruct (Submissions.validateSubmission req) as [| e errs]; simpl; [| done].
  destruct (castObjectId (Submissions.Request.formId req)) as [oid |]; [| done].
  rewrite lookup_alter.
  destruct (decide (formId = oid)) as [-> | Hne];
    destruct (Store.forms db !! oid) as [form |]; simpl; try done.
  all: destruct (Form.status form); [done |].
  all: by destruct (Submissions.schemaValid (Submissions.Request.fields req)).
Qed.

(** An empty array has no item to check, so it passes [notEmpty];
    an array with an empty item does not. *)
Lemma notEmpty_arrays (path message : string) :
  ExpressValidator.notEmpty path message (Js.VArr []) = []
  /\ ExpressValidator.notEmpty path message (Js.VArr [Js.VStr "a"; Js.VStr ""])
     = [ExpressValidator.ValidationError.mk path message (Js.VStr "")].
Proof. split; reflexivity. Qed.

(** C3.  The limit is never consulted: on a published form with
    [submissionLimit = 1], a first valid submission is created and
    brings the counter to 1, and a second attempt is created as well,
    bringing the counter to 2, where the claim has it fail with
    LimitReached. *)
Theorem post_ignores_submissionLimit :
  let first := Submissions.post 1000 validRequest contactStore in
  let second := Submissions.post 2000 validRequest (snd first) in
  FormSettings.submissionLimit (Form.settings contactForm) = Some 1
  /\ PublicForm.validateField nameField (Js.VStr "Ada") = ""
  /\ PublicForm.validateField emailField (Js.VStr "ada@example.org") = ""
  /\ fst first = Submissions.Created (newSubmission 1000 validRequest formOid contactStore)
  /\ Form.submissions <$> (Store.forms (snd first) !! formOid) = Some 1
  /\ fst second = Submissions.Created (newSubmission 2000 validRequest formOid (snd first))
  /\ Form.submissions <$> (Store.forms (snd second) !! formOid) = Some 2
  /\ List.length (Store.submissions (snd second)) = 2%nat.
Proof. repeat split; vm_compute; reflexivity. Qed.

Lemma post_redefineFields (now : Z) (req : Submissions.Request.t) (db : Store.t)
    (formId : N) (fields : list FormField.t) :
  fst (Submissions.post now req (redefineFields formId fields db))
  = fst (Submissions.post now req db).
Proof.
  unfold Submissions.post.
  destruct (Submissions.validateSubmission req) as [| e errs]; simpl; [| done].
  destruct (castObjectId (Submissions.Request.formId req)) as [oid |]; [| done].
  rewrite lookup_alter.
  destruct (decide (formId = oid)) as [-> | Hne];
    destruct (Store.forms db !! oid) as [form |]; simpl; try done.
  all: destruct (Form.status form); [done |].
  all: by destruct (Submissions.schemaValid (Submissions.Request.fields req)).
Qed.

Lemma stepErrors_copies (form : Form.t) (currentStep : nat)
    (formData : gmap string Js.value) :
  FormPreview.stepErrors form currentStep formData
  = PublicForm.stepErrors form currentStep formData.
Proof. reflexivity. Qed.

(** C2 (as amended).  The preview component and the public form each
    carry a copy of [validateField]; the two copies give the same
    message for every field and value, and the same errors for every
    step.  The ingestion route calls neither: its answer to a request
    is the same whatever field definitions the form has. *)
Theorem validateField_preview_agrees_with_public_form :
  (forall (field : FormField.t) (value : Js.value),
      FormPreview.validateField field value = PublicForm.validateField field value)
  /\ (forall (form : Form.t) (currentStep : nat) (formData : gmap string Js.value),
         FormPreview.stepErrors form currentStep formData
         = PublicForm.stepErrors form currentStep formData
         /\ FormPreview.validateStep form currentStep formData
            = PublicForm.validateStep form currentStep formData)
  /\ (forall (now : Z) (req : Submissions.Request.t) (db : Store.t)
             (formId : N) (fields : list FormField.t),
         fst (Submissions.post now req (redefineFields formId fields db))
         = fst (Submissions.post now req db)).
Proof.
  split; [| split].
  - apply validateField_copies.
  - intros form currentStep formData. split; [apply stepErrors_copies | reflexivity].
  - apply post_redefineFields.
Qed.

(** C2, the claim as stated, fails in both directions: the preview
    rejects a malformed email that the ingestion route stores, and the
    preview accepts an empty optional email that the ingestion route
    rejects. *)
Lemma validation_paths_counterexample :
  FormPreview.validateField emailField (Js.VStr "not-an-email")
  = "Email must be a valid email"
  /\ fst (Submissions.post 1000 badEmailRequest contactStore)
     = Submissions.Created (newSubmission 1000 badEmailRequest formOid contactStore)
  /\ FormPreview.validateField emailField (Js.VStr "") = ""
  /\ fst (Submissions.post 1000 emptyEmailRequest contactStore)
     = Submissions.Failure 400 "Validation failed"
         (Some [ExpressValidator.ValidationError.mk "fields[0].value"
                  "Field value is required" (Js.VStr "")]).
Proof. repeat split; vm_compute; reflexivity. Qed.

(** ** The submissions counter *)

Lemma submissionCount_snoc (formId : N) (coll : list Submission.t) (s : Submission.t) :
  submissionCount formId (coll ++ [s])
  = submissionCount formId coll + (if (Submission.formId s =? formId)%N then 1 else 0).
Proof.
  unfold submissionCount. rewrite List.filter_app, length_app. simpl.
  destruct (Submission.formId s =? formId)%N; simpl; lia.
Qed.




Lemma post_consistent (now : Z) (req : Submissions.Request.t) (db : Store.t) :
  countersConsistent db -> countersConsistent (snd (Submissions.post now req db)).
Proof.
  intros Hcons.
  destruct (post_cases now req db)
    as [(formId & form & _ & _ & _ & _ & _ & ->) | (st & e & d & ->)]; [| done].
  simpl. intros oid f Hf. simpl in *. rewrite submissionCount_snoc. simpl.
  rewrite lookup_alter in Hf.
  destruct (decide (formId = oid)) as [-> | Hne].
  - destruct (Store.forms db !! oid) as [f0 |] eqn:Hf0; [| done].
    injection Hf as <-. simpl. rewrite N.eqb_refl. by rewrite (Hcons oid f0 Hf0).
  - apply N.eqb_neq in Hne. rewrite Hne.
    rewrite (Hcons oid f Hf). lia.
Qed.



(** *** Handlers in flight *)

(** Run alone, the steps of a handler are the handler. *)
Lemma advance_post (now : Z) (req : Submissions.Request.t) (db : Store.t) :
  let '(t1, db1) := advance (PostFind now req) db in
  let '(t2, db2) := advance t1 db1 in
  let '(t3, db3) := advance t2 db2 in
  t3 = Responded (fst (Submissions.post now req db))
  /\ db3 = snd (Submissions.post now req db).
Proof.
  unfold Submissions.post. simpl.
  destruct (Submissions.validateSubmission req) as [| e errs]; simpl; [| done].
  destruct (castObjectId (Submissions.Request.formId req)) as [formId |]; [| done].
  destruct (Store.forms db !! formId) as [form |]; [| done].
  destruct (Form.status form); [done |]. simpl.
  destruct (Submissions.schemaValid (Submissions.Request.fields req)); done.
Qed.

Lemma advance_delete (id : string) (db : Store.t) :
  let '(t1, db1) := advance (DeleteFind id) db in
  let '(t2, db2) := advance t1 db1 in
  t2 = Responded (fst (Submissions.delete id db))
  /\ db2 = snd (Submissions.delete id db).
Proof.
  unfold Submissions.delete. simpl.
  destruct (castObjectId id) as [oid |]; [| done].
  destruct (Submissions.findByIdAndDelete oid (Store.submissions db))
    as [[s rest] |]; done.
Qed.









Lemma contactStore_consistent : countersConsistent contactStore.
Proof.
  unfold countersConsistent, contactStore. simpl.
  apply map_Forall_singleton. reflexivity.
Qed.


(** ** Saving a form over its counter *)

Lemma put_cases (id : string) (body : FormBody.t) (db : Store.t) :
  (exists (oid : N) (form : Form.t),
      castObjectId id = Some oid
      /\ Store.forms db !! oid = Some form
      /\ Forms.put id body db
         = (Forms.Data (Forms.update (Forms.sanitize body) form),
            {| Store.forms :=
                 <[oid := Forms.update (Forms.sanitize body) form]> (Store.forms db);
               Store.submissions := Store.submissions db;
               Store.next_id := Store.next_id db |}))
  \/ ((forall form, fst (Forms.put id body db) <> Forms.Data form)
      /\ snd (Forms.put id body db) = db).
Proof.
  unfold Forms.put.
  destruct (negb (Nat.eqb (List.length (Forms.validateForm body)) 0)); [by right |].
  destruct (castObjectId id) as [oid |]; [| by right].
  destruct (negb (Forms.fieldsValid (FormBody.fields (Forms.sanitize body)))); [by right |].
  destruct (Store.forms db !! oid) as [form |] eqn:Hform; [| by right].
  left. by exists oid, form.
Qed.

Lemma put_writes_counter (id : string) (oid : N) (body : FormBody.t) (db : Store.t)
    (form : Form.t) (n : Z) :
  castObjectId id = Some oid ->
  fst (Forms.put id body db) = Forms.Data form ->
  FormBody.submissions body = Some n ->
  Form.submissions form = n
  /\ Store.forms (snd (Forms.put id body db)) !! oid = Some form
  /\ Store.submissions (snd (Forms.put id body db)) = Store.submissions db.
Proof.
  intros Hcast Hdata Hn.
  destruct (put_cases id body db)
    as [(oid' & old & Hcast' & _ & Hput) | [Hno _]];
    [| by destruct (Hno form)].
  rewrite Hput in *. cbn [fst snd Store.forms Store.submissions] in *.
  injection Hdata as <-. rewrite Hcast in Hcast'. injection Hcast' as <-.
  split; [| split; [by rewrite lookup_insert_eq | done]].
  unfold Forms.update, Forms.sanitize. cbn. by rewrite Hn.
Qed.

(** C7.  Saving a form in the builder overwrites its counter.  The
    builder loads the form (counter 0), a visitor's submission is
    accepted (one record, counter 1), and the builder saves: the PUT
    body is the whole form as loaded, the handler stores every property
    of the body, and the counter is 0 again with one record stored.
    In general a PUT that is answered with the form leaves the counter
    at the [submissions] of its body when the body has one, whatever
    the number of records; the routes for submissions keep the counter
    by updates of the stored value. *)
Theorem put_overwrites_counter :
  let loaded := loadedForm contactForm in
  let visited := snd (Submissions.post 1000 validRequest contactStore) in
  let saved := snd (Forms.put formIdString loaded visited) in
  Forms.get formIdString contactStore = Forms.Data contactForm
  /\ handleSave loaded = Some loaded
  /\ FormBody.submissions loaded = Some 0
  /\ countersConsistent contactStore
  /\ fst (Submissions.post 1000 validRequest contactStore)
     = Submissions.Created (newSubmission 1000 validRequest formOid contactStore)
  /\ countersConsistent visited
  /\ Form.submissions <$> (Store.forms visited !! formOid) = Some 1
  /\ (exists form, fst (Forms.put formIdString loaded visited) = Forms.Data form
                   /\ Store.forms saved !! formOid = Some form
                   /\ Form.submissions form = 0)
  /\ Store.submissions saved = Store.submissions visited
  /\ submissionCount formOid (Store.submissions saved) = 1
  /\ ~ countersConsistent saved
  /\ (forall (id : string) (oid : N) (body : FormBody.t) (db : Store.t)
             (form : Form.t) (n : Z),
         castObjectId id = Some oid ->
         fst (Forms.put id body db) = Forms.Data form ->
         FormBody.submissions body = Some n ->
         Form.submissions form = n
         /\ Store.forms (snd (Forms.put id body db)) !! oid = Some form
         /\ Store.submissions (snd (Forms.put id body db)) = Store.submissions db).
Proof.
  intros loaded visited saved.
  assert (countersConsistent visited) as Hvisited.
  { apply post_consistent, contactStore_consistent. }
  assert (Store.forms saved !! formOid
          = Some (Forms.update (Forms.sanitize loaded) (inc_submissions 1 contactForm)))
    as Hsaved.
  { vm_compute. reflexivity. }
  assert (submissionCount formOid (Store.submissions saved) = 1) as Hcount.
  { vm_compute. reflexivity. }
  split; [vm_compute; reflexivity |]. split; [vm_compute; reflexivity |].
  split; [reflexivity |]. split; [exact contactStore_consistent |].
  split; [vm_compute; reflexivity |]. split; [exact Hvisited |].
  split; [vm_compute; reflexivity |]. split; [| split; [| split; [| split]]].
  - exists (Forms.update (Forms.sanitize loaded) (inc_submissions 1 contactForm)).
    split; [vm_compute; reflexivity |]. split; [exact Hsaved | reflexivity].
  - vm_compute. reflexivity.
  - exact Hcount.
  - intros Hc. pose proof (Hc formOid _ Hsaved) as E.
    cbv beta in E. rewrite Hcount in E. vm_compute in E. discriminate.
  - exact put_writes_counter.
Qed.

(** ** Maps in insertion order *)

Section JsMapFacts.
Context {K V : Type} (eqb : K -> K -> bool).
Hypothesis eqb_sym : forall a b, eqb a b = eqb b a.
Hypothesis eqb_trans : forall a b c, eqb a b = true -> eqb b c = true -> eqb a c = true.

Lemma eqb_congr (a b c : K) : eqb a b = true -> eqb c a = eqb c b.
Proof.
  intros Hab. destruct (eqb c a) eqn:Hca, (eqb c b) eqn:Hcb; try done.
  - by rewrite (eqb_trans c a b Hca Hab) in Hcb.
  - rewrite eqb_sym in Hab. by rewrite (eqb_trans c b a Hcb Hab) in Hca.
Qed.

Lemma get_congr (m : list (K * V)) (a b : K) :
  eqb a b = true -> JsMap.get eqb m a = JsMap.get eqb m b.
Proof.
  intros Hab. induction m as [| [k v] m IH]; simpl; [done |].
  by rewrite (eqb_congr a b k Hab), IH.
Qed.

Lemma get_set (m : list (K * V)) (k q : K) (v : V) :
  JsMap.get eqb (JsMap.set eqb m k v) q
  = if eqb k q then Some v else JsMap.get eqb m q.
Proof.
  induction m as [| [k' v'] m IH]; simpl.
  - done.
  - destruct (eqb k' k) eqn:Hk; simpl.
    + rewrite (eqb_sym k q), <- (eqb_congr k' k q Hk), (eqb_sym q k').
      by destruct (eqb k' q).
    + rewrite IH. destruct (eqb k' q) eqn:Hq; [| done].
      destruct (eqb k q) eqn:Hkq; [| done].
      rewrite eqb_sym in Hkq. by rewrite (eqb_trans k' q k Hq Hkq) in Hk.
Qed.

Lemma get_elem_of (m : list (K * V)) (q : K) (v : V) :
  JsMap.get eqb m q = Some v -> exists k, eqb k q = true /\ (k, v) ∈ m.
Proof.
  induction m as [| [k' v'] m IH]; simpl; [done |].
  destruct (eqb k' q) eqn:Hq.
  - intros [= ->]. exists k'. split; [done | apply list_elem_of_here].
  - intros Hget. destruct (IH Hget) as (k & Hk & Hin).
    exists k. split; [done | by apply list_elem_of_further].
Qed.

Lemma set_elem_of (m : list (K * V)) (k k' : K) (v v' : V) :
  (k', v') ∈ JsMap.set eqb m k v ->
  (k', v') ∈ m \/ (v' = v /\ (eqb k' k = true \/ k' = k)).
Proof.
  induction m as [| [k0 v0] m IH]; simpl.
  - intros [= -> ->]%list_elem_of_singleton. right. auto.
  - destruct (eqb k0 k) eqn:Hk.
    + intros [[= -> ->] | Hin]%elem_of_cons.
      * right. auto.
      * left. by apply list_elem_of_further.
    + intros [[= -> ->] | Hin]%elem_of_cons.
      * left. apply list_elem_of_here.
      * destruct (IH Hin) as [Hm | Hnew]; [left; by apply list_elem_of_further | by right].
Qed.

Lemma set_distinct (m : list (K * V)) (k : K) (v : V) :
  JsMap.distinctKeys eqb m -> JsMap.distinctKeys eqb (JsMap.set eqb m k v).
Proof.
  induction 1 as [| k0 v0 m Hfresh Hdist IH]; simpl.
  - constructor; [| constructor]. intros k' v' Hin. by apply elem_of_nil in Hin.
  - destruct (eqb k0 k) eqn:Hk.
    + by constructor.
    + constructor; [| done]. intros k' v' Hin.
      destruct (set_elem_of m k k' v v' Hin) as [Hm | [_ [Heq | ->]]]; [eauto | | done].
      destruct (eqb k0 k') eqn:Hk0; [| done].
      by rewrite (eqb_trans k0 k' k Hk0 Heq) in Hk.
Qed.

Lemma elem_of_get (m : list (K * V)) (k : K) (v : V) :
  JsMap.distinctKeys eqb m -> (k, v) ∈ m -> eqb k k = true -> JsMap.get eqb m k = Some v.
Proof.
  induction 1 as [| k0 v0 m Hfresh Hdist IH]; simpl.
  - intros Hin. by apply elem_of_nil in Hin.
  - intros [[= -> ->] | Hin]%elem_of_cons Hrefl.
    + by rewrite Hrefl.
    + rewrite (Hfresh k v Hin). by apply IH.
Qed.

End JsMapFacts.

(** ** Analytics *)

Lemma string_eqb_sym (a b : string) : String.eqb a b = String.eqb b a.
Proof. apply String.eqb_sym. Qed.

Lemma string_eqb_trans (a b c : string) :
  String.eqb a b = true -> String.eqb b c = true -> String.eqb a c = true.
Proof. rewrite !String.eqb_eq. congruence. Qed.

Lemma sameValueZero_sym (a b : Js.value) : Js.sameValueZero a b = Js.sameValueZero b a.
Proof.
  destruct a, b; simpl; try done.
  - by destruct b, b0.
  - apply Z.eqb_sym.
  - apply String.eqb_sym.
Qed.

Lemma sameValueZero_trans (a b c : Js.value) :
  Js.sameValueZero a b = true -> Js.sameValueZero b c = true ->
  Js.sameValueZero a c = true.
Proof.
  destruct a, b; simpl; try done; destruct c; simpl; try done.
  - rewrite !Bool.eqb_true_iff. congruence.
  - rewrite !Z.eqb_eq. congruence.
  - rewrite !String.eqb_eq. congruence.
Qed.

(** The [Map] of values holds, for a key, the number of its occurrences. *)
Lemma addKey_get (values : list (Js.value * Z)) (key q : Js.value) :
  JsMap.get Js.sameValueZero (addKey values key) q
  = if Js.sameValueZero key q
    then Some (default 0 (JsMap.get Js.sameValueZero values q) + 1)
    else JsMap.get Js.sameValueZero values q.
Proof.
  unfold addKey.
  rewrite (get_set _ sameValueZero_sym sameValueZero_trans).
  destruct (Js.sameValueZero key q) eqn:Hq; [| done].
  by rewrite (get_congr _ sameValueZero_sym sameValueZero_trans values key q Hq).
Qed.

Lemma occurrences_cons (q key : Js.value) (keys : list Js.value) :
  occurrences q (key :: keys)
  = (if Js.sameValueZero q key then 1 else 0) + occurrences q keys.
Proof.
  unfold occurrences. simpl. destruct (Js.sameValueZero q key); simpl; lia.
Qed.

Lemma occurrences_nonneg (q : Js.value) (keys : list Js.value) : 0 <= occurrences q keys.
Proof. unfold occurrences. lia. Qed.

Lemma tally_get (keys : list Js.value) (values : list (Js.value * Z)) (q : Js.value) :
  JsMap.get Js.sameValueZero (foldl addKey values keys) q
  = if (occurrences q keys =? 0)%Z
    then JsMap.get Js.sameValueZero values q
    else Some (default 0 (JsMap.get Js.sameValueZero values q) + occurrences q keys).
Proof.
  revert values. induction keys as [| key keys IH]; intros values; simpl; [done |].
  rewrite IH, addKey_get, occurrences_cons, (sameValueZero_sym q key).
  pose proof (occurrences_nonneg q keys) as Hnn.
  destruct (Js.sameValueZero key q); simpl.
  - destruct (Z.eqb_spec (occurrences q keys) 0) as [-> | Hne].
    + simpl. done.
    + destruct (Z.eqb_spec (1 + occurrences q keys) 0); [lia |]. f_equal. lia.
  - done.
Qed.

Lemma tally_distinct (keys : list Js.value) (values : list (Js.value * Z)) :
  JsMap.distinctKeys Js.sameValueZero values ->
  JsMap.distinctKeys Js.sameValueZero (foldl addKey values keys).
Proof.
  revert values. induction keys as [| key keys IH]; intros values Hd; simpl; [done |].
  apply IH. by apply (set_distinct _ sameValueZero_trans).
Qed.

(** A key that is not equal to itself (an object) gets a fresh entry
    with count 1 at every occurrence. *)
Lemma tally_irreflexive (keys : list Js.value) (values : list (Js.value * Z)) :
  (forall k c, (k, c) ∈ values -> Js.sameValueZero k k = false -> c = 1) ->
  forall k c, (k, c) ∈ foldl addKey values keys ->
              Js.sameValueZero k k = false -> c = 1.
Proof.
  revert values. induction keys as [| key keys IH]; intros values Hone; simpl; [done |].
  apply IH. intros k c Hin Hirr.
  destruct (set_elem_of _ values key k _ c Hin) as [Hm | [-> [Heq | ->]]]; [eauto | |].
  - rewrite sameValueZero_sym in Heq.
    by rewrite (sameValueZero_trans k key k) in Hirr; [| rewrite sameValueZero_sym |].
  - assert (JsMap.get Js.sameValueZero values key = None) as ->; [| done].
    destruct (JsMap.get Js.sameValueZero values key) as [c |] eqn:Hget; [| done].
    destruct (get_elem_of _ values key c Hget) as (k' & Hk' & _).
    rewrite sameValueZero_sym in Hk'.
    assert (Js.sameValueZero key key = true); [| congruence].
    eapply sameValueZero_trans; [exact Hk' | by rewrite sameValueZero_sym].
Qed.

Lemma tally_counts (keys : list Js.value) (k : Js.value) (c : Z) :
  (k, c) ∈ foldl addKey [] keys ->
  c = if Js.sameValueZero k k then occurrences k keys else 1.
Proof.
  intros Hin. destruct (Js.sameValueZero k k) eqn:Hrefl.
  - pose proof (elem_of_get _ (foldl addKey [] keys) k c
                  (tally_distinct keys [] (JsMap.distinct_nil _)) Hin Hrefl) as Hget.
    rewrite tally_get in Hget. simpl in Hget.
    destruct (occurrences k keys =? 0)%Z; [done |]. injection Hget as <-. lia.
  - eapply (tally_irreflexive keys []); [| exact Hin | exact Hrefl].
    intros k' c' H. by apply elem_of_nil in H.
Qed.

Lemma recordField_unfold (fieldStats : list (string * Analytics.Stats.t))
    (entry : SubmissionField.t) :
  Analytics.recordField fieldStats entry
  = match SubmissionField.fieldId entry with
    | None => fieldStats
    | Some fieldId =>
        match JsMap.get String.eqb fieldStats fieldId with
        | None => fieldStats
        | Some stats => JsMap.set String.eqb fieldStats fieldId (bump stats entry)
        end
    end.
Proof. reflexivity. Qed.

Lemma recordField_get (fieldStats : list (string * Analytics.Stats.t))
    (entry : SubmissionField.t) (fieldId : string) :
  JsMap.get String.eqb (Analytics.recordField fieldStats entry) fieldId
  = (fun stats => if forField fieldId entry then bump stats entry else stats)
      <$> JsMap.get String.eqb fieldStats fieldId.
Proof.
  rewrite recordField_unfold. unfold forField.
  destruct (SubmissionField.fieldId entry) as [id |].
  2: { by destruct (JsMap.get String.eqb fieldStats fieldId). }
  destruct (String.eqb_spec id fieldId) as [-> | Hne].
  - destruct (JsMap.get String.eqb fieldStats fieldId) as [stats |] eqn:Hget.
    + rewrite (get_set _ string_eqb_sym string_eqb_trans). by rewrite String.eqb_refl.
    + by rewrite Hget.
  - destruct (JsMap.get String.eqb fieldStats id) as [stats |] eqn:Hget.
    + rewrite (get_set _ string_eqb_sym string_eqb_trans).
      apply String.eqb_neq in Hne. rewrite Hne.
      by destruct (JsMap.get String.eqb fieldStats fieldId).
    + by destruct (JsMap.get String.eqb fieldStats fieldId).
Qed.

Lemma recordFields_get (es : list SubmissionField.t)
    (fieldStats : list (string * Analytics.Stats.t)) (fieldId : string) :
  JsMap.get String.eqb (foldl Analytics.recordField fieldStats es) fieldId
  = (fun stats => foldl bump stats (List.filter (forField fieldId) es))
      <$> JsMap.get String.eqb fieldStats fieldId.
Proof.
  revert fieldStats. induction es as [| e es IH]; intros fieldStats; simpl.
  - by destruct (JsMap.get String.eqb fieldStats fieldId).
  - rewrite IH, recordField_get.
    destruct (JsMap.get String.eqb fieldStats fieldId) as [stats |]; simpl; [| done].
    by destruct (forField fieldId e).
Qed.

Lemma recordSubmissions_entries (subs : list Submission.t)
    (fieldStats : list (string * Analytics.Stats.t)) :
  foldl Analytics.recordSubmission fieldStats subs
  = foldl Analytics.recordField fieldStats (entries subs).
Proof.
  revert fieldStats. induction subs as [| s subs IH]; intros fieldStats; simpl; [done |].
  unfold entries. simpl. rewrite foldl_app. apply IH.
Qed.

Lemma bump_count (es : list SubmissionField.t) (stats : Analytics.Stats.t) :
  Analytics.Stats.count (foldl bump stats es)
  = Analytics.Stats.count stats + Z.of_nat (List.length es).
Proof.
  revert stats. induction es as [| e es IH]; intros stats; simpl; [lia |].
  rewrite IH. simpl. lia.
Qed.

Lemma bump_values (es : list SubmissionField.t) (stats : Analytics.Stats.t) :
  Analytics.Stats.values (foldl bump stats es)
  = foldl addKey (Analytics.Stats.values stats)
      (map (fun entry => Analytics.valueKey (SubmissionField.value entry))
         (List.filter (fun entry => Js.truthy (SubmissionField.value entry)) es)).
Proof.
  revert stats. induction es as [| e es IH]; intros stats; simpl; [done |].
  rewrite IH. simpl. by destruct (Js.truthy (SubmissionField.value e)).
Qed.

Lemma filter_filter_andb {A : Type} (p q : A -> bool) (l : list A) :
  List.filter q (List.filter p l) = List.filter (fun x => p x && q x) l.
Proof.
  induction l as [| x l IH]; simpl; [done |].
  destruct (p x); simpl; [| done]. destruct (q x); by rewrite IH.
Qed.

Lemma initStats_get (fields : list FormField.t)
    (fieldStats : list (string * Analytics.Stats.t)) (fieldId : string) :
  JsMap.get String.eqb
    (foldl (fun fieldStats field =>
              JsMap.set String.eqb fieldStats (FormField.id field)
                (Analytics.Stats.mk 0 []))
       fieldStats fields) fieldId
  = if existsb (fun field => String.eqb (FormField.id field) fieldId) fields
    then Some (Analytics.Stats.mk 0 [])
    else JsMap.get String.eqb fieldStats fieldId.
Proof.
  revert fieldStats. induction fields as [| f fields IH]; intros fieldStats; simpl; [done |].
  rewrite IH, (get_set _ string_eqb_sym string_eqb_trans).
  destruct (existsb _ fields); [by rewrite orb_true_r |].
  by rewrite orb_false_r.
Qed.

(** The statistics collected for a field of the form. *)
Lemma collect_get (form : Form.t) (subs : list Submission.t) (field : FormField.t) :
  field ∈ Form.fields form ->
  exists stats : Analytics.Stats.t,
    JsMap.get String.eqb (Analytics.collect form subs) (FormField.id field) = Some stats
    /\ Analytics.Stats.count stats = entryCount (FormField.id field) subs
    /\ Analytics.Stats.values stats
       = foldl addKey [] (countedKeys (FormField.id field) subs).
Proof.
  intros Hin. unfold Analytics.collect.
  rewrite recordSubmissions_entries, recordFields_get.
  unfold Analytics.initStats. rewrite initStats_get.
  assert (existsb (fun f => String.eqb (FormField.id f) (FormField.id field))
            (Form.fields form) = true) as ->.
  { apply existsb_exists. exists field. split; [by apply list_elem_of_In |].
    apply String.eqb_refl. }
  simpl. eexists. split; [reflexivity |]. split.
  - rewrite bump_count. simpl. done.
  - rewrite bump_values. simpl. unfold countedKeys. by rewrite filter_filter_andb.
Qed.

(** *** The sort of the value counts *)

Lemma insertDesc_perm (x : Js.value * Z) (l : list (Js.value * Z)) :
  Permutation (Analytics.insertDesc x l) (x :: l).
Proof.
  induction l as [| y l IH]; simpl; [done |].
  destruct (snd x <? snd y)%Z; [| done].
  rewrite IH. apply perm_swap.
Qed.

Lemma sortDesc_perm (l : list (Js.value * Z)) : Permutation (Analytics.sortDesc l) l.
Proof.
  induction l as [| x l IH]; simpl; [done |].
  rewrite insertDesc_perm. by constructor.
Qed.

Lemma insertDesc_descending (x : Js.value * Z) (l : list (Js.value * Z)) :
  descending l -> descending (Analytics.insertDesc x l).
Proof.
  induction 1 as [| y l Hl IH Hy]; simpl.
  - repeat constructor.
  - destruct (Z.ltb_spec (snd x) (snd y)) as [Hlt | Hge].
    + constructor; [exact IH |].
      apply Forall_forall. intros z Hz.
      rewrite (insertDesc_perm x l) in Hz.
      apply elem_of_cons in Hz as [-> | Hz]; [lia |].
      by apply (proj1 (Forall_forall _ _) Hy).
    + constructor; [by constructor |].
      constructor; [done |].
      eapply Forall_impl; [exact Hy |]. simpl. intros z Hz. lia.
Qed.

Lemma sortDesc_descending (l : list (Js.value * Z)) : descending (Analytics.sortDesc l).
Proof.
  induction l as [| x l IH]; simpl; [constructor | by apply insertDesc_descending].
Qed.

(** Equal counts keep their order of first arrival. *)
Lemma insertDesc_before_equal (x y : Js.value * Z) (l : list (Js.value * Z)) :
  snd y <= snd x -> Analytics.insertDesc x (y :: l) = x :: y :: l.
Proof. intros Hle. simpl. destruct (Z.ltb_spec (snd x) (snd y)); [lia | done]. Qed.

Lemma fieldStat_of_entry (form : Form.t) (fieldId : string) (stats : Analytics.Stats.t) :
  Analytics.FieldStat.fieldId (Analytics.fieldStat form (fieldId, stats)) = fieldId
  /\ Analytics.FieldStat.responseCount (Analytics.fieldStat form (fieldId, stats))
     = Analytics.Stats.count stats
  /\ Analytics.FieldStat.responseRate (Analytics.fieldStat form (fieldId, stats))
     = Analytics.rate (Analytics.Stats.count stats) (Form.submissions form)
  /\ Analytics.FieldStat.topValues (Analytics.fieldStat form (fieldId, stats))
     = take 5 (Analytics.sortDesc (Analytics.Stats.values stats)).
Proof. done. Qed.

Lemma entryCount_respondents (fieldId : string) (subs : list Submission.t) :
  (forall s : Submission.t,
      s ∈ subs ->
      (List.length (List.filter (forField fieldId) (Submission.fields s)) <= 1)%nat
      /\ forall entry : SubmissionField.t,
           entry ∈ Submission.fields s -> forField fieldId entry = true ->
           isAbsent (SubmissionField.value entry) = false) ->
  entryCount fieldId subs = respondents fieldId subs.
Proof.
  unfold entryCount, respondents, entries.
  induction subs as [| s subs IH]; intros Hsubs; simpl; [done |].
  rewrite List.filter_app, length_app.
  assert (List.length (List.filter (forField fieldId) (Submission.fields s))
          = if answered fieldId s then 1%nat else 0%nat) as ->.
  { destruct (Hsubs s (list_elem_of_here _ _)) as [Hone Hvalues].
    unfold answered. revert Hone Hvalues.
    induction (Submission.fields s) as [| e es IHe]; simpl; intros Hone Hvalues; [done |].
    destruct (forField fieldId e) eqn:He; simpl in *.
    - rewrite (Hvalues e (list_elem_of_here _ _) He). simpl.
      destruct (List.filter (forField fieldId) es); simpl in *; [done | lia].
    - apply IHe; [done |]. intros entry Hin. apply Hvalues.
      by apply list_elem_of_further. }
  assert (Z.of_nat (List.length (List.filter (forField fieldId)
                                   (concat (map Submission.fields subs))))
          = Z.of_nat (List.length (List.filter (answered fieldId) subs))) as Hrest.
  { apply IH. intros s' Hs'. apply Hsubs. by apply list_elem_of_further. }
  destruct (answered fieldId s); simpl; lia.
Qed.

Lemma occurrences_pos (key : Js.value) (keys : list Js.value) :
  key ∈ keys -> Js.sameValueZero key key = true -> 0 < occurrences key keys.
Proof.
  intros Hin Hrefl. induction keys as [| k keys IH]; [by apply elem_of_nil in Hin |].
  rewrite occurrences_cons. pose proof (occurrences_nonneg key keys).
  apply elem_of_cons in Hin as [<- | Hin].
  - rewrite Hrefl. lia.
  - specialize (IH Hin). destruct (Js.sameValueZero key k); lia.
Qed.

(** C8 (as amended).  For every field currently defined on the form,
    the report has an entry whose [responseCount] is the number of
    entries, in the submissions of the period, that name the field
    (whatever their value, once per entry); when every such submission
    has at most one entry for the field, with a value that is not
    absent, this is the number of period submissions that included a
    non-empty value for the field.  [responseRate] is [responseCount]
    divided by the lifetime counter of the form, times 100, and zero
    when the counter is not positive.  [topValues] are the first five of
    the value counts in descending order, where a count is the number
    of truthy values given for the field that are the same key after an
    array is joined into one string (an object is a key of its own,
    counted once). *)
Theorem formAnalytics_field_statistics
    (now : Z) (formId : N) (period : string) (db : Store.t) (form : Form.t) :
  Store.forms db !! formId = Some form ->
  let subs :=
    Analytics.find formId (Analytics.startDate now period) (Store.submissions db) in
  exists report : Analytics.Report.t,
    Analytics.formAnalytics now formId period db = Some report
    /\ Analytics.Report.totalSubmissions report = Form.submissions form
    /\ forall field : FormField.t,
        field ∈ Form.fields form ->
        exists (stat : Analytics.FieldStat.t) (rest : list (Js.value * Z)),
          stat ∈ Analytics.Report.fieldStats report
          /\ Analytics.FieldStat.fieldId stat = FormField.id field
          /\ Analytics.FieldStat.responseCount stat = entryCount (FormField.id field) subs
          /\ ((forall s : Submission.t,
                  s ∈ subs ->
                  (List.length (List.filter (forField (FormField.id field))
                                  (Submission.fields s)) <= 1)%nat
                  /\ forall entry : SubmissionField.t,
                       entry ∈ Submission.fields s ->
                       forField (FormField.id field) entry = true ->
                       isAbsent (SubmissionField.value entry) = false) ->
              Analytics.FieldStat.responseCount stat
              = respondents (FormField.id field) subs)
          /\ (0 < Form.submissions form ->
              Analytics.FieldStat.responseRate stat
              = (inject_Z (Analytics.FieldStat.responseCount stat)
                 / inject_Z (Form.submissions form) * inject_Z 100)%Q)
          /\ (Form.submissions form <= 0 ->
              Analytics.FieldStat.responseRate stat = 0%Q)
          /\ List.length (Analytics.FieldStat.topValues stat)
             = Nat.min 5 (List.length (Analytics.FieldStat.topValues stat ++ rest))
          /\ descending (Analytics.FieldStat.topValues stat ++ rest)
          /\ (forall (k : Js.value) (c : Z),
                 (k, c) ∈ Analytics.FieldStat.topValues stat ++ rest ->
                 c = if Js.sameValueZero k k
                     then occurrences k (countedKeys (FormField.id field) subs)
                     else 1)
          /\ (forall key : Js.value,
                 key ∈ countedKeys (FormField.id field) subs ->
                 Js.sameValueZero key key = true ->
                 exists (k : Js.value) (c : Z),
                   (k, c) ∈ Analytics.FieldStat.topValues stat ++ rest
                   /\ Js.sameValueZero k key = true).
Proof.
  intros Hform subs. unfold Analytics.formAnalytics. rewrite Hform.
  eexists. split; [reflexivity |]. split; [reflexivity |].
  cbn [Analytics.Report.fieldStats]. fold subs.
  intros field Hfield.
  destruct (collect_get form subs field Hfield) as (stats & Hget & Hcount & Hvalues).
  destruct (get_elem_of _ _ _ _ Hget) as (id & Hid & Hin).
  apply String.eqb_eq in Hid as ->.
  set (sorted := Analytics.sortDesc (Analytics.Stats.values stats)).
  exists (Analytics.fieldStat form (FormField.id field, stats)), (drop 5 sorted).
  destruct (fieldStat_of_entry form (FormField.id field) stats)
    as (-> & -> & -> & ->).
  fold sorted. rewrite take_drop.
  assert (forall k c, (k, c) ∈ sorted <-> (k, c) ∈ Analytics.Stats.values stats)
    as Hsorted.
  { intros k c. unfold sorted. by rewrite sortDesc_perm. }
  split; [| split; [| split; [| split; [| split; [| split; [| split; [| split; [| split]]]]]]]].
  - apply list_elem_of_In, in_map. by apply list_elem_of_In.
  - done.
  - done.
  - intros Hsubs. rewrite Hcount. by apply entryCount_respondents.
  - intros Hpos. unfold Analytics.rate.
    by destruct (Z.ltb_spec 0 (Form.submissions form)); [| lia].
  - intros Hnonpos. unfold Analytics.rate.
    by destruct (Z.ltb_spec 0 (Form.submissions form)); [lia |].
  - by rewrite length_take.
  - apply sortDesc_descending.
  - intros k c Hkc. apply Hsorted in Hkc. rewrite Hvalues in Hkc.
    by apply tally_counts.
  - intros key Hkey Hrefl.
    pose proof (occurrences_pos key _ Hkey Hrefl) as Hpos.
    pose proof (tally_get (countedKeys (FormField.id field) subs) [] key) as Htally.
    destruct (Z.eqb_spec (occurrences key (countedKeys (FormField.id field) subs)) 0)
      as [E | _]; [lia |].
    destruct (get_elem_of _ _ _ _ Htally) as (k & Hk & Hkin).
    exists k. eexists. split; [| exact Hk].
    apply Hsorted. rewrite Hvalues. exact Hkin.
Qed.

Lemma formAnalytics_field_statistics_witness :
  Store.forms doubleEntryStore !! formOid = Some (inc_submissions 1 contactForm)
  /\ exists report : Analytics.Report.t,
       Analytics.formAnalytics 2000 formOid "7d" doubleEntryStore = Some report
       /\ Analytics.Report.totalSubmissions report = 1.
Proof.
  assert (Store.forms doubleEntryStore !! formOid = Some (inc_submissions 1 contactForm))
    as Hform by (vm_compute; reflexivity).
  split; [exact Hform |].
  destruct (formAnalytics_field_statistics 2000 formOid "7d" doubleEntryStore
              (inc_submissions 1 contactForm) Hform)
    as (report & Hreport & Htotal & _).
  exists report. split; [exact Hreport | exact Htotal].
Defined.

(** C8, the claim as stated, fails: the period holds one submission,
    and it included a non-empty value for the email field, so the
    number of such submissions is 1; the report gives the field a
    [responseCount] of 2 (and a rate of 200 against a counter of 1). *)
Lemma responseCount_counterexample :
  let subs :=
    Analytics.find formOid (Analytics.startDate 2000 "7d")
      (Store.submissions doubleEntryStore) in
  fst (Submissions.post 1000 doubleEntryRequest contactStore)
  = Submissions.Created (newSubmission 1000 doubleEntryRequest formOid contactStore)
  /\ List.length subs = 1%nat
  /\ respondents "f2" subs = 1
  /\ (map (fun stat => (Analytics.FieldStat.fieldId stat,
                        Analytics.FieldStat.responseCount stat,
                        Analytics.FieldStat.responseRate stat))
        <$> (Analytics.Report.fieldStats
               <$> Analytics.formAnalytics 2000 formOid "7d" doubleEntryStore))
     = Some [("f1", 0, 0 # 1); ("f2", 2, 200 # 1)].
Proof. repeat split; vm_compute; reflexivity. Qed.

(** * Further properties *)

(** ** Regular expressions *)

Lemma string_app_cons (c : ascii) (s1 s2 : string) :
  String c s1 +:+ s2 = String c (s1 +:+ s2).
Proof. reflexivity. Qed.

Lemma string_app_nil_l (s : string) : "" +:+ s = s.
Proof. reflexivity. Qed.

Lemma string_app_nil_r (s : string) : s +:+ "" = s.
Proof.
  induction s as [| c s IH]; [done |]. by rewrite string_app_cons, IH.
Qed.

Lemma string_app_assoc (s1 s2 s3 : string) : (s1 +:+ s2) +:+ s3 = s1 +:+ (s2 +:+ s3).
Proof.
  induction s1 as [| c s1 IH]; [done |]. by rewrite !string_app_cons, IH.
Qed.

Lemma string_app_eq_nil (s1 s2 : string) : s1 +:+ s2 = "" -> s1 = "" /\ s2 = "".
Proof.
  destruct s1 as [| c s1]; [done |]. rewrite string_app_cons. discriminate.
Qed.

Lemma string_app_eq_cons (s1 s2 s : string) (c : ascii) :
  s1 +:+ s2 = String c s ->
  (s1 = "" /\ s2 = String c s) \/ (exists s1', s1 = String c s1' /\ s = s1' +:+ s2).
Proof.
  destruct s1 as [| c1 s1].
  - rewrite string_app_nil_l. intros ->. by left.
  - rewrite string_app_cons. intros [= -> <-]. right. by exists s1.
Qed.

Lemma lang_void_inv (s : string) : ~ matchesLang Regex.Void s.
Proof. inversion 1. Qed.

Lemma lang_eps_inv (s : string) : matchesLang Regex.Eps s -> s = "".
Proof. by inversion 1. Qed.

Lemma lang_class_inv (p : ascii -> bool) (s : string) :
  matchesLang (Regex.Class p) s -> exists c, s = String c "" /\ p c = true.
Proof. inversion 1; subst; eauto. Qed.

Lemma lang_cat_inv (r1 r2 : Regex.t) (s : string) :
  matchesLang (Regex.Cat r1 r2) s ->
  exists s1 s2, s = s1 +:+ s2 /\ matchesLang r1 s1 /\ matchesLang r2 s2.
Proof. inversion 1; subst; eauto. Qed.

Lemma lang_alt_inv (r1 r2 : Regex.t) (s : string) :
  matchesLang (Regex.Alt r1 r2) s -> matchesLang r1 s \/ matchesLang r2 s.
Proof. inversion 1; subst; eauto. Qed.

Lemma nullable_spec (r : Regex.t) : Regex.nullable r = true <-> matchesLang r "".
Proof.
  induction r as [| | p | r1 IH1 r2 IH2 | r1 IH1 r2 IH2 | r IH]; simpl.
  - split; [done | intros H; by apply lang_void_inv in H].
  - split; [constructor | done].
  - split; [done | intros (c & E & _)%lang_class_inv; discriminate].
  - rewrite andb_true_iff, IH1, IH2. split.
    + intros [H1 H2]. by apply (lang_cat r1 r2 "" "").
    + intros (s1 & s2 & E & H1 & H2)%lang_cat_inv.
      symmetry in E. apply string_app_eq_nil in E as [-> ->]. done.
  - rewrite orb_true_iff, IH1, IH2. split.
    + intros [H | H]; [by apply lang_alt_l | by apply lang_alt_r].
    + apply lang_alt_inv.
  - split; [constructor | done].
Qed.

Lemma star_cons_inv (r : Regex.t) (c : ascii) (s : string) :
  matchesLang (Regex.Star r) (String c s) ->
  exists s1 s2, s = s1 +:+ s2 /\ matchesLang r (String c s1)
                /\ matchesLang (Regex.Star r) s2.
Proof.
  intros H. remember (Regex.Star r) as r' eqn:Er. remember (String c s) as w eqn:Ew.
  revert Er Ew.
  induction H as [| | | | | | r0 s1 s2 H1 _ H2 IH2]; intros Er Ew; try done.
  injection Er as ->.
  apply string_app_eq_cons in Ew as [[-> ->] | (s1' & -> & ->)].
  - by apply IH2.
  - by exists s1', s2.
Qed.

Lemma deriv_spec (r : Regex.t) (c : ascii) (s : string) :
  matchesLang (Regex.deriv c r) s <-> matchesLang r (String c s).
Proof.
  revert s. induction r as [| | p | r1 IH1 r2 IH2 | r1 IH1 r2 IH2 | r IH];
    intros s; simpl.
  - split; intros H; by apply lang_void_inv in H.
  - split; intros H; [by apply lang_void_inv in H | by apply lang_eps_inv in H].
  - destruct (p c) eqn:Hp; split.
    + intros ->%lang_eps_inv. by constructor.
    + intros (c' & [= <- ->] & _)%lang_class_inv. constructor.
    + intros H. by apply lang_void_inv in H.
    + intros (c' & [= <- ->] & Hc)%lang_class_inv. congruence.
  - assert (matchesLang (Regex.Cat (Regex.deriv c r1) r2) s
            <-> exists s1 s2, s = s1 +:+ s2 /\ matchesLang r1 (String c s1)
                              /\ matchesLang r2 s2) as Hcat.
    { split.
      - intros (s1 & s2 & -> & H1 & H2)%lang_cat_inv.
        exists s1, s2. by rewrite <- IH1.
      - intros (s1 & s2 & -> & H1 & H2). constructor; [by apply IH1 | done]. }
    assert (matchesLang (Regex.Cat r1 r2) (String c s)
            <-> (exists s1 s2, s = s1 +:+ s2 /\ matchesLang r1 (String c s1)
                               /\ matchesLang r2 s2)
                \/ (matchesLang r1 "" /\ matchesLang r2 (String c s))) as Hsplit.
    { split.
      - intros (s1 & s2 & E & H1 & H2)%lang_cat_inv. symmetry in E.
        apply string_app_eq_cons in E as [[-> ->] | (s1' & -> & ->)]; [by right |].
        left. by exists s1', s2.
      - intros [(s1 & s2 & -> & H1 & H2) | [H1 H2]].
        + by apply (lang_cat r1 r2 (String c s1) s2).
        + by apply (lang_cat r1 r2 "" (String c s)). }
    rewrite Hsplit, <- Hcat, <- nullable_spec, <- IH2.
    destruct (Regex.nullable r1) eqn:Hnull.
    + split.
      * intros [H | H]%lang_alt_inv; auto.
      * intros [H | [_ H]]; [by apply lang_alt_l | by apply lang_alt_r].
    + split; [auto | intros [H | [H _]]; done].
  - split.
    + intros [H | H]%lang_alt_inv; [apply lang_alt_l | apply lang_alt_r];
        by (apply IH1 || apply IH2).
    + intros [H | H]%lang_alt_inv; [apply lang_alt_l | apply lang_alt_r];
        by (apply IH1 || apply IH2).
  - split.
    + intros (s1 & s2 & -> & H1 & H2)%lang_cat_inv.
      apply (lang_star_cons r (String c s1) s2); [by apply IH | done].
    + intros H. apply star_cons_inv in H as (s1 & s2 & -> & H1 & H2).
      constructor; [by apply IH | done].
Qed.

Lemma matches_spec (r : Regex.t) (s : string) :
  Regex.matches r s = true <-> matchesLang r s.
Proof.
  revert r. induction s as [| c s IH]; intros r; simpl.
  - apply nullable_spec.
  - rewrite IH. apply deriv_spec.
Qed.

Lemma lang_star_class (p : ascii -> bool) (s : string) :
  matchesLang (Regex.Star (Regex.Class p)) s <-> allChars p s = true.
Proof.
  split.
  - intros H. remember (Regex.Star (Regex.Class p)) as r eqn:Er.
    induction H as [| | | | | | r0 s1 s2 H1 _ H2 IH2]; try done.
    injection Er as ->. apply lang_class_inv in H1 as (c & -> & Hc).
    rewrite string_app_cons, string_app_nil_l. simpl. by rewrite Hc, IH2.
  - induction s as [| c s IH]; simpl; [constructor |].
    intros [Hc Hs]%andb_true_iff.
    apply (lang_star_cons _ (String c "") s); [by constructor | by apply IH].
Qed.

Lemma lang_plus_class (p : ascii -> bool) (s : string) :
  matchesLang (Regex.Plus (Regex.Class p)) s <-> s <> "" /\ allChars p s = true.
Proof.
  unfold Regex.Plus. split.
  - intros (s1 & s2 & -> & (c & -> & Hc)%lang_class_inv & H2%lang_star_class)%lang_cat_inv.
    rewrite string_app_cons, string_app_nil_l. simpl. by rewrite Hc, H2.
  - destruct s as [| c s]; [by intros [? _] |]. simpl.
    intros [_ [Hc Hs]%andb_true_iff].
    apply (lang_cat _ _ (String c "") s); [by constructor | by apply lang_star_class].
Qed.

Lemma lang_char (a : ascii) (s : string) :
  matchesLang (Regex.Class (Regex.is_char a)) s <-> s = String a "".
Proof.
  split.
  - intros (c & -> & Hc)%lang_class_inv. unfold Regex.is_char in Hc.
    by apply Ascii.eqb_eq in Hc as ->.
  - intros ->. constructor. apply Ascii.eqb_refl.
Qed.

(** The strings [emailRegex] accepts: a local part, [@], and a domain
    that has a dot with something on both sides, none of the parts
    holding white space or a second [@]. *)
Lemma emailRegex_lang (s : string) :
  Regex.matches PublicForm.emailRegex s = true
  <-> exists localPart domain tld : string,
        s = localPart +:+ "@" +:+ domain +:+ "." +:+ tld
        /\ emailPart localPart /\ emailPart domain /\ emailPart tld.
Proof.
  rewrite matches_spec. unfold PublicForm.emailRegex, emailPart. split.
  - intros (a & s1 & -> & Ha%lang_plus_class
            & (at_ & s2 & -> & ->%lang_char
               & (b & s3 & -> & Hb%lang_plus_class
                  & (dot & c & -> & ->%lang_char & Hc%lang_plus_class)%lang_cat_inv
                 )%lang_cat_inv)%lang_cat_inv)%lang_cat_inv.
    by exists a, b, c.
  - intros (a & b & c & -> & Ha & Hb & Hc).
    apply lang_cat; [by apply lang_plus_class |].
    apply (lang_cat _ _ "@"); [by apply lang_char |].
    apply lang_cat; [by apply lang_plus_class |].
    apply (lang_cat _ _ "."); [by apply lang_char |].
    by apply lang_plus_class.
Qed.

Lemma message_nonempty (label : string) (c : ascii) (rest : string) :
  label +:+ String c rest <> "".
Proof. intros [_ H]%string_app_eq_nil. discriminate. Qed.

(** X1.  On an email field, a non-empty string is accepted exactly when
    it has the form local@domain.tld, where the three parts are
    non-empty and hold neither white space nor [@] (the domain and the
    last part may hold further dots); any other non-empty string gets
    "{label} must be a valid email". *)
Theorem validateField_email_shape (field : FormField.t) (s : string) :
  FormField.type field = email ->
  s <> "" ->
  (PublicForm.validateField field (Js.VStr s) = ""
   <-> exists localPart domain tld : string,
         s = localPart +:+ "@" +:+ domain +:+ "." +:+ tld
         /\ emailPart localPart /\ emailPart domain /\ emailPart tld)
  /\ (PublicForm.validateField field (Js.VStr s) = ""
      \/ PublicForm.validateField field (Js.VStr s)
         = FormField.label field +:+ " must be a valid email")
  /\ FormPreview.validateField field (Js.VStr s)
     = PublicForm.validateField field (Js.VStr s).
Proof.
  intros Hty Hs. rewrite <- emailRegex_lang.
  assert (String.eqb s "" = false) as Hne by (by apply String.eqb_neq).
  split; [| split; [| apply validateField_copies]].
  all: unfold PublicForm.validateField, PublicForm.typeRule; simpl.
  all: rewrite Hty, Hne; simpl; rewrite andb_false_r; simpl.
  all: destruct (Regex.matches PublicForm.emailRegex s); simpl.
  - done.
  - split; [| done]. intros H. by apply message_nonempty in H.
  - by left.
  - by right.
Qed.

Lemma validateField_email_shape_witness :
  FormField.type emailField = email
  /\ "ada@example.org" <> ""
  /\ PublicForm.validateField emailField (Js.VStr "ada@example.org") = "".
Proof.
  split; [reflexivity |]. split; [discriminate |].
  apply (proj1 (validateField_email_shape emailField "ada@example.org"
                  eq_refl ltac:(discriminate))).
  exists "ada", "example", "org". repeat split; discriminate.
Defined.

(** ** What acceptance by [validateField] guarantees *)

Lemma includes_spec (opts : list string) (v : Js.value) :
  Js.includes opts v = true <-> exists s : string, v = Js.VStr s /\ s ∈ opts.
Proof.
  destruct v; simpl; try (split; [done | intros (s' & E & _); discriminate]).
  rewrite existsb_exists. split.
  - intros (x & Hin & ->%String.eqb_eq). exists x. split; [done | by apply list_elem_of_In].
  - intros (s' & [= <-] & Hin). exists s. split; [by apply list_elem_of_In |].
    apply String.eqb_refl.
Qed.

Lemma truthy_not_empty_string (v : Js.value) :
  Js.truthy v = true -> Js.is_empty_string v = false.
Proof. destruct v; simpl; try done. by destruct (String.eqb s ""). Qed.

Lemma validateField_truthy (field : FormField.t) (v : Js.value) :
  Js.truthy v = true ->
  PublicForm.validateField field v = default "" (PublicForm.typeRule field v).
Proof.
  intros Ht. unfold PublicForm.validateField.
  rewrite Ht, (truthy_not_empty_string v Ht). simpl. by rewrite andb_false_r.
Qed.

Lemma validateField_falsy (field : FormField.t) (v : Js.value) :
  Js.truthy v = false ->
  PublicForm.validateField field v
  = if FormField.required field then FormField.label field +:+ " is required" else "".
Proof.
  intros Hf. unfold PublicForm.validateField. rewrite Hf. simpl.
  by destruct (FormField.required field).
Qed.

(** X2.  For a field with options, a present (truthy) value is accepted
    by a select or radio field exactly when it is a string that is one
    of the options, and an array is accepted by a checkbox field
    exactly when every element is such a string; every other present
    value gets "{label} has an invalid option selected". *)
Theorem validateField_options_membership
    (field : FormField.t) (opts : list string) (v : Js.value) :
  FormField.options field = Some opts ->
  Js.truthy v = true ->
  (FormField.type field = select \/ FormField.type field = radio ->
   (PublicForm.validateField field v = ""
    <-> exists s : string, v = Js.VStr s /\ s ∈ opts)
   /\ (PublicForm.validateField field v = ""
       \/ PublicForm.validateField field v
          = FormField.label field +:+ " has an invalid option selected"))
  /\ (FormField.type field = checkbox ->
      forall vals : list Js.value,
        v = Js.VArr vals ->
        (PublicForm.validateField field v = ""
         <-> forall x : Js.value, x ∈ vals -> exists s : string, x = Js.VStr s /\ s ∈ opts)
        /\ (PublicForm.validateField field v = ""
            \/ PublicForm.validateField field v
               = FormField.label field +:+ " has an invalid option selected")).
Proof.
  intros Hopts Ht. rewrite (validateField_truthy field v Ht).
  unfold PublicForm.typeRule. rewrite Hopts. split.
  - intros Hty. rewrite <- includes_spec.
    destruct Hty as [-> | ->]; destruct (Js.includes opts v); simpl.
    + split; [done | by left].
    + split; [| by right]. split; [| done]. intros H. by apply message_nonempty in H.
    + split; [done | by left].
    + split; [| by right]. split; [| done]. intros H. by apply message_nonempty in H.
  - intros -> vals ->.
    assert (forallb (Js.includes opts) vals = true
            <-> forall x, x ∈ vals -> exists s, x = Js.VStr s /\ s ∈ opts) as Hall.
    { rewrite forallb_forall. split.
      - intros H x Hx. apply includes_spec, H. by apply list_elem_of_In.
      - intros H x Hx. apply includes_spec, H. by apply list_elem_of_In. }
    rewrite <- Hall. destruct (forallb (Js.includes opts) vals); simpl.
    + split; [done | by left].
    + split; [| by right]. split; [| done]. intros H. by apply message_nonempty in H.
Qed.

Lemma validateField_options_membership_witness :
  FormField.options colorsField = Some ["Red"; "Blue"]
  /\ Js.truthy (Js.VArr [Js.VStr "Blue"; Js.VStr "Red"]) = true
  /\ PublicForm.validateField colorsField (Js.VArr [Js.VStr "Blue"; Js.VStr "Red"]) = "".
Proof.
  split; [reflexivity |]. split; [reflexivity |].
  apply (proj1 (proj2 (validateField_options_membership colorsField ["Red"; "Blue"]
                         (Js.VArr [Js.VStr "Blue"; Js.VStr "Red"]) eq_refl eq_refl)
                  eq_refl [Js.VStr "Blue"; Js.VStr "Red"] eq_refl)).
  intros x Hx. apply elem_of_cons in Hx as [-> | Hx].
  - exists "Blue". split; [done |]. apply list_elem_of_further, list_elem_of_here.
  - apply list_elem_of_singleton in Hx as ->. exists "Red". split; [done |].
    apply list_elem_of_here.
Defined.

Lemma bound_spec (sel : Validation.t -> option Z) (field : FormField.t) (n : Z) :
  PublicForm.bound sel field = Some n
  <-> exists validation : Validation.t,
        FormField.validation field = Some validation
        /\ sel validation = Some n /\ n <> 0.
Proof.
  unfold PublicForm.bound. destruct (FormField.validation field) as [vd |].
  - destruct (sel vd) as [k |] eqn:Hsel.
    + destruct (Z.eqb_spec k 0) as [-> | Hne]; split.
      * done.
      * intros (vd' & [= <-] & Hk & Hn). congruence.
      * intros [= ->]. by exists vd.
      * intros (vd' & [= <-] & Hk & Hn). congruence.
    + split; [done | intros (vd' & [= <-] & Hk & _); congruence].
  - split; [done | intros (vd' & E & _); discriminate].
Qed.

(** X3.  On a text or textarea field, a non-empty string is accepted
    exactly when its length is at least every non-zero [minLength] and
    at most every non-zero [maxLength] of the field (a bound of 0 is no
    bound, and a string of exactly [maxLength] characters passes); a
    string that is too short gets "{label} must be at least {minLength}
    characters", also when it breaks the upper bound as well. *)
Theorem validateField_length_bounds (field : FormField.t) (s : string) :
  FormField.type field = text \/ FormField.type field = textarea ->
  s <> "" ->
  (PublicForm.validateField field (Js.VStr s) = ""
   <-> (forall n : Z, PublicForm.bound Validation.minLength field = Some n ->
                      n <= Z.of_nat (String.length s))
       /\ (forall m : Z, PublicForm.bound Validation.maxLength field = Some m ->
                         Z.of_nat (String.length s) <= m))
  /\ (forall (validation : Validation.t) (n : Z),
         FormField.validation field = Some validation ->
         Validation.minLength validation = Some n -> n <> 0 ->
         Z.of_nat (String.length s) < n ->
         PublicForm.validateField field (Js.VStr s)
         = FormField.label field +:+ " must be at least " +:+ pretty n +:+ " characters")
  /\ (forall (validation : Validation.t) (m : Z),
         FormField.validation field = Some validation ->
         Validation.maxLength validation = Some m -> m <> 0 ->
         Z.of_nat (String.length s) <= m ->
         PublicForm.bound Validation.minLength field = None ->
         PublicForm.validateField field (Js.VStr s) = "").
Proof.
  intros Hty Hs.
  assert (Js.truthy (Js.VStr s) = true) as Ht.
  { simpl. by rewrite (proj2 (String.eqb_neq s "") Hs). }
  rewrite (validateField_truthy field _ Ht).
  assert (PublicForm.typeRule field (Js.VStr s)
          = let tooShort :=
              match PublicForm.bound Validation.minLength field with
              | Some n => (Z.of_nat (String.length s) <? n)%Z
              | None => false
              end in
            let tooLong :=
              match PublicForm.bound Validation.maxLength field with
              | Some m => (m <? Z.of_nat (String.length s))%Z
              | None => false
              end in
            if tooShort
            then Some (FormField.label field +:+ " must be at least "
                       +:+ pretty (default 0 (PublicForm.bound Validation.minLength field))
                       +:+ " characters")
            else if tooLong
            then Some (FormField.label field +:+ " must be less than "
                       +:+ pretty (default 0 (PublicForm.bound Validation.maxLength field))
                       +:+ " characters")
            else None) as ->.
  { unfold PublicForm.typeRule. by destruct Hty as [-> | ->]. }
  simpl. split; [| split].
  - destruct (PublicForm.bound Validation.minLength field) as [n |];
      destruct (PublicForm.bound Validation.maxLength field) as [m |]; simpl.
    + destruct (Z.ltb_spec (Z.of_nat (String.length s)) n) as [Hlt | Hge]; simpl.
      * split; [intros Hmsg; by apply message_nonempty in Hmsg |].
        intros [Hmin _]. specialize (Hmin n eq_refl). lia.
      * destruct (Z.ltb_spec m (Z.of_nat (String.length s))) as [Hgt | Hle]; simpl.
        -- split; [intros Hmsg; by apply message_nonempty in Hmsg |].
           intros [_ Hmax]. specialize (Hmax m eq_refl). lia.
        -- split; [| done]. intros _. split; intros k [= <-]; lia.
    + destruct (Z.ltb_spec (Z.of_nat (String.length s)) n) as [Hlt | Hge]; simpl.
      * split; [intros Hmsg; by apply message_nonempty in Hmsg |].
        intros [Hmin _]. specialize (Hmin n eq_refl). lia.
      * split; [| done]. intros _. split; intros k E; [injection E as <-; lia | done].
    + destruct (Z.ltb_spec m (Z.of_nat (String.length s))) as [Hgt | Hle]; simpl.
      * split; [intros Hmsg; by apply message_nonempty in Hmsg |].
        intros [_ Hmax]. specialize (Hmax m eq_refl). lia.
      * split; [| done]. intros _. split; intros k E; [done | injection E as <-; lia].
    + split; [| done]. intros _. split; intros k E; done.
  - intros vd n Hvd Hmin Hn Hlt.
    assert (PublicForm.bound Validation.minLength field = Some n) as ->
        by (apply bound_spec; by exists vd).
    simpl. by destruct (Z.ltb_spec (Z.of_nat (String.length s)) n) as [_ | Hge]; [| lia].
  - intros vd m Hvd Hmax Hm Hle ->.
    assert (PublicForm.bound Validation.maxLength field = Some m) as ->
        by (apply bound_spec; by exists vd).
    simpl. by destruct (Z.ltb_spec m (Z.of_nat (String.length s))) as [Hgt | _]; [lia |].
Qed.

Lemma validateField_length_bounds_witness :
  (FormField.type bioField = text \/ FormField.type bioField = textarea)
  /\ "abcde" <> ""
  /\ PublicForm.validateField bioField (Js.VStr "abcde") = ""
  /\ PublicForm.validateField bioField (Js.VStr "ab")
     = "Bio must be at least 3 characters".
Proof.
  assert (FormField.type bioField = text \/ FormField.type bioField = textarea)
    as Hty by (by right).
  assert ("abcde" <> "") as Hs by discriminate.
  split; [exact Hty |]. split; [exact Hs |]. split.
  - apply (proj1 (validateField_length_bounds bioField "abcde" Hty Hs)).
    split; intros k [= <-]; simpl; lia.
  - assert ("ab" <> "") as Hs' by discriminate.
    apply (proj1 (proj2 (validateField_length_bounds bioField "ab" Hty Hs'))
             _ 3 eq_refl eq_refl); simpl; lia.
Defined.

(** ** The public form page *)





Lemma getFieldsForStep_multi (form : Form.t) (i : nat) :
  PublicForm.isMultiStep form = true ->
  let size := ceil_div (List.length (Form.fields form))
                (List.length (PublicForm.steps form)) in
  (0 < List.length (PublicForm.steps form))%nat
  /\ PublicForm.getFieldsForStep form i
     = slice (i * size) (i * size + size) (Form.fields form).
Proof.
  intros Hmulti. unfold PublicForm.getFieldsForStep. rewrite Hmulti. simpl.
  split; [| done]. unfold PublicForm.isMultiStep in Hmulti.
  apply andb_true_iff in Hmulti as [_ H]. by apply Nat.ltb_lt in H.
Qed.







Lemma answerOf_set_same (data : list (string * Js.value)) (value : Js.value)
    (field : FormField.t) :
  answerOf (JsObject.set data (FormField.id field) value) field = value.
Proof.
  unfold answerOf, JsObject.get, JsObject.set.
  rewrite (get_set _ string_eqb_sym string_eqb_trans). by rewrite String.eqb_refl.
Qed.



Lemma insertIndex_perm {V : Type} (x : string * V) (l : list (string * V)) :
  JsObject.insertIndex x l ≡ₚ x :: l.
Proof.
  induction l as [| y l IH]; simpl; [done |].
  destruct (JsObject.indexOf x <? JsObject.indexOf y)%N; [done |].
  rewrite IH. apply perm_swap.
Qed.

Lemma filter_split_perm {A : Type} (p : A -> bool) (l : list A) :
  List.filter p l ++ List.filter (fun x => negb (p x)) l ≡ₚ l.
Proof.
  induction l as [| x l IH]; simpl; [done |].
  destruct (p x); simpl.
  - by rewrite IH.
  - rewrite <- Permutation_middle. by rewrite IH.
Qed.

(** [Object.entries] lists every property once. *)
Lemma entries_perm {V : Type} (o : list (string * V)) : JsObject.entries o ≡ₚ o.
Proof.
  unfold JsObject.entries.
  assert (forall l : list (string * V), foldr JsObject.insertIndex [] l ≡ₚ l) as Hsort.
  { induction l as [| x l IH]; simpl; [done |]. by rewrite insertIndex_perm, IH. }
  rewrite Hsort. apply filter_split_perm.
Qed.

Lemma distinctKeys_NoDup {V : Type} (m : list (string * V)) :
  JsMap.distinctKeys String.eqb m -> NoDup (map fst m).
Proof.
  induction 1 as [| k v m Hfresh _ IH]; simpl; constructor; [| done].
  intros Hin. apply list_elem_of_In, in_map_iff in Hin as ([k' v'] & E & Hin).
  simpl in E. subst k'. apply list_elem_of_In in Hin.
  specialize (Hfresh k v' Hin). by rewrite String.eqb_refl in Hfresh.
Qed.

Lemma slice_subseteq {A : Type} (startIndex endIndex : nat) (l : list A) (x : A) :
  x ∈ slice startIndex endIndex l -> x ∈ l.
Proof.
  unfold slice. intros [j Hj]%list_elem_of_lookup.
  apply lookup_take_Some in Hj as [Hj _]. rewrite lookup_drop in Hj.
  by eapply list_elem_of_lookup_2.
Qed.

Lemma getFieldsForStep_subseteq (form : Form.t) (i : nat) (f : FormField.t) :
  f ∈ PublicForm.getFieldsForStep form i -> f ∈ Form.fields form.
Proof.
  unfold PublicForm.getFieldsForStep.
  destruct (negb (PublicForm.isMultiStep form)); [done | apply slice_subseteq].
Qed.

Lemma perform_keyed (formId : string) (form : Form.t)
    (st : PublicFormPage.state) (a : PublicFormPage.action) :
  formDataKeyed form (PublicFormPage.formData st) ->
  PublicFormPage.enabled form st a = true ->
  formDataKeyed form (PublicFormPage.formData (PublicFormPage.perform formId form a st)).
Proof.
  intros [Hdist Hkeys] Hen. destruct a as [fieldId value | | | |]; simpl.
  - split.
    + by apply (set_distinct _ string_eqb_trans).
    + intros k v Hin. simpl in Hen. apply andb_true_iff in Hen as [_ Hen].
      apply existsb_exists in Hen as (g & Hg & Eg%String.eqb_eq).
      apply (set_elem_of String.eqb) in Hin as [Hin | [_ [->%String.eqb_eq | ->]]];
        [by eapply Hkeys | |];
        exists g; (split; [| done]);
        eapply getFieldsForStep_subseteq, list_elem_of_In, Hg.
  - unfold PublicFormPage.handleNext, PublicFormPage.validateStep.
    by destruct (PublicForm.validateStep _ _ _).
  - done.
  - unfold PublicFormPage.handleSubmit, PublicFormPage.validateStep.
    by destruct (PublicForm.validateStep _ _ _).
  - done.
Qed.

Lemma reachable_keyed (formId : string) (form : Form.t) (st : PublicFormPage.state) :
  PublicFormPage.reachable formId form st ->
  formDataKeyed form (PublicFormPage.formData st).
Proof.
  induction 1 as [| st a _ IH Hen].
  - split; [constructor |]. intros k v Hin. by apply elem_of_nil in Hin.
  - by apply perform_keyed.
Qed.

Lemma perform_range (formId : string) (form : Form.t)
    (st : PublicFormPage.state) (a : PublicFormPage.action) :
  (if PublicForm.isMultiStep form
   then (PublicFormPage.currentStep st < List.length (PublicForm.steps form))%nat
   else PublicFormPage.currentStep st = 0%nat) ->
  PublicFormPage.enabled form st a = true ->
  let st' := PublicFormPage.perform formId form a st in
  if PublicForm.isMultiStep form
  then (PublicFormPage.currentStep st' < List.length (PublicForm.steps form))%nat
  else PublicFormPage.currentStep st' = 0%nat.
Proof.
  intros Hinv Hen. destruct a as [fieldId value | | | |]; simpl.
  - done.
  - simpl in Hen. apply andb_true_iff in Hen as [_ Hen].
    unfold PublicFormPage.showsNext in Hen.
    unfold PublicFormPage.handleNext, PublicFormPage.validateStep.
    destruct (PublicForm.isMultiStep form); [| done]. simpl in Hen.
    apply Nat.ltb_lt in Hen.
    destruct (PublicForm.validateStep _ _ _); simpl; lia.
  - destruct (PublicForm.isMultiStep form); simpl; lia.
  - unfold PublicFormPage.handleSubmit, PublicFormPage.validateStep.
    by destruct (PublicForm.validateStep _ _ _).
  - done.
Qed.

Lemma handleSubmit_sent (formId : string) (form : Form.t) (st st' : PublicFormPage.state)
    (body : string * list SubmissionField.t) :
  PublicFormPage.handleSubmit formId form st = (Some body, st') ->
  fst (PublicFormPage.validateStep form st) = true
  /\ body = (formId, PublicFormPage.submissionFields form st).
Proof.
  unfold PublicFormPage.handleSubmit, PublicFormPage.validateStep. simpl.
  destruct (PublicForm.validateStep _ _ _); [| done].
  intros [= <- _]. done.
Qed.

Lemma fieldTypeOf_field (form : Form.t) (k : string) :
  (exists f, f ∈ Form.fields form /\ FormField.id f = k) ->
  exists f, f ∈ Form.fields form /\ FormField.id f = k
            /\ PublicFormPage.fieldTypeOf form k = typeName (FormField.type f).
Proof.
  intros (g & Hg & Eg). unfold PublicFormPage.fieldTypeOf.
  destruct (List.find _ _) as [f |] eqn:Hfind.
  - apply find_some in Hfind as [Hf Ef%String.eqb_eq].
    exists f. by rewrite list_elem_of_In.
  - apply list_elem_of_In in Hg. pose proof (find_none _ _ Hfind g Hg) as Hne.
    simpl in Hne. rewrite Eg, String.eqb_refl in Hne. done.
Qed.

Lemma reachable_run_from (formId : string) (form : Form.t) (st : PublicFormPage.state)
    (actions : list PublicFormPage.action) :
  PublicFormPage.reachable formId form st ->
  offered formId form st actions = true ->
  PublicFormPage.reachable formId form
    (foldl (fun st a => PublicFormPage.perform formId form a st) st actions).
Proof.
  revert st. induction actions as [| a rest IH]; intros st Hst Hoff; simpl in *; [done |].
  apply andb_true_iff in Hoff as [Ha Hrest].
  apply IH; [by constructor | done].
Qed.

Lemma reachable_run (formId : string) (form : Form.t)
    (actions : list PublicFormPage.action) :
  offered formId form PublicFormPage.initial actions = true ->
  PublicFormPage.reachable formId form (runPage formId form actions).
Proof. apply reachable_run_from. constructor. Qed.




(** X5.  The step shown by the page always exists: on a multi-step form
    [currentStep] stays below the number of steps, and on a single-step
    form it stays 0, whatever the visitor types and clicks. *)
Theorem page_step_in_range (formId : string) (form : Form.t) (st : PublicFormPage.state) :
  PublicFormPage.reachable formId form st ->
  if PublicForm.isMultiStep form
  then (PublicFormPage.currentStep st < List.length (PublicForm.steps form))%nat
  else PublicFormPage.currentStep st = 0%nat.
Proof.
  induction 1 as [| st a _ IH Hen].
  - destruct (PublicForm.isMultiStep form) eqn:Hmulti; [| done].
    by destruct (getFieldsForStep_multi form 0 Hmulti).
  - by apply perform_range.
Qed.

Lemma page_step_in_range_witness :
  PublicFormPage.reachable formIdString tourForm
    (runPage formIdString tourForm tourToSecondStep)
  /\ PublicFormPage.currentStep (runPage formIdString tourForm tourToSecondStep) = 1%nat
  /\ (PublicFormPage.currentStep (runPage formIdString tourForm tourToSecondStep)
      < List.length (PublicForm.steps tourForm))%nat.
Proof.
  assert (PublicFormPage.reachable formIdString tourForm
            (runPage formIdString tourForm tourToSecondStep)) as Hreach.
  { apply reachable_run. vm_compute. reflexivity. }
  split; [exact Hreach |]. split; [vm_compute; reflexivity |].
  exact (page_step_in_range formIdString tourForm _ Hreach).
Defined.



Lemma page_keys_and_entries
    (formId : string) (form : Form.t) (st st' : PublicFormPage.state)
    (body : string * list SubmissionField.t) :
  PublicFormPage.reachable formId form st ->
  PublicFormPage.handleSubmit formId form st = (Some body, st') ->
  fst body = formId
  /\ List.length (snd body) = List.length (PublicFormPage.formData st)
  /\ forall entry, entry ∈ snd body ->
       exists field v, field ∈ Form.fields form
         /\ (FormField.id field, v) ∈ PublicFormPage.formData st
         /\ SubmissionField.fieldId entry = Some (FormField.id field)
         /\ SubmissionField.fieldType entry = Some (typeName (FormField.type field))
         /\ SubmissionField.value entry = v.
Proof.
  intros Hreach Hsub. apply handleSubmit_sent in Hsub as [_ ->]. simpl.
  destruct (reachable_keyed formId form st Hreach) as [Hdist Hkeys].
  unfold PublicFormPage.submissionFields.
  pose proof (entries_perm (PublicFormPage.formData st)) as Hperm.
  split; [done |]. split.
  - by rewrite length_map, Hperm.
  - intros entry Hentry. apply list_elem_of_In, in_map_iff in Hentry as ([k v] & <- & Hin).
    apply list_elem_of_In in Hin. rewrite Hperm in Hin.
    destruct (fieldTypeOf_field form k (Hkeys k v Hin)) as (f & Hf & Ef & Et).
    exists f, v. simpl. rewrite Et, Ef. done.
Qed.

(** X7.  The body that the page sends carries the route's form id and
    one entry per property of [formData]: no field id occurs twice, and
    every entry names a field of the form, with that id's type as
    [fieldType] and the value held for it as [value]. *)
Theorem page_body_names_each_field_once
    (formId : string) (form : Form.t) (st st' : PublicFormPage.state)
    (body : string * list SubmissionField.t) :
  PublicFormPage.reachable formId form st ->
  PublicFormPage.handleSubmit formId form st = (Some body, st') ->
  fst body = formId
  /\ List.length (snd body) = List.length (PublicFormPage.formData st)
  /\ NoDup (map SubmissionField.fieldId (snd body))
  /\ forall entry, entry ∈ snd body ->
       exists field, field ∈ Form.fields form
         /\ SubmissionField.fieldId entry = Some (FormField.id field)
         /\ SubmissionField.fieldType entry = Some (typeName (FormField.type field))
         /\ SubmissionField.value entry = answerOf (PublicFormPage.formData st) field.
Proof.
  intros Hreach Hsub. apply handleSubmit_sent in Hsub as [_ ->]. simpl.
  destruct (reachable_keyed formId form st Hreach) as [Hdist Hkeys].
  unfold PublicFormPage.submissionFields.
  pose proof (entries_perm (PublicFormPage.formData st)) as Hperm.
  split; [done |]. split; [| split].
  - by rewrite length_map, Hperm.
  - rewrite map_map.
    rewrite (map_ext _ (fun entry => Some (fst entry))) by (by intros [k v]).
    rewrite <- (map_map fst Some). apply (NoDup_fmap_2 Some).
    rewrite Hperm. by apply distinctKeys_NoDup.
  - intros entry Hentry. apply list_elem_of_In, in_map_iff in Hentry as ([k v] & <- & Hin).
    apply list_elem_of_In in Hin. rewrite Hperm in Hin.
    destruct (fieldTypeOf_field form k (Hkeys k v Hin)) as (f & Hf & Ef & Et).
    exists f. simpl. rewrite Et, Ef. repeat split; try done.
    unfold answerOf, JsObject.get. rewrite Ef.
    rewrite (elem_of_get String.eqb _ k v Hdist Hin (String.eqb_refl k)). done.
Qed.

Lemma page_body_names_each_field_once_witness :
  let st := runPage formIdString tourForm tourToSecondStep in
  PublicFormPage.reachable formIdString tourForm st
  /\ (exists body st',
        PublicFormPage.handleSubmit formIdString tourForm st = (Some body, st')
        /\ List.length (snd body) = 2%nat
        /\ NoDup (map SubmissionField.fieldId (snd body))).
Proof.
  intros st.
  assert (PublicFormPage.reachable formIdString tourForm st) as Hreach.
  { apply reachable_run. vm_compute. reflexivity. }
  assert (PublicFormPage.handleSubmit formIdString tourForm st
          = (Some (formIdString, PublicFormPage.submissionFields tourForm st),
             snd (PublicFormPage.handleSubmit formIdString tourForm st))) as Hsub.
  { vm_compute. reflexivity. }
  split; [exact Hreach |]. eexists _, _. split; [exact Hsub |].
  destruct (page_body_names_each_field_once formIdString tourForm st _ _ Hreach Hsub)
    as (_ & Hlen & Hnodup & _).
  split; [exact Hlen | exact Hnodup].
Defined.

Lemma jsonProperty_blankValue (v : Js.value) : blankValue v -> blankValue (jsonProperty v).
Proof. by intros [-> | [-> | ->]]; unfold blankValue; simpl; auto. Qed.

(** X8.  An answer that the page holds as the empty string (a field the
    visitor typed into and cleared), as [null] or as [undefined] is sent
    with the rest, and the server then answers 400 "Validation failed"
    and stores nothing, whichever forms exist: the page accepts a blank
    optional answer that the request gate refuses. *)
Theorem page_blank_answer_is_refused
    (formId : string) (form : Form.t) (st st' : PublicFormPage.state)
    (body : string * list SubmissionField.t) (key : string) (v : Js.value)
    (now : Z) (ip userAgent : option string) (db : Store.t) :
  PublicFormPage.handleSubmit formId form st = (Some body, st') ->
  (key, v) ∈ PublicFormPage.formData st ->
  blankValue v ->
  Submissions.post now (asRequest ip userAgent body) db
  = (Submissions.Failure 400 "Validation failed"
       (Some (Submissions.validateSubmission (asRequest ip userAgent body))), db).
Proof.
  intros Hsub Hin Hempty. apply handleSubmit_sent in Hsub as [_ ->].
  apply post_rejected.
  apply (gate_fails_on_blank _
           {| SubmissionField.fieldId := Some key;
              SubmissionField.value := jsonProperty v;
              SubmissionField.fieldType := Some (PublicFormPage.fieldTypeOf form key) |}).
  - simpl. unfold PublicFormPage.submissionFields.
    apply list_elem_of_In, in_map_iff.
    exists {| SubmissionField.fieldId := Some key;
              SubmissionField.value := v;
              SubmissionField.fieldType := Some (PublicFormPage.fieldTypeOf form key) |}.
    split; [done |]. apply in_map_iff. exists (key, v). split; [done |].
    apply list_elem_of_In. by rewrite entries_perm.
  - left. simpl. by apply jsonProperty_blankValue.
Qed.

Lemma page_blank_answer_is_refused_witness :
  let st := runPage formIdString tourForm tourClearedEmail in
  PublicFormPage.reachable formIdString tourForm st
  /\ PublicFormPage.enabled tourForm st PublicFormPage.Submit = true
  /\ exists body st',
       PublicFormPage.handleSubmit formIdString tourForm st = (Some body, st')
       /\ exists details,
            Submissions.post 1000 (asRequest None None body) tourStore
            = (Submissions.Failure 400 "Validation failed" details, tourStore).
Proof.
  intros st. split; [apply reachable_run; vm_compute; reflexivity |].
  split; [vm_compute; reflexivity |].
  assert (PublicFormPage.handleSubmit formIdString tourForm st
          = (Some (formIdString, PublicFormPage.submissionFields tourForm st),
             snd (PublicFormPage.handleSubmit formIdString tourForm st))) as Hsub.
  { vm_compute. reflexivity. }
  eexists _, _. split; [exact Hsub |]. eexists.
  apply (page_blank_answer_is_refused formIdString tourForm st _ _ "f2" (Js.VStr "")
           1000 None None tourStore Hsub).
  - vm_compute. apply list_elem_of_further, list_elem_of_here.
  - right. right. reflexivity.
Defined.

Lemma notEmpty_filled (path message : string) (v : Js.value) :
  filledAnswer v = true ->
  ExpressValidator.notEmpty path message (jsonProperty v) = [].
Proof.
  unfold ExpressValidator.notEmpty, ExpressValidator.run.
  destruct v as [| | b | n | s | l |]; simpl; try done.
  - intros Hs. destruct s; [done | reflexivity].
  - intros Hl. induction l as [| x l IH]; simpl in *; [done |].
    apply andb_true_iff in Hl as [Hx Hl]. destruct x as [| | b | n | s | l' |]; try done.
    destruct s; [done |]. simpl. by apply IH.
Qed.

Lemma requiredMixed_filled (v : Js.value) :
  filledAnswer v = true -> Submissions.requiredMixed (jsonProperty v) = true.
Proof. by destruct v. Qed.

Lemma typeName_nonempty (t : FieldType) :
  Submissions.requiredString (Some (typeName t)) = true.
Proof. by destruct t. Qed.

Lemma concat_imap_nil {A B : Type} (f : nat -> A -> list B) (l : list A) :
  (forall i x, x ∈ l -> f i x = []) -> concat (imap f l) = [].
Proof.
  revert f. induction l as [| x l IH]; intros f Hf; simpl; [done |].
  rewrite Hf by apply list_elem_of_here. simpl. apply IH.
  intros i y Hy. apply Hf. by apply list_elem_of_further.
Qed.

(** X9.  When every answer the page holds is filled in (a non-empty
    string, an array of non-empty strings, a file) and no field id of
    the form is empty, the body it sends for the id of a published form
    is accepted: the server stores one submission with one entry for
    each answer (the entry of a file answer without its value), and
    adds 1 to the counter of the form. *)
Theorem page_filled_answers_are_stored
    (formId : string) (form stored : Form.t) (st st' : PublicFormPage.state)
    (body : string * list SubmissionField.t) (oid : N)
    (now : Z) (ip userAgent : option string) (db : Store.t) :
  PublicFormPage.reachable formId form st ->
  PublicFormPage.handleSubmit formId form st = (Some body, st') ->
  (forall field, field ∈ Form.fields form -> FormField.id field <> "") ->
  (forall key v, (key, v) ∈ PublicFormPage.formData st -> filledAnswer v = true) ->
  castObjectId formId = Some oid ->
  Store.forms db !! oid = Some stored ->
  Form.status stored = published ->
  let req := asRequest ip userAgent body in
  Submissions.post now req db
  = (Submissions.Created (newSubmission now req oid db),
     {| Store.forms := alter (inc_submissions 1) oid (Store.forms db);
        Store.submissions := Store.submissions db ++ [newSubmission now req oid db];
        Store.next_id := (Store.next_id db + 1)%N |})
  /\ List.length (Submission.fields (newSubmission now req oid db))
     = List.length (PublicFormPage.formData st).
Proof.
  intros Hreach Hsub Hids Hfilled Hcast Hstored Hstatus req.
  destruct (page_keys_and_entries formId form st st' body Hreach Hsub)
    as (Ebody & Hlen & Hentries).
  assert (forall entry, entry ∈ Submissions.Request.fields req ->
            (exists k, SubmissionField.fieldId entry = Some k /\ k <> "")
            /\ (exists v, SubmissionField.value entry = jsonProperty v
                          /\ filledAnswer v = true)
            /\ Submissions.requiredString (SubmissionField.fieldType entry) = true)
    as Hreq.
  { intros entry Hentry. subst req. simpl in Hentry.
    apply list_elem_of_In, in_map_iff in Hentry as (e & <- & He). simpl.
    apply list_elem_of_In in He.
    destruct (Hentries e He) as (f & v & Hf & Hv & Eid & Etype & Eval).
    split; [| split].
    - exists (FormField.id f). split; [done | by apply Hids].
    - exists v. split; [by rewrite Eval | by eapply Hfilled].
    - rewrite Etype. apply typeName_nonempty. }
  split.
  - apply (post_created now req db oid stored); try done.
    + unfold Submissions.validateSubmission.
      assert (ExpressValidator.isMongoId (Submissions.Request.formId req) = true) as ->.
      { subst req. simpl. rewrite Ebody. by eapply castObjectId_isMongoId. }
      simpl. rewrite !concat_imap_nil; [done | |].
      * intros i entry Hentry. destruct (Hreq entry Hentry) as (_ & (v & -> & Hv) & _).
        by apply notEmpty_filled.
      * intros i entry Hentry. destruct (Hreq entry Hentry) as ((k & -> & Hk) & _ & _).
        simpl. by destruct k.
    + subst req. simpl. by rewrite Ebody.
    + unfold Submissions.schemaValid. apply forallb_forall. intros entry Hentry.
      apply list_elem_of_In in Hentry.
      destruct (Hreq entry Hentry) as ((k & -> & Hk) & (v & -> & Hv) & ->).
      rewrite requiredMixed_filled by done. by destruct k.
  - subst req. simpl. unfold Submissions.stored. by rewrite !length_map.
Qed.

Lemma page_filled_answers_are_stored_witness :
  let st := runPage formIdString tourForm tourToSecondStep in
  let body := (formIdString, PublicFormPage.submissionFields tourForm st) in
  PublicFormPage.reachable formIdString tourForm st
  /\ PublicFormPage.handleSubmit formIdString tourForm st
     = (Some body, snd (PublicFormPage.handleSubmit formIdString tourForm st))
  /\ exists submission db',
       Submissions.post 1000 (asRequest None None body) tourStore
       = (Submissions.Created submission, db')
       /\ List.length (Submission.fields submission) = 2%nat.
Proof.
  intros st body.
  assert (PublicFormPage.reachable formIdString tourForm st) as Hreach.
  { apply reachable_run. vm_compute. reflexivity. }
  assert (PublicFormPage.handleSubmit formIdString tourForm st
          = (Some body, snd (PublicFormPage.handleSubmit formIdString tourForm st))) as Hsub.
  { vm_compute. reflexivity. }
  split; [exact Hreach |]. split; [exact Hsub |].
  eexists _, _.
  apply (page_filled_answers_are_stored formIdString tourForm tourForm st _ body formOid
           1000 None None tourStore Hreach Hsub).
  - intros field Hfield. cbn [tourForm Form.fields] in Hfield.
    repeat (apply elem_of_cons in Hfield as [-> | Hfield]; [discriminate |]).
    exact (False_ind _ (proj1 (elem_of_nil _) Hfield)).
  - intros key v Hin. vm_compute in Hin.
    repeat (apply elem_of_cons in Hin as [[= -> ->] | Hin]; [reflexivity |]).
    exact (False_ind _ (proj1 (elem_of_nil _) Hin)).
  - vm_compute. reflexivity.
  - apply lookup_singleton_eq.
  - reflexivity.
Defined.


(** ** The form builder *)

Lemma unordered_withOrder (field : FormField.t) (index : nat) :
  unordered (FormBuilder.withOrder field index) = unordered field.
Proof. reflexivity. Qed.

Lemma unordered_reindex (fields : list FormField.t) :
  map unordered (FormBuilder.reindex fields) = map unordered fields.
Proof.
  unfold FormBuilder.reindex.
  assert (forall (k : nat) (l : list FormField.t),
            map unordered (imap (fun index field => FormBuilder.withOrder field (k + index)) l)
            = map unordered l) as H.
  { intros k l. revert k. induction l as [| f l IH]; intros k; simpl; [done |].
    f_equal. rewrite <- (IH (S k)). f_equal. apply imap_ext. intros i x _. simpl.
    f_equal. lia. }
  apply (H 0%nat).
Qed.

Lemma reindex_lookup (fields : list FormField.t) (i : nat) :
  FormBuilder.reindex fields !! i
  = (fun field => FormBuilder.withOrder field i) <$> fields !! i.
Proof. unfold FormBuilder.reindex. by rewrite list_lookup_imap. Qed.

(** X10.  Dropping the field dragged from index [source] at index
    [dest] puts it at [dest], or at the end of the list when [dest] is
    beyond it; the other fields keep their relative order; no property
    but [order] changes; and [order] becomes the index of each field. *)
Theorem handleDragEnd_moves_one_field
    (source dest : nat) (fields : list FormField.t) (moved : FormField.t) :
  fields !! source = Some moved ->
  exists fields',
    FormBuilder.handleDragEnd source (Some dest) fields = Some fields'
    /\ let landing := Nat.min dest (List.length fields - 1) in
       fields' !! landing = Some (FormBuilder.withOrder moved landing)
       /\ delete landing (map unordered fields') = delete source (map unordered fields)
       /\ List.length fields' = List.length fields
       /\ orderDense fields'.
Proof.
  intros Hsource. unfold FormBuilder.handleDragEnd. rewrite Hsource.
  eexists. split; [reflexivity |]. cbv zeta.
  set (landing := Nat.min dest (List.length fields - 1)).
  pose proof (lookup_lt_Some _ _ _ Hsource) as Hlt.
  set (removed := take source fields ++ drop (S source) fields).
  assert (removed = delete source fields) as Eremoved.
  { subst removed. by rewrite delete_take_drop. }
  assert (List.length removed = (List.length fields - 1)%nat) as Hlen.
  { rewrite Eremoved, length_delete; [lia | by eexists]. }
  assert (List.length (take dest removed) = landing) as Htake.
  { rewrite length_take. subst landing. lia. }
  split; [| split; [| split]].
  - rewrite reindex_lookup.
    assert ((take dest removed ++ moved :: drop dest removed) !! landing = Some moved)
      as ->; [| done].
    by apply list_lookup_middle.
  - rewrite unordered_reindex, map_app. simpl.
    assert (landing = List.length (map unordered (take dest removed))) as ->.
    { by rewrite length_map. }
    rewrite delete_middle. rewrite <- map_app, take_drop, Eremoved.
    clear. revert source. induction fields as [| f l IH]; intros [| source]; simpl; auto.
    by rewrite IH.
  - unfold FormBuilder.reindex. rewrite length_imap, length_app. simpl.
    rewrite length_take, length_drop. lia.
  - apply reindex_dense.
Qed.

Lemma handleDragEnd_moves_one_field_witness :
  exists fields',
    FormBuilder.handleDragEnd 0 (Some 5%nat) (Form.fields tourForm) = Some fields'
    /\ fields' !! 2%nat = Some (FormBuilder.withOrder nameField 2%nat)
    /\ map FormField.id fields' = ["f2"; "f3"; "f1"].
Proof.
  destruct (handleDragEnd_moves_one_field 0%nat 5%nat (Form.fields tourForm) nameField eq_refl)
    as (fields' & Hdrag & Hland & _).
  exists fields'. split; [exact Hdrag |]. split; [exact Hland |].
  vm_compute in Hdrag. injection Hdrag as <-. reflexivity.
Defined.

Lemma handleDeleteField_id (fieldId : string) (fields : list FormField.t) :
  fieldId ∉ map FormField.id fields ->
  FormBuilder.handleDeleteField fieldId fields = fields.
Proof.
  unfold FormBuilder.handleDeleteField.
  induction fields as [| f l IH]; simpl; [done |].
  intros [Hne Hl]%not_elem_of_cons.
  destruct (String.eqb_spec (FormField.id f) fieldId); [done |]. simpl. by rewrite IH.
Qed.

(** X11.  Deleting by id keeps no field with that id and keeps every
    other field, in the order they had.  When the id is not in the list
    the list is unchanged; when the ids are distinct, exactly the field
    at the index of that id is removed. *)
Theorem handleDeleteField_removes_that_field
    (fieldId : string) (fields : list FormField.t) :
  let fields' := FormBuilder.handleDeleteField fieldId fields in
  (forall field, field ∈ fields' <-> field ∈ fields /\ FormField.id field <> fieldId)
  /\ sublist fields' fields
  /\ (fieldId ∉ map FormField.id fields -> fields' = fields)
  /\ (NoDup (map FormField.id fields) ->
      forall i field, fields !! i = Some field -> FormField.id field = fieldId ->
        fields' = delete i fields).
Proof.
  intros fields'. subst fields'. split; [| split; [| split]].
  - intros field. unfold FormBuilder.handleDeleteField.
    rewrite list_elem_of_In, filter_In, <- list_elem_of_In.
    rewrite negb_true_iff.
    destruct (String.eqb_spec (FormField.id field) fieldId); split; intros [? ?]; done.
  - unfold FormBuilder.handleDeleteField.
    induction fields as [| f l IH]; simpl; [constructor |].
    destruct (negb _); by constructor.
  - apply handleDeleteField_id.
  - intros Hnodup i. revert Hnodup. revert i.
    induction fields as [| f l IH]; intros [| i] Hnodup field Hi Hid; simpl in *; try done.
    + injection Hi as ->. apply NoDup_cons in Hnodup as [Hf _].
      rewrite Hid, String.eqb_refl. simpl. apply handleDeleteField_id. by rewrite <- Hid.
    + apply NoDup_cons in Hnodup as [Hf Hnodup].
      destruct (String.eqb_spec (FormField.id f) fieldId) as [E | Hne]; simpl.
      * exfalso. apply Hf. rewrite E, <- Hid. apply list_elem_of_In, in_map.
        apply list_elem_of_In. by eapply list_elem_of_lookup_2.
      * f_equal. by eapply IH.
Qed.

Lemma handleDeleteField_snoc (newId : string) (fields : list FormField.t)
    (field : FormField.t) :
  newId ∉ map FormField.id fields -> FormField.id field = newId ->
  FormBuilder.handleDeleteField newId (fields ++ [field]) = fields.
Proof.
  intros Hfresh Hid. unfold FormBuilder.handleDeleteField.
  rewrite List.filter_app. simpl. rewrite Hid, String.eqb_refl. simpl. rewrite app_nil_r.
  by apply handleDeleteField_id.
Qed.

(** X12.  When the generated id is not yet in the list, adding a field
    and duplicating a field keep the ids distinct, the new field goes
    last with [order] equal to the old length, and deleting the new
    field again gives back the list as it was. *)
Theorem handleAddField_then_delete
    (newId : string) (fieldType : FieldType) (field : FormField.t)
    (fields : list FormField.t) :
  NoDup (map FormField.id fields) ->
  newId ∉ map FormField.id fields ->
  let added := FormBuilder.handleAddField newId fieldType fields in
  let duplicated := FormBuilder.handleDuplicateField newId field fields in
  NoDup (map FormField.id added)
  /\ NoDup (map FormField.id duplicated)
  /\ (exists new, added = fields ++ [new] /\ FormField.id new = newId
                  /\ FormField.type new = fieldType
                  /\ FormField.order new = Z.of_nat (List.length fields))
  /\ (exists copy, duplicated = fields ++ [copy] /\ FormField.id copy = newId
                   /\ FormField.type copy = FormField.type field
                   /\ FormField.label copy = FormField.label field +:+ " (Copy)"
                   /\ FormField.order copy = Z.of_nat (List.length fields))
  /\ FormBuilder.handleDeleteField newId added = fields
  /\ FormBuilder.handleDeleteField newId duplicated = fields.
Proof.
  intros Hnodup Hfresh added duplicated. subst added duplicated.
  unfold FormBuilder.handleAddField, FormBuilder.handleDuplicateField.
  assert (forall new, FormField.id new = newId ->
            NoDup (map FormField.id (fields ++ [new]))) as Hsnoc.
  { intros new Hid. rewrite map_app. simpl. rewrite Hid.
    apply NoDup_app. split; [done |]. split; [| apply NoDup_singleton].
    intros x Hx ->%list_elem_of_singleton. done. }
  split; [by apply Hsnoc |]. split; [by apply Hsnoc |].
  split; [by eexists |]. split; [by eexists |].
  split; by apply handleDeleteField_snoc.
Qed.

Lemma handleAddField_then_delete_witness :
  NoDup (map FormField.id (Form.fields tourForm))
  /\ ("f4" ∉ map FormField.id (Form.fields tourForm))
  /\ FormBuilder.handleDeleteField "f4"
       (FormBuilder.handleAddField "f4" select (Form.fields tourForm))
     = Form.fields tourForm
  /\ FormBuilder.handleDeleteField "f4"
       (FormBuilder.handleDuplicateField "f4" nameField (Form.fields tourForm))
     = Form.fields tourForm.
Proof.
  assert (NoDup (map FormField.id (Form.fields tourForm))) as Hnodup.
  { apply (bool_decide_unpack _). vm_compute. exact I. }
  assert ("f4" ∉ map FormField.id (Form.fields tourForm)) as Hfresh.
  { apply (bool_decide_unpack _). vm_compute. exact I. }
  split; [exact Hnodup |]. split; [exact Hfresh |].
  destruct (handleAddField_then_delete "f4" select nameField (Form.fields tourForm)
              Hnodup Hfresh) as (_ & _ & _ & _ & Hadd & Hdup).
  split; [exact Hadd | exact Hdup].
Defined.

Lemma bound_rule (sel : Validation.t -> option Z) (field : FormField.t) :
  PublicForm.bound sel field
  = match rule sel field with
    | Some n => if (n =? 0)%Z then None else Some n
    | None => None
    end.
Proof. unfold PublicForm.bound, rule. by destruct (FormField.validation field). Qed.

(** X13.  [validateField] reads the label, [required], the type, the
    length bounds of a text or textarea field and the options of a
    select, radio or checkbox field, and nothing else: two fields that
    agree on these give the same verdict on every value.  So the
    pattern, the [min] and [max] values, the length bounds of an email
    field, the file types and the maximum file size that the builder
    lets one set are never checked. *)
Theorem validateField_reads_only (f g : FormField.t) (value : Js.value) :
  FormField.label f = FormField.label g ->
  FormField.required f = FormField.required g ->
  FormField.type f = FormField.type g ->
  (isTextual (FormField.type f) = true ->
   rule Validation.minLength f = rule Validation.minLength g
   /\ rule Validation.maxLength f = rule Validation.maxLength g) ->
  (FormBuilder.hasOptions (FormField.type f) = true ->
   FormField.options f = FormField.options g) ->
  PublicForm.validateField f value = PublicForm.validateField g value
  /\ FormPreview.validateField f value = FormPreview.validateField g value.
Proof.
  intros Hlabel Hrequired Htype Hlen Hopts.
  assert (PublicForm.validateField f value = PublicForm.validateField g value) as E;
    [| split; [exact E | exact E]].
  unfold PublicForm.validateField. rewrite Hlabel, Hrequired.
  assert (PublicForm.typeRule f value = PublicForm.typeRule g value) as ->; [| done].
  unfold PublicForm.typeRule. rewrite <- Htype, Hlabel.
  destruct (FormField.type f) eqn:Hty; simpl in *; try done.
  - destruct (Hlen eq_refl) as [Hmin Hmax].
    assert (PublicForm.bound Validation.minLength f = PublicForm.bound Validation.minLength g)
      as -> by (by rewrite !bound_rule, Hmin).
    assert (PublicForm.bound Validation.maxLength f = PublicForm.bound Validation.maxLength g)
      as -> by (by rewrite !bound_rule, Hmax).
    done.
  - by rewrite (Hopts eq_refl).
  - by rewrite (Hopts eq_refl).
  - by rewrite (Hopts eq_refl).
  - destruct (Hlen eq_refl) as [Hmin Hmax].
    assert (PublicForm.bound Validation.minLength f = PublicForm.bound Validation.minLength g)
      as -> by (by rewrite !bound_rule, Hmin).
    assert (PublicForm.bound Validation.maxLength f = PublicForm.bound Validation.maxLength g)
      as -> by (by rewrite !bound_rule, Hmax).
    done.
Qed.

Lemma validateField_reads_only_witness :
  PublicForm.validateField bioField (Js.VStr "abcd") = ""
  /\ PublicForm.validateField digitsField (Js.VStr "abcd") = "".
Proof.
  destruct (validateField_reads_only bioField digitsField (Js.VStr "abcd")) as [E _];
    [reflexivity | reflexivity | reflexivity
     | intros _; split; reflexivity | intros [=] |].
  split; [reflexivity | rewrite <- E; reflexivity].
Defined.

(** ** The field configuration panel *)

Lemma filterIndex_keep {A : Type} (k index : nat) (l : list A) :
  (index < k)%nat ->
  map snd (List.filter (fun entry => negb (Nat.eqb (fst entry) index))
             (imap (fun i x => ((k + i)%nat, x)) l)) = l.
Proof.
  revert k. induction l as [| x l IH]; intros k Hlt; simpl; [done |].
  destruct (Nat.eqb_spec (k + 0) index) as [E | _]; [lia |]. simpl. f_equal.
  rewrite <- (IH (S k)) at 2 by lia. do 2 f_equal.
  apply imap_ext. intros i y _. simpl. f_equal. lia.
Qed.

Lemma filterIndex_from {A : Type} (k index : nat) (l : list A) :
  map snd (List.filter (fun entry => negb (Nat.eqb (fst entry) (k + index)))
             (imap (fun i x => ((k + i)%nat, x)) l)) = delete index l.
Proof.
  revert k index. induction l as [| x l IH]; intros k index; simpl; [done |].
  destruct index as [| index]; simpl.
  - rewrite Nat.eqb_refl. simpl.
    rewrite <- (filterIndex_keep (S k) (k + 0) l) at 2 by lia. do 2 f_equal.
    apply imap_ext. intros i y _. simpl. f_equal. lia.
  - destruct (Nat.eqb_spec (k + 0) (k + S index)) as [E | _]; [lia |]. simpl. f_equal.
    rewrite <- (IH (S k) index).
    replace (S k + index)%nat with (k + S index)%nat by lia. do 2 f_equal.
    apply imap_ext. intros i y _. simpl. f_equal. lia.
Qed.

Lemma filterIndex_delete {A : Type} (index : nat) (l : list A) :
  filterIndex index l = delete index l.
Proof. apply (filterIndex_from 0 index l). Qed.




(** X15.  The options block of the panel never leaves a choice field
    without an option: from a field with at least one option, each
    action the block offers (add, edit in place, remove unless one
    option is left) yields a non-empty list, hands exactly that list to
    the form, and changes no other property of the field.  An added
    option goes last, and removing it again restores the options. *)
Theorem panel_keeps_an_option (localField : FormField.t) (a : FieldConfigPanel.action) :
  FieldConfigPanel.optionsOf localField <> [] ->
  FieldConfigPanel.enabled localField a = true ->
  let options := FieldConfigPanel.optionsOf localField in
  exists localField' newOptions,
    FieldConfigPanel.perform a localField
    = Some (localField', FieldUpdates.ofOptions newOptions)
    /\ localField' = spread localField (FieldUpdates.ofOptions newOptions)
    /\ FormField.options localField' = Some newOptions
    /\ newOptions <> []
    /\ match a with
       | FieldConfigPanel.AddOption =>
           newOptions
           = options ++ ["Option " +:+ pretty (Z.of_nat (List.length options) + 1)]
           /\ FormField.options
                (fst (FieldConfigPanel.removeOption (List.length options) localField'))
              = Some options
       | FieldConfigPanel.UpdateOption index value =>
           newOptions = <[index := value]> options
       | FieldConfigPanel.RemoveOption index =>
           newOptions = delete index options
           /\ S (List.length newOptions) = List.length options
       end.
Proof.
  intros Hne Hen options. subst options.
  apply andb_true_iff in Hen as [_ Hen].
  destruct a as [| index value | index]; simpl in *.
  - eexists _, _. split; [reflexivity |]. split; [reflexivity |].
    split; [reflexivity |]. split; [by destruct (FieldConfigPanel.optionsOf localField) |].
    split; [reflexivity |].
    rewrite filterIndex_delete. f_equal.
    change (FieldConfigPanel.optionsOf (spread localField _))
      with (FieldConfigPanel.optionsOf localField
            ++ ["Option " +:+ pretty (Z.of_nat (List.length
                                                  (FieldConfigPanel.optionsOf localField)) + 1)]).
    rewrite delete_middle. by rewrite app_nil_r.
  - unfold FieldConfigPanel.updateOption. rewrite Hen.
    eexists _, _. split; [reflexivity |]. split; [reflexivity |].
    split; [reflexivity |]. split; [| done].
    intros E. apply (f_equal List.length) in E. rewrite length_insert in E.
    by destruct (FieldConfigPanel.optionsOf localField).
  - apply andb_true_iff in Hen as [Hlt%Nat.ltb_lt Hone%negb_true_iff%Nat.eqb_neq].
    eexists _, _. split; [reflexivity |]. split; [reflexivity |].
    split; [reflexivity |]. rewrite filterIndex_delete.
    assert (S (List.length (delete index (FieldConfigPanel.optionsOf localField)))
            = List.length (FieldConfigPanel.optionsOf localField)) as Hlen.
    { rewrite length_delete by (by apply lookup_lt_is_Some_2). lia. }
    split; [| done]. intros E. rewrite E in Hlen. simpl in Hlen. lia.
Qed.

Lemma panel_keeps_an_option_witness :
  exists localField' newOptions,
    FieldConfigPanel.perform (FieldConfigPanel.RemoveOption 0) colorsField
    = Some (localField', FieldUpdates.ofOptions newOptions)
    /\ newOptions = ["Blue"].
Proof.
  destruct (panel_keeps_an_option colorsField (FieldConfigPanel.RemoveOption 0))
    as (localField' & newOptions & Hperform & _ & _ & _ & Hnew & _);
    [done | reflexivity |].
  exists localField', newOptions. split; [exact Hperform | exact Hnew].
Defined.

(** ** Sizes of the steps *)

(** X16.  On a multi-step form with [n] fields and [k] step names, step
    [i] shows [min(size, n - i * size)] fields, where [size] is the
    ceiling of [n / k] and the difference stops at 0.  So a step is
    empty exactly when [i * size >= n], every step before a non-empty
    step is full, and the last steps can be empty: 4 fields over 3
    steps give sizes 2, 2 and 0. *)
Theorem getFieldsForStep_sizes (form : Form.t) (i : nat) :
  PublicForm.isMultiStep form = true ->
  let n := List.length (Form.fields form) in
  let size := ceil_div n (List.length (PublicForm.steps form)) in
  List.length (PublicForm.getFieldsForStep form i) = Nat.min size (n - i * size)
  /\ (PublicForm.getFieldsForStep form i = [] <-> (n <= i * size)%nat)
  /\ (forall j, (j < i)%nat -> PublicForm.getFieldsForStep form i <> [] ->
        List.length (PublicForm.getFieldsForStep form j) = size).
Proof.
  intros Hmulti n size.
  assert (forall j, List.length (PublicForm.getFieldsForStep form j)
                    = Nat.min size (n - j * size)) as Hlen.
  { intros j. destruct (getFieldsForStep_multi form j Hmulti) as [_ ->].
    apply slice_length. }
  destruct (getFieldsForStep_multi form 0 Hmulti) as [Hk _].
  assert (0 < n -> 0 < size)%nat as Hsize.
  { intros Hn. pose proof (ceil_div_upper n _ Hk). fold size in H. nia. }
  assert (forall j, PublicForm.getFieldsForStep form j = [] <-> (n <= j * size)%nat)
    as Hempty.
  { intros j. rewrite <- length_zero_iff_nil, Hlen. split; [| lia].
    intros Hmin. destruct (decide (n = 0%nat)); [lia |]. specialize (Hsize ltac:(lia)). lia. }
  split; [apply Hlen |]. split; [apply Hempty |].
  intros j Hj Hne. rewrite Hlen. rewrite Hempty in Hne. nia.
Qed.

Lemma getFieldsForStep_sizes_witness :
  PublicForm.isMultiStep fourFieldForm = true
  /\ List.length (PublicForm.getFieldsForStep fourFieldForm 0) = 2%nat
  /\ List.length (PublicForm.getFieldsForStep fourFieldForm 1) = 2%nat
  /\ PublicForm.getFieldsForStep fourFieldForm 2 = [].
Proof.
  split; [reflexivity |].
  split; [exact (proj1 (getFieldsForStep_sizes fourFieldForm 0 eq_refl)) |].
  split; [exact (proj1 (getFieldsForStep_sizes fourFieldForm 1 eq_refl)) |].
  apply (proj1 (proj2 (getFieldsForStep_sizes fourFieldForm 2 eq_refl))).
  vm_compute. lia.
Defined.

(** ** The form routes *)

Lemma updateStatus_found (failed : string) (status : FormStatus) (id : string)
    (oid : N) (form : Form.t) (db : Store.t) :
  castObjectId id = Some oid -> Store.forms db !! oid = Some form ->
  Forms.updateStatus failed status id db
  = (Forms.Data (Forms.setStatus status form),
     {| Store.forms := <[oid := Forms.setStatus status form]> (Store.forms db);
        Store.submissions := Store.submissions db;
        Store.next_id := Store.next_id db |}).
Proof. intros Hcast Hform. unfold Forms.updateStatus. by rewrite Hcast, Hform. Qed.

Lemma updateStatus_consistent (failed : string) (status : FormStatus) (id : string)
    (db : Store.t) :
  countersConsistent db -> countersConsistent (snd (Forms.updateStatus failed status id db)).
Proof.
  intros Hc. unfold Forms.updateStatus.
  destruct (castObjectId id) as [oid |]; [| done].
  destruct (Store.forms db !! oid) as [form |] eqn:Hform; [| done].
  unfold countersConsistent in *. simpl. apply map_Forall_insert_2; [| done].
  simpl. by apply (Hc oid form).
Qed.

(** X17.  Publication gates submissions.  After [unpublish] of a stored
    form, a request for it that passes the request gate is answered 400
    "Form is not published" and nothing is stored; after [publish], a
    request whose entries pass the schema is stored and counted.  The
    two routes change only the status of that one form, and keep the
    counters equal to the numbers of submissions. *)
Theorem publication_gates_submissions
    (id : string) (oid : N) (form : Form.t) (db : Store.t)
    (now : Z) (req : Submissions.Request.t) :
  castObjectId id = Some oid ->
  Store.forms db !! oid = Some form ->
  Submissions.Request.formId req = id ->
  Submissions.validateSubmission req = [] ->
  let closed := snd (Forms.unpublish id db) in
  let opened := snd (Forms.publish id db) in
  Submissions.post now req closed
  = (Submissions.Failure 400 "Form is not published" None, closed)
  /\ (Submissions.schemaValid (Submissions.Request.fields req) = true ->
      Submissions.post now req opened
      = (Submissions.Created (newSubmission now req oid opened),
         {| Store.forms :=
              <[oid := inc_submissions 1 (Forms.setStatus published form)]> (Store.forms db);
            Store.submissions := Store.submissions db ++ [newSubmission now req oid opened];
            Store.next_id := (Store.next_id db + 1)%N |}))
  /\ Store.forms closed = <[oid := Forms.setStatus draft form]> (Store.forms db)
  /\ Store.forms opened = <[oid := Forms.setStatus published form]> (Store.forms db)
  /\ Store.submissions closed = Store.submissions db
  /\ Store.submissions opened = Store.submissions db
  /\ (countersConsistent db -> countersConsistent closed /\ countersConsistent opened).
Proof.
  intros Hcast Hform Hid Hgate closed opened. subst closed opened.
  unfold Forms.unpublish, Forms.publish.
  rewrite !(updateStatus_found _ _ id oid form db Hcast Hform). simpl.
  split; [| split; [| do 4 (split; [reflexivity |]); intros Hc; split]].
  - unfold Submissions.post. rewrite Hgate, Hid, Hcast. simpl.
    by rewrite lookup_insert_eq.
  - intros Hschema.
    rewrite (post_created now req _ oid (Forms.setStatus published form)); try done.
    + simpl. f_equal. f_equal. apply map_eq. intros k.
      destruct (decide (k = oid)) as [-> | Hne].
      * by rewrite lookup_alter_eq, !lookup_insert_eq.
      * by rewrite lookup_alter_ne, !lookup_insert_ne.
    + by rewrite Hid.
    + simpl. by rewrite lookup_insert_eq.
  - pose proof (updateStatus_consistent "Failed to unpublish form" draft id db Hc) as H.
    by rewrite (updateStatus_found _ _ id oid form db Hcast Hform) in H.
  - pose proof (updateStatus_consistent "Failed to publish form" published id db Hc) as H.
    by rewrite (updateStatus_found _ _ id oid form db Hcast Hform) in H.
Qed.

Lemma publication_gates_submissions_witness :
  castObjectId formIdString = Some formOid
  /\ Store.forms contactStore !! formOid = Some contactForm
  /\ Submissions.validateSubmission validRequest = []
  /\ Submissions.post 1000 validRequest (snd (Forms.unpublish formIdString contactStore))
     = (Submissions.Failure 400 "Form is not published" None,
        snd (Forms.unpublish formIdString contactStore)).
Proof.
  assert (castObjectId formIdString = Some formOid) as Hcast by (vm_compute; reflexivity).
  assert (Submissions.validateSubmission validRequest = []) as Hgate
    by (vm_compute; reflexivity).
  split; [exact Hcast |]. split; [exact contactStore_lookup |]. split; [exact Hgate |].
  exact (proj1 (publication_gates_submissions formIdString formOid contactForm contactStore
                  1000 validRequest Hcast contactStore_lookup eq_refl Hgate)).
Defined.

Lemma delete_form_found (id : string) (oid : N) (form : Form.t) (db : Store.t) :
  castObjectId id = Some oid -> Store.forms db !! oid = Some form ->
  Forms.delete id db
  = (Forms.Success "Form deleted successfully",
     {| Store.forms := delete oid (Store.forms db);
        Store.submissions := Store.submissions db;
        Store.next_id := Store.next_id db |}).
Proof. intros Hcast Hform. unfold Forms.delete. by rewrite Hcast, Hform. Qed.

(** X18.  Deleting a form deletes the form only: its submissions stay
    in the collection (with consistent counters, as many as its counter
    said), the other forms are untouched, and from then on the form
    cannot be read (404) and a submission for it is answered 404
    "Form not found". *)
Theorem delete_form_keeps_submissions
    (id : string) (oid : N) (form : Form.t) (db : Store.t) :
  castObjectId id = Some oid ->
  Store.forms db !! oid = Some form ->
  let db' := snd (Forms.delete id db) in
  fst (Forms.delete id db) = Forms.Success "Form deleted successfully"
  /\ Store.submissions db' = Store.submissions db
  /\ Store.forms db' = delete oid (Store.forms db)
  /\ Forms.get id db' = Forms.Failure 404 "Form not found"
  /\ (forall now req,
        Submissions.Request.formId req = id ->
        Submissions.validateSubmission req = [] ->
        Submissions.post now req db' = (Submissions.Failure 404 "Form not found" None, db'))
  /\ (countersConsistent db ->
      countersConsistent db'
      /\ submissionCount oid (Store.submissions db') = Form.submissions form).
Proof.
  intros Hcast Hform db'. subst db'.
  rewrite (delete_form_found id oid form db Hcast Hform). simpl.
  do 3 (split; [reflexivity |]). split; [| split].
  - unfold Forms.get. rewrite Hcast. simpl. by rewrite lookup_delete_eq.
  - intros now req Hid Hgate. unfold Submissions.post.
    rewrite Hgate, Hid, Hcast. simpl. by rewrite lookup_delete_eq.
  - intros Hc. split.
    + unfold countersConsistent in *. simpl.
      by apply map_Forall_delete.
    + symmetry. by apply (Hc oid form).
Qed.

Lemma delete_form_keeps_submissions_witness :
  castObjectId formIdString = Some formOid
  /\ Store.forms doubleEntryStore !! formOid = Some (inc_submissions 1 contactForm)
  /\ List.length (Store.submissions (snd (Forms.delete formIdString doubleEntryStore)))
     = 1%nat
  /\ Forms.get formIdString (snd (Forms.delete formIdString doubleEntryStore))
     = Forms.Failure 404 "Form not found".
Proof.
  assert (castObjectId formIdString = Some formOid) as Hcast by (vm_compute; reflexivity).
  assert (Store.forms doubleEntryStore !! formOid = Some (inc_submissions 1 contactForm))
    as Hform by (vm_compute; reflexivity).
  split; [exact Hcast |]. split; [exact Hform |].
  destruct (delete_form_keeps_submissions formIdString formOid _ doubleEntryStore
              Hcast Hform) as (_ & Hsubs & _ & Hget & _).
  split; [by rewrite Hsubs | exact Hget].
Defined.

Lemma findByIdAndDelete_snoc (id : N) (coll : list Submission.t) (s : Submission.t) :
  Forall (fun x => Submission._id x <> id) coll ->
  Submission._id s = id ->
  Submissions.findByIdAndDelete id (coll ++ [s]) = Some (s, coll).
Proof.
  intros Hfresh Hid. induction Hfresh as [| x coll Hx _ IH]; simpl.
  - by rewrite Hid, N.eqb_refl.
  - destruct (N.eqb_spec (Submission._id x) id) as [E | _]; [done |]. by rewrite IH.
Qed.

Lemma inc_submissions_undo (form : Form.t) :
  inc_submissions (-1) (inc_submissions 1 form) = form.
Proof.
  destruct form as [title description fields settings status submissions].
  unfold inc_submissions. simpl. f_equal. lia.
Qed.

(** X19.  Deleting the submission that [post] has just created undoes
    the post: when no stored submission already has the id handed out,
    the forms (counter included) and the submissions are again what
    they were; only the id counter has moved on. *)
Theorem post_then_delete_restores
    (now : Z) (req : Submissions.Request.t) (db db1 : Store.t)
    (created : Submission.t) (id : string) :
  nextIdUnused db ->
  Submissions.post now req db = (Submissions.Created created, db1) ->
  castObjectId id = Some (Submission._id created) ->
  Submissions.delete id db1
  = (Submissions.Success "Submission deleted successfully",
     {| Store.forms := Store.forms db;
        Store.submissions := Store.submissions db;
        Store.next_id := (Store.next_id db + 1)%N |}).
Proof.
  intros Hunused Hpost Hcast.
  destruct (post_cases now req db)
    as [(formId & form & _ & _ & Hform & _ & _ & Hcreated) | (st & e & d & Hfail)];
    [| by rewrite Hfail in Hpost].
  rewrite Hcreated in Hpost. injection Hpost as <- <-.
  unfold Submissions.delete. rewrite Hcast.
  change (Submission._id (newSubmission now req formId db)) with (Store.next_id db).
  cbn [Store.submissions].
  rewrite (findByIdAndDelete_snoc (Store.next_id db) (Store.submissions db)
             (newSubmission now req formId db) Hunused eq_refl). simpl.
  f_equal. f_equal. apply map_eq. intros k.
  destruct (decide (k = formId)) as [-> | Hne].
  - rewrite !lookup_alter_eq, Hform. simpl. by rewrite inc_submissions_undo.
  - by rewrite !lookup_alter_ne.
Qed.

Lemma post_then_delete_restores_witness :
  nextIdUnused contactStore
  /\ fst (Submissions.post 1000 validRequest contactStore)
     = Submissions.Created (newSubmission 1000 validRequest formOid contactStore)
  /\ Submissions.delete firstSubmissionId (snd (Submissions.post 1000 validRequest contactStore))
     = (Submissions.Success "Submission deleted successfully",
        {| Store.forms := Store.forms contactStore;
           Store.submissions := [];
           Store.next_id := 2%N |}).
Proof.
  assert (nextIdUnused contactStore) as Hunused by constructor.
  split; [exact Hunused |]. split; [vm_compute; reflexivity |].
  apply (post_then_delete_restores 1000 validRequest contactStore _
           (newSubmission 1000 validRequest formOid contactStore) firstSubmissionId Hunused).
  - vm_compute. reflexivity.
  - vm_compute. reflexivity.
Defined.

(** ** Rates of the analytics report *)

Lemma recordField_distinct (fieldStats : list (string * Analytics.Stats.t))
    (entry : SubmissionField.t) :
  JsMap.distinctKeys String.eqb fieldStats ->
  JsMap.distinctKeys String.eqb (Analytics.recordField fieldStats entry).
Proof.
  intros Hd. rewrite recordField_unfold.
  destruct (SubmissionField.fieldId entry) as [id |]; [| done].
  destruct (JsMap.get String.eqb fieldStats id); [| done].
  by apply (set_distinct _ string_eqb_trans).
Qed.

Lemma collect_distinct (form : Form.t) (subs : list Submission.t) :
  JsMap.distinctKeys String.eqb (Analytics.collect form subs).
Proof.
  unfold Analytics.collect. rewrite recordSubmissions_entries.
  assert (JsMap.distinctKeys String.eqb (Analytics.initStats (Form.fields form))) as Hinit.
  { unfold Analytics.initStats.
    assert (forall (fields : list FormField.t) (acc : list (string * Analytics.Stats.t)),
              JsMap.distinctKeys String.eqb acc ->
              JsMap.distinctKeys String.eqb
                (foldl (fun fieldStats field =>
                          JsMap.set String.eqb fieldStats (FormField.id field)
                            (Analytics.Stats.mk 0 [])) acc fields)) as H.
    { induction fields as [| f fields IH]; intros acc Hacc; simpl; [done |].
      apply IH. by apply (set_distinct _ string_eqb_trans). }
    apply H. constructor. }
  revert Hinit. generalize (Analytics.initStats (Form.fields form)).
  induction (entries subs) as [| e es IH]; intros acc Hacc; simpl; [done |].
  apply IH. by apply recordField_distinct.
Qed.

(** Every entry of the collected statistics belongs to a field of the
    form and counts the entries that name it. *)
Lemma collect_entry (form : Form.t) (subs : list Submission.t)
    (fieldId : string) (stats : Analytics.Stats.t) :
  (fieldId, stats) ∈ Analytics.collect form subs ->
  (exists field, field ∈ Form.fields form /\ FormField.id field = fieldId)
  /\ Analytics.Stats.count stats = entryCount fieldId subs.
Proof.
  intros Hin.
  pose proof (elem_of_get String.eqb _ fieldId stats (collect_distinct form subs) Hin
                (String.eqb_refl fieldId)) as Hget.
  unfold Analytics.collect in Hget.
  rewrite recordSubmissions_entries, recordFields_get in Hget.
  unfold Analytics.initStats in Hget. rewrite initStats_get in Hget.
  destruct (existsb _ (Form.fields form)) eqn:Hex; simpl in Hget; [| done].
  injection Hget as <-. split.
  - apply existsb_exists in Hex as (field & Hfield & E%String.eqb_eq).
    exists field. by rewrite list_elem_of_In.
  - rewrite bump_count. simpl. done.
Qed.

Lemma named_once (fieldId : string) (es : list SubmissionField.t) :
  NoDup (map SubmissionField.fieldId es) ->
  (List.length (List.filter (forField fieldId) es) <= 1)%nat.
Proof.
  induction es as [| e es IH]; simpl; [lia |].
  intros [Hnot Hnodup]%NoDup_cons. specialize (IH Hnodup).
  destruct (forField fieldId e) eqn:He; simpl; [| lia].
  assert (List.filter (forField fieldId) es = []) as ->; [| simpl; lia].
  destruct (List.filter (forField fieldId) es) as [| e' rest] eqn:Hf; [done |].
  exfalso. apply Hnot.
  assert (In e' (List.filter (forField fieldId) es)) as Hin' by (rewrite Hf; by left).
  apply filter_In in Hin' as [Hin' He'].
  unfold forField in He, He'.
  destruct (SubmissionField.fieldId e) as [a |] eqn:Ea; [| done].
  destruct (SubmissionField.fieldId e') as [b |] eqn:Eb; [| done].
  apply String.eqb_eq in He, He'. subst a b. rewrite <- Eb.
  apply list_elem_of_In, in_map, Hin'.
Qed.

Lemma entryCount_le (fieldId : string) (subs : list Submission.t) :
  (forall s, s ∈ subs -> NoDup (map SubmissionField.fieldId (Submission.fields s))) ->
  0 <= entryCount fieldId subs <= Z.of_nat (List.length subs).
Proof.
  unfold entryCount, entries. intros Hsubs. split; [lia |].
  induction subs as [| s subs IH]; simpl; [lia |].
  rewrite List.filter_app, length_app.
  pose proof (named_once fieldId _ (Hsubs s (list_elem_of_here _ _))).
  assert (forall s', s' ∈ subs ->
            NoDup (map SubmissionField.fieldId (Submission.fields s'))) as Hrest.
  { intros s' Hs'. apply Hsubs. by apply list_elem_of_further. }
  specialize (IH Hrest). lia.
Qed.

Lemma find_le_count (formId : N) (start : Z) (coll : list Submission.t) :
  Z.of_nat (List.length (Analytics.find formId start coll)) <= submissionCount formId coll.
Proof.
  unfold Analytics.find, submissionCount.
  induction coll as [| s coll IH]; simpl; [lia |].
  destruct (Submission.formId s =? formId)%N; simpl; [| lia].
  destruct (_ <=? _)%Z; simpl; lia.
Qed.

Lemma rate_bounds (count submissions : Z) :
  0 <= count <= submissions ->
  (0 <= Analytics.rate count submissions)%Q /\ (Analytics.rate count submissions <= 100)%Q.
Proof.
  intros [Hlo Hhi]. unfold Analytics.rate.
  destruct (Z.ltb_spec 0 submissions) as [Hpos | _]; [| split; [apply Qle_refl | done]].
  destruct submissions as [| p | p]; try lia.
  unfold Qle, Qdiv, Qmult, Qinv. simpl. split; nia.
Qed.

(** X20.  When the counters are consistent and no stored submission
    names a field twice (as the submissions built by the public page),
    the report of a form is within bounds: the submissions of the
    period are at most the lifetime total, every field's
    [responseCount] is between 0 and the number of submissions of the
    period, and every [responseRate] is between 0 and 100.  The report
    has one entry per field id of the form, and none for other ids. *)
Theorem report_rates_within_bounds
    (now : Z) (formId : N) (period : string) (db : Store.t) (form : Form.t) :
  countersConsistent db ->
  Store.forms db !! formId = Some form ->
  (forall s, s ∈ Store.submissions db ->
     NoDup (map SubmissionField.fieldId (Submission.fields s))) ->
  exists report : Analytics.Report.t,
    Analytics.formAnalytics now formId period db = Some report
    /\ 0 <= Analytics.Report.periodSubmissions report
       <= Analytics.Report.totalSubmissions report
    /\ NoDup (map Analytics.FieldStat.fieldId (Analytics.Report.fieldStats report))
    /\ forall stat, stat ∈ Analytics.Report.fieldStats report ->
         (exists field, field ∈ Form.fields form
                        /\ FormField.id field = Analytics.FieldStat.fieldId stat)
         /\ 0 <= Analytics.FieldStat.responseCount stat
            <= Analytics.Report.periodSubmissions report
         /\ (0 <= Analytics.FieldStat.responseRate stat)%Q
         /\ (Analytics.FieldStat.responseRate stat <= 100)%Q.
Proof.
  intros Hc Hform Honce. unfold Analytics.formAnalytics. rewrite Hform.
  eexists. split; [reflexivity |]. simpl.
  set (subs := Analytics.find formId (Analytics.startDate now period) (Store.submissions db)).
  assert (Z.of_nat (List.length subs) <= Form.submissions form) as Hperiod.
  { rewrite (Hc formId form Hform). apply find_le_count. }
  assert (forall s, s ∈ subs -> NoDup (map SubmissionField.fieldId (Submission.fields s)))
    as Hsubs.
  { intros s Hs. apply Honce. subst subs. unfold Analytics.find in Hs.
    apply list_elem_of_In, filter_In in Hs as [Hs _]. by apply list_elem_of_In. }
  split; [lia |]. split.
  - rewrite map_map.
    rewrite (map_ext _ fst) by (by intros [k stats]).
    apply distinctKeys_NoDup, collect_distinct.
  - intros stat Hstat.
    apply list_elem_of_In, in_map_iff in Hstat as ([k stats] & <- & Hin).
    apply list_elem_of_In in Hin.
    destruct (collect_entry form subs k stats Hin) as [Hfield Hcount].
    destruct (fieldStat_of_entry form k stats) as (-> & -> & -> & _).
    pose proof (entryCount_le k subs Hsubs) as Hle. rewrite <- Hcount in Hle.
    split; [done |]. split; [done |]. apply rate_bounds. lia.
Qed.

Lemma report_rates_within_bounds_witness :
  countersConsistent oneSubmissionStore
  /\ exists report : Analytics.Report.t,
       Analytics.formAnalytics 2000 formOid "7d" oneSubmissionStore = Some report
       /\ Analytics.Report.periodSubmissions report = 1
       /\ forall stat, stat ∈ Analytics.Report.fieldStats report ->
            (Analytics.FieldStat.responseRate stat <= 100)%Q.
Proof.
  assert (countersConsistent oneSubmissionStore) as Hc.
  { apply post_consistent, contactStore_consistent. }
  split; [exact Hc |].
  destruct (report_rates_within_bounds 2000 formOid "7d" oneSubmissionStore
              (inc_submissions 1 contactForm) Hc)
    as (report & Hreport & _ & _ & Hstats).
  { vm_compute. reflexivity. }
  { intros s Hs. vm_compute in Hs.
    apply list_elem_of_singleton in Hs as ->.
    apply (bool_decide_unpack _). vm_compute. exact I. }
  exists report. split; [exact Hreport |]. split.
  - vm_compute in Hreport. injection Hreport as <-. reflexivity.
  - intros stat Hstat. apply (Hstats stat Hstat).
Defined.

(** ** The daily series *)



Section DailySeriesFacts.
Variable dateKey : Z -> string.











End DailySeriesFacts.


(** ** The CSV export *)

Lemma readCells_text (t acc : string) (tail : string) :
  Csv.readCells (Csv.doubleQuotes t +:+ String Csv.quote tail) acc
  = Csv.readCells (String Csv.quote tail) (acc +:+ t).
Proof.
  revert acc. induction t as [| c t IH]; intros acc.
  - by rewrite string_app_nil_l, string_app_nil_r.
  - cbn [Csv.doubleQuotes]. destruct (Ascii.eqb c Csv.quote) eqn:Hc.
    + apply Ascii.eqb_eq in Hc as ->. rewrite !string_app_cons.
      cbn [Csv.readCells]. rewrite Ascii.eqb_refl. rewrite IH.
      by rewrite string_app_assoc.
    + rewrite string_app_cons. cbn [Csv.readCells]. rewrite Hc. rewrite IH.
      by rewrite string_app_assoc.
Qed.

Lemma line_cons (v : Js.value) (values : list Js.value) :
  String.concat "," (map Csv.cell (v :: values))
  = String Csv.quote
      (Csv.doubleQuotes (Csv.text v) +:+ String Csv.quote ""
       +:+ match values with
           | [] => ""
           | _ => "," +:+ String.concat "," (map Csv.cell values)
           end).
Proof.
  simpl. destruct values as [| x values]; simpl.
  - unfold Csv.cell. by rewrite !string_app_nil_r.
  - unfold Csv.cell at 1. by rewrite string_app_cons, string_app_assoc.
Qed.

Lemma readCells_cells (values : list Js.value) (v : Js.value) :
  Csv.readCells
    (Csv.doubleQuotes (Csv.text v) +:+ String Csv.quote ""
     +:+ match values with
         | [] => ""
         | _ => "," +:+ String.concat "," (map Csv.cell values)
         end) ""
  = Some (map Csv.text (v :: values)).
Proof.
  revert v. induction values as [| w values IH]; intros v.
  - rewrite string_app_nil_r, readCells_text. reflexivity.
  - rewrite string_app_cons, string_app_nil_l, readCells_text, string_app_nil_l.
    rewrite line_cons.
    rewrite string_app_cons, string_app_nil_l.
    cbn [Csv.readCells]. rewrite Ascii.eqb_refl.
    replace (Ascii.eqb "," Csv.quote) with false by reflexivity.
    rewrite Ascii.eqb_refl. rewrite IH. reflexivity.
Qed.

Lemma readLine_line (values : list Js.value) :
  Csv.readLine (String.concat "," (map Csv.cell values)) = Some (map Csv.text values).
Proof.
  destruct values as [| v values]; [reflexivity |].
  rewrite <- (readCells_cells values v).
  by rewrite line_cons.
Qed.

(** X22.  A data line of the CSV export can be read back: reading the
    line as CSV (cells between quotes, a doubled quote for a quote,
    commas between cells) gives the texts of the cells, in order, where
    the text of a cell is [String(row[header] || '')].  So commas and
    quotes inside a value cannot shift or merge cells, and two lines
    are equal only if they have the same texts; a value that is falsy
    (0, false, the empty string, null, undefined) reads back as the
    empty text. *)
Theorem csv_line_reads_back (row : string -> Js.value) (headers : list string) :
  Csv.readLine (Csv.line row headers)
  = Some (map (fun header => Csv.text (row header)) headers)
  /\ (forall (row' : string -> Js.value) (headers' : list string),
        Csv.line row headers = Csv.line row' headers' ->
        map (fun header => Csv.text (row header)) headers
        = map (fun header => Csv.text (row' header)) headers')
  /\ (forall header, Js.truthy (row header) = false -> Csv.text (row header) = "").
Proof.
  assert (forall r hs, Csv.readLine (Csv.line r hs)
                       = Some (map (fun header => Csv.text (r header)) hs)) as Hread.
  { intros r hs. unfold Csv.line.
    rewrite <- (map_map r Csv.cell), readLine_line. by rewrite map_map. }
  split; [apply Hread |]. split.
  - intros row' headers' Hline.
    pose proof (Hread row headers) as H1. rewrite Hline, Hread in H1. by injection H1.
  - intros header Hfalsy. unfold Csv.text. by rewrite Hfalsy.
Qed.

(** ** The base URL of the API client *)

Lemma substring_app_suffix (p suffix : string) :
  String.substring (String.length p) (String.length suffix) (p +:+ suffix) = suffix.
Proof.
  induction p as [| c p IH].
  - rewrite string_app_nil_l. simpl. induction suffix as [| c s IH]; simpl; [done |].
    by rewrite IH.
  - rewrite string_app_cons. simpl. exact IH.
Qed.

Lemma string_app_length (s1 s2 : string) :
  String.length (s1 +:+ s2) = (String.length s1 + String.length s2)%nat.
Proof.
  induction s1 as [| c s1 IH]; [done |]. rewrite string_app_cons. simpl. by rewrite IH.
Qed.

Lemma endsWith_app (p suffix : string) : Api.endsWith (p +:+ suffix) suffix = true.
Proof.
  unfold Api.endsWith. rewrite string_app_length.
  replace (String.length p + String.length suffix - String.length suffix)%nat
    with (String.length p) by lia.
  rewrite substring_app_suffix, String.eqb_refl.
  rewrite andb_true_r. apply Nat.leb_le. lia.
Qed.

Lemma substring_split (n : nat) (s : string) :
  (n <= String.length s)%nat ->
  s = String.substring 0 n s +:+ String.substring n (String.length s - n) s.
Proof.
  revert s. induction n as [| n IH]; intros s Hn.
  - rewrite Nat.sub_0_r. simpl.
    assert (String.substring 0 0 s = "") as -> by (by destruct s).
    rewrite string_app_nil_l. clear. induction s as [| c s IH]; simpl; [done |].
    by rewrite <- IH.
  - destruct s as [| c s]; simpl in *; [lia |].
    rewrite string_app_cons. f_equal. apply IH. lia.
Qed.

Lemma endsWith_spec (s suffix : string) :
  Api.endsWith s suffix = true <-> exists p, s = p +:+ suffix.
Proof.
  split.
  - unfold Api.endsWith. intros [Hlen Heq]%andb_true_iff.
    apply Nat.leb_le in Hlen. apply String.eqb_eq in Heq.
    exists (String.substring 0 (String.length s - String.length suffix) s).
    pose proof (substring_split (String.length s - String.length suffix) s ltac:(lia)) as H.
    replace (String.length s - (String.length s - String.length suffix))%nat
      with (String.length suffix) in H by lia.
    by rewrite Heq in H.
  - intros [p ->]. apply endsWith_app.
Qed.

Lemma stripSlashes_snoc_slash (s : string) :
  Api.stripSlashes (s +:+ "/") = Api.stripSlashes s.
Proof.
  induction s as [| c s IH]; [reflexivity |].
  rewrite string_app_cons. simpl. by rewrite IH.
Qed.

Lemma stripSlashes_snoc_other (s : string) (c : ascii) :
  c <> "/"%char -> Api.stripSlashes (s +:+ String c "") = s +:+ String c "".
Proof.
  intros Hc. induction s as [| d s IH].
  - rewrite string_app_nil_l. simpl. by apply Ascii.eqb_neq in Hc as ->.
  - rewrite string_app_cons. simpl. rewrite IH.
    destruct s; rewrite ?string_app_nil_l, ?string_app_cons; simpl;
      by rewrite andb_false_r.
Qed.

Lemma stripSlashes_no_slash (s : string) :
  Api.endsWith (Api.stripSlashes s) "/" = false.
Proof.
  destruct (Api.endsWith (Api.stripSlashes s) "/") eqn:H; [| done].
  apply endsWith_spec in H as [p Hp]. exfalso.
  pose proof (f_equal Api.stripSlashes Hp) as E.
  rewrite stripSlashes_snoc_slash in E.
  assert (Api.stripSlashes (Api.stripSlashes s) = Api.stripSlashes s) as Hidem.
  { clear. induction s as [| c s IH]; [done |]. simpl.
    destruct (Ascii.eqb c "/" && String.eqb (Api.stripSlashes s) "") eqn:Hb; [done |].
    simpl. rewrite IH, Hb. done. }
  rewrite Hidem, Hp in E.
  assert (forall q, String.length (Api.stripSlashes q) <= String.length q)%nat as Hle.
  { clear. induction q as [| c q IH]; simpl; [lia |].
    destruct (Ascii.eqb c "/" && String.eqb (Api.stripSlashes q) ""); simpl; lia. }
  pose proof (Hle p) as Hlen. rewrite <- E, string_app_length in Hlen. simpl in Hlen. lia.
Qed.

Lemma app_last_inj (p q : string) (a b : ascii) :
  p +:+ String a "" = q +:+ String b "" -> p = q /\ a = b.
Proof.
  revert q. induction p as [| c p IH]; intros [| d q];
    rewrite ?string_app_nil_l, ?string_app_cons.
  - by intros [= ->].
  - intros [= -> H]. destruct q; rewrite ?string_app_nil_l, ?string_app_cons in H; done.
  - intros [= -> H]. destruct p; rewrite ?string_app_nil_l, ?string_app_cons in H; done.
  - intros [= -> H]. destruct (IH q H) as [-> ->]. done.
Qed.

Lemma endsWith_api_shape (s : string) :
  Api.endsWith s "/api" = true ->
  Api.endsWith s "/" = false /\ Api.stripSlashes s = s /\ String.eqb s "" = false.
Proof.
  intros [p ->]%endsWith_spec.
  assert (p +:+ "/api" = (p +:+ "/ap") +:+ String "i" "") as E.
  { by rewrite string_app_assoc. }
  split; [| split].
  - destruct (Api.endsWith (p +:+ "/api") "/") eqn:H; [| done].
    apply endsWith_spec in H as [q Hq]. rewrite E in Hq.
    by apply app_last_inj in Hq as [_ [=]].
  - rewrite E. by apply stripSlashes_snoc_other.
  - rewrite E. by destruct (p +:+ "/ap").
Qed.

(** X23.  [resolveBaseUrl] always gives a base URL that ends in [/api]
    and not in a slash; resolving its own result again changes
    nothing; one more slash at the end of the configured value makes
    no difference; and a value that already ends in [/api] is kept as
    it is. *)
Theorem resolveBaseUrl_normalises (envUrl : option string) :
  let base := Api.resolveBaseUrl envUrl in
  Api.endsWith base "/api" = true
  /\ Api.endsWith base "/" = false
  /\ Api.resolveBaseUrl (Some base) = base
  /\ (forall url, Api.resolveBaseUrl (Some (url +:+ "/")) = Api.resolveBaseUrl (Some url))
  /\ (forall url, Api.resolveBaseUrl (Some (url +:+ "/api")) = url +:+ "/api").
Proof.
  intros base.
  assert (Api.endsWith base "/api" = true) as Hends.
  { subst base. unfold Api.resolveBaseUrl. destruct envUrl as [url |]; [| reflexivity].
    destruct (String.eqb url ""); [reflexivity |].
    destruct (Api.endsWith (Api.stripSlashes url) "/api") eqn:H; [done |].
    apply endsWith_app. }
  destruct (endsWith_api_shape base Hends) as (Hslash & Hstrip & Hne).
  split; [done |]. split; [done |]. split; [| split].
  - unfold Api.resolveBaseUrl at 1. by rewrite Hne, Hstrip, Hends.
  - intros url. unfold Api.resolveBaseUrl. rewrite stripSlashes_snoc_slash.
    assert (String.eqb (url +:+ "/") "" = false) as -> by (by destruct url).
    destruct (String.eqb_spec url "") as [-> | _]; [reflexivity | done].
  - intros url. pose proof (endsWith_app url "/api") as H.
    destruct (endsWith_api_shape _ H) as (_ & Hs & Hn).
    unfold Api.resolveBaseUrl. by rewrite Hn, Hs, H.
Qed.
